(** * Chat-stream orchestration: a shallow embedding of the backend chat
    service (apps/backend/src/chat/chat.service.ts), its tool wiring
    (apps/backend/src/ai/tools/tools.service.ts) and the artifact
    handler registry (apps/backend/src/ai/artifacts).

    Conventions.
    - A JavaScript string is a [string]; [===] on strings is [String.eqb].
    - A [Date] is its epoch value in milliseconds, a [Z].
    - An [async] function that reads and writes the Store is a function
      in the monad [Svc]: explicit Store passing, with [Throw] for a
      thrown [HttpException].
    - A value that may be [undefined] or [null] is an [option]. *)

From Stdlib Require Import ZArith QArith List String Ascii Bool Lia.
Import ListNotations.

Local Open Scope string_scope.
Local Open Scope list_scope.
Local Open Scope Z_scope.

(** ** JavaScript string primitives used by the service *)

Module Js.

(** [s.startsWith(p)] *)
Definition startsWith (p s : string) : bool := String.prefix p s.

(** [s.includes(sub)]: some suffix of [s] starts with [sub]. *)
Fixpoint includes (sub s : string) : bool :=
  startsWith sub s ||
  match s with
  | EmptyString => false
  | String _ rest => includes sub rest
  end.

(** [s.substring(n)]; past the end the result is empty. *)
Fixpoint substringFrom (n : nat) (s : string) : string :=
  match n, s with
  | O, _ => s
  | S n', String _ rest => substringFrom n' rest
  | S _, EmptyString => EmptyString
  end.

(** [s.substring(0, n)] *)
Definition substringTo (n : nat) (s : string) : string := String.substring 0 n s.

(** [s.indexOf(p)], with [None] for [-1]. *)
Definition indexOf (p s : string) : option nat := String.index 0 p s.

(** White space removed by [trim]. A character of the model is a code
    unit below 256, so these are the members below 256 of the ECMAScript
    WhiteSpace and LineTerminator classes: tab, line feed, vertical tab,
    form feed, carriage return, space and the no-break space U+00A0. The
    members beyond (U+FEFF, U+2028, U+2029, the other space separators)
    are characters the model cannot hold. *)
Definition isWhiteSpace (c : ascii) : bool :=
  match nat_of_ascii c with
  | 9%nat | 10%nat | 11%nat | 12%nat | 13%nat | 32%nat | 160%nat => true
  | _ => false
  end.

Fixpoint trimStart (s : string) : string :=
  match s with
  | String c rest => if isWhiteSpace c then trimStart rest else s
  | EmptyString => EmptyString
  end.

Fixpoint trimEnd (s : string) : string :=
  match s with
  | EmptyString => EmptyString
  | String c rest =>
      match trimEnd rest with
      | EmptyString => if isWhiteSpace c then EmptyString else String c EmptyString
      | t => String c t
      end
  end.

(** [s.trim()] *)
Definition trim (s : string) : string := trimEnd (trimStart s).

(** Truthiness of a string: every string but the empty one. *)
Definition truthy (s : string) : bool :=
  match s with EmptyString => false | _ => true end.

End Js.

(** ** Data model *)

Inductive Role := user | assistant | system.

Definition Role_eqb (a b : Role) : bool :=
  match a, b with
  | user, user | assistant, assistant | system, system => true
  | _, _ => false
  end.

Inductive Visibility := public | private.

Definition Visibility_eqb (a b : Visibility) : bool :=
  match a, b with
  | public, public | private, private => true
  | _, _ => false
  end.

(** A typed content segment of a message ([UIMessagePart]). Only text
    parts are inspected by the service; the others are carried opaquely. *)
Inductive Part :=
| TextPart (text : string)
| ReasoningPart (text : string)
| ToolPart (toolName : string) (payload : string)
| DataPart (dataType : string) (payload : string).

(** [ChatMessage] (the UI message of @repo/api). *)
Record ChatMessage := mkChatMessage {
  cm_id : string;
  cm_role : Role;
  cm_parts : list Part;
  cm_createdAt : option Z
}.

(** [DBMessage], a row of the message table. *)
Record DBMessage := mkDBMessage {
  m_id : string;
  m_chatId : string;
  m_role : Role;
  m_parts : list Part;
  m_createdAt : Z
}.

Record Chat := mkChat {
  chat_id : string;
  chat_userId : string;
  chat_title : string;
  chat_visibility : Visibility
}.

Record StreamRecord := mkStreamRecord {
  sr_streamId : string;
  sr_chatId : string
}.

(** [JwtPayload]: the authenticated identity. *)
Record JwtPayload := mkJwtPayload {
  jwt_id : string;
  jwt_type : string
}.

(** ** The Store (@repo/db) *)

Module Db.

Record t := mk {
  chats : list Chat;
  messages : list DBMessage;
  streams : list StreamRecord
}.

Definition empty : t := mk [] [] [].

(** Modelled from the spec: @repo/db is not part of the sources at hand.
    "get chat": the chat with the given id, if any. *)
Definition getChatById (id : string) (db : t) : option Chat :=
  find (fun c => String.eqb (chat_id c) id) (chats db).

(** Modelled from the spec: @repo/db is not part of the sources at hand.
    "get messages by chat": the messages of the chat, in conversation
    (insertion) order. *)
Definition getMessagesByChatId (id : string) (db : t) : list DBMessage :=
  filter (fun m => String.eqb (m_chatId m) id) (messages db).

(** Modelled from the spec: @repo/db is not part of the sources at hand.
    "list stream identifiers by chat": append-only, oldest first. *)
Definition getStreamIdsByChatId (chatId : string) (db : t) : list string :=
  map sr_streamId
      (filter (fun r => String.eqb (sr_chatId r) chatId) (streams db)).

Definition ownedBy (userId : string) (db : t) (m : DBMessage) : bool :=
  match getChatById (m_chatId m) db with
  | Some c => String.eqb (chat_userId c) userId
  | None => false
  end.

(** Modelled from the spec: @repo/db is not part of the sources at hand.
    "count messages by user within a time window (for quota)": the user
    messages of the user's chats persisted in the last
    [differenceInHours] hours before [now]. *)
Definition getMessageCountByUserId
    (id : string) (differenceInHours : Z) (now : Z) (db : t) : Z :=
  Z.of_nat
    (List.length
       (filter (fun m => ownedBy id db m
                         && Role_eqb (m_role m) user
                         && (now - differenceInHours * 3600000 <=? m_createdAt m))
               (messages db))).

(** The write operations of the Store that the service calls. *)
Inductive op :=
| SaveChat (c : Chat)
| SaveMessages (ms : list DBMessage)
| UpdateMessage (id : string) (parts : list Part)
| CreateStreamId (streamId chatId : string).

(** Modelled from the spec: @repo/db is not part of the sources at hand.
    "create chat". *)
Definition saveChat (c : Chat) (db : t) : t :=
  mk (chats db ++ [c]) (messages db) (streams db).

(** Modelled from the spec: @repo/db is not part of the sources at hand.
    "save messages": inserted as new rows, in order. *)
Definition saveMessages (ms : list DBMessage) (db : t) : t :=
  mk (chats db) (messages db ++ ms) (streams db).

(** Modelled from the spec: @repo/db is not part of the sources at hand.
    "update in place": the parts of the row with this id are replaced;
    no row is added. *)
Definition updateMessage (id : string) (parts : list Part) (db : t) : t :=
  mk (chats db)
     (map (fun m => if String.eqb (m_id m) id
                    then mkDBMessage (m_id m) (m_chatId m) (m_role m) parts (m_createdAt m)
                    else m)
          (messages db))
     (streams db).

(** Modelled from the spec: @repo/db is not part of the sources at hand.
    "record stream identifiers by chat": one appended row per attempt. *)
Definition createStreamId (streamId chatId : string) (db : t) : t :=
  mk (chats db) (messages db) (streams db ++ [mkStreamRecord streamId chatId]).

Definition apply (o : op) (db : t) : t :=
  match o with
  | SaveChat c => saveChat c db
  | SaveMessages ms => saveMessages ms db
  | UpdateMessage id parts => updateMessage id parts db
  | CreateStreamId streamId chatId => createStreamId streamId chatId db
  end.

End Db.

(** ** Errors and the service monad *)

Inductive ChatSDKError :=
| rate_limit_chat
| forbidden_chat
| not_found_chat
| not_found_stream.

Inductive HttpStatus := TOO_MANY_REQUESTS | FORBIDDEN | NOT_FOUND.

Record HttpException := mkHttpException {
  exn_error : ChatSDKError;
  exn_status : HttpStatus
}.

Inductive Outcome (A : Type) :=
| Return (a : A)
| Throw (e : HttpException).
Arguments Return {A} a.
Arguments Throw {A} e.

(** The state a service method runs in: the Store, and the journal of
    the Store writes issued so far (oldest first). *)
Record World := mkWorld {
  w_db : Db.t;
  w_journal : list Db.op
}.

Definition initial (db : Db.t) : World := mkWorld db [].

(** An asynchronous service method: reads and writes the Store and
    either returns or throws. *)
Definition Svc (A : Type) : Type := World -> Outcome A * World.

Definition ret {A} (a : A) : Svc A := fun w => (Return a, w).

Definition throw {A} (e : HttpException) : Svc A := fun w => (Throw e, w).

Definition bind {A B} (m : Svc A) (k : A -> Svc B) : Svc B :=
  fun w =>
    match m w with
    | (Return a, w') => k a w'
    | (Throw e, w') => (Throw e, w')
    end.

(** A Store read. *)
Definition query {A} (f : Db.t -> A) : Svc A := fun w => (Return (f (w_db w)), w).

(** A Store write: applied to the Store and entered in the journal. *)
Definition exec (o : Db.op) : Svc unit :=
  fun w => (Return tt, mkWorld (Db.apply o (w_db w)) (w_journal w ++ [o])).

(** [for (const x of xs) { await body(x) }] *)
Fixpoint forEach {A} (body : A -> Svc unit) (xs : list A) : Svc unit :=
  match xs with
  | [] => ret tt
  | x :: rest => bind (body x) (fun _ => forEach body rest)
  end.

Declare Scope svc_scope.
Delimit Scope svc_scope with svc.
Notation "x <- m ;; k" := (bind m (fun x => k))
  (at level 61, m at next level, right associativity) : svc_scope.
Notation "m ;; k" := (bind m (fun _ => k))
  (at level 61, right associativity) : svc_scope.

(** ** The chat service *)

(** The request body of create-generation. *)
Record Dto := mkDto {
  dto_id : string;
  dto_message : option ChatMessage;
  dto_messages : option (list ChatMessage);
  dto_selectedChatModel : string;
  dto_selectedVisibilityType : Visibility
}.

(** An entry of [entitlementsByUserType]. *)
Record Entitlements := mkEntitlements {
  maxMessagesPerDay : Z
}.

(** The names of the tools offered to the model. *)
Inductive ToolName :=
| tool_getWeather
| tool_createDocument
| tool_updateDocument
| tool_requestSuggestions.

(** [smoothStream({ chunking })] *)
Inductive Chunking := chunking_word | chunking_line.

Inductive Transform := smoothStream (chunking : Chunking).

(** [providerOptions.anthropic.thinking] *)
Record Thinking := mkThinking {
  thinking_enabled : bool;
  thinking_budgetTokens : Z
}.

(** The options [createChatStream] passes to [streamText] that depend on
    the selected model. *)
Record StreamTextOptions := mkStreamTextOptions {
  stopWhen_stepCountIs : Z;
  experimental_activeTools : list ToolName;
  experimental_transform : option Transform;
  providerOptions : option Thinking;
  sendReasoning : bool
}.

(** What [createChatStream] has set up when it returns its observable:
    the closure variables of [execute] and [onFinish]. An element [None]
    of [uiMessages] is an [undefined] array element. *)
Record StreamSetup := mkStreamSetup {
  ss_id : string;
  ss_streamId : string;
  ss_isToolApprovalFlow : bool;
  ss_uiMessages : list (option ChatMessage);
  ss_originalMessages : option (list (option ChatMessage));
  ss_titlePromise : option ChatMessage;
  ss_options : StreamTextOptions
}.

(** A suggestion as the tool builds it, before the Store adds [userId],
    [createdAt] and [documentCreatedAt]. *)
Record Suggestion := mkSuggestion {
  sg_originalText : string;
  sg_suggestedText : string;
  sg_description : string;
  sg_id : string;
  sg_documentId : string;
  sg_isResolved : bool
}.

(** An event written to a UI message stream ([writer.write]). All the
    [data-*] events below but [data-chat-title] are written with
    [transient: true]. The payload of [data-appendMessage] is the JSON
    serialisation of the row; it is represented by the row. *)
Inductive UIMessageChunk :=
| data_chat_title (title : string)
| data_appendMessage (message : DBMessage)
| data_kind (kind : string)
| data_id (id : string)
| data_title (title : string)
| data_clear
| data_finish
| data_codeDelta (code : string)
| data_delta (dataType : string) (payload : string)
| data_suggestion (suggestion : Suggestion)
| error_chunk (errorText : string).

(** What [streamContext.resumableStream(streamId, makeStream)] resolves
    to: a stream attached to the live feed (given by the chunks it will
    deliver before it is done), [null] when the feed has concluded, or a
    rejection. *)
Inductive Resumed :=
| attached (chunks : list string)
| concluded
| rejected.

(** [ResumableStreamContext] of the resumable-stream package. *)
Record ResumableStreamContext := mkResumableStreamContext {
  resumableStream : string -> Resumed
}.

(** The observable [getResumableStream] returns, represented by what it
    emits before it completes: the wire chunks of the live feed, or the
    frames of a UI message stream whose [execute] wrote the given events
    (one frame per event). *)
Inductive ResumeFeed :=
| LiveFeed (chunks : list string)
| EventFeed (events : list UIMessageChunk).

Module ChatService.

Local Open Scope svc_scope.

(** [message?.role === "user"] *)
Definition roleIsUser (message : option ChatMessage) : bool :=
  match message with
  | Some m => Role_eqb (cm_role m) user
  | None => false
  end.

(** [Boolean(messages)]: an array, even an empty one, is truthy. *)
Definition Boolean {A} (messages : option A) : bool :=
  match messages with Some _ => true | None => false end.

(** [formatISO(date)] of date-fns writes a date to the second. The
    text is represented by the instant it denotes, in milliseconds: the
    date without its milliseconds. *)
Definition formatISO (date : Z) : Z := 1000 * (date / 1000).

Definition convertToUIMessages (messages : list DBMessage) : list ChatMessage :=
  map (fun message =>
         mkChatMessage (m_id message) (m_role message) (m_parts message)
                       (Some (formatISO (m_createdAt message))))
      messages.

Definition getTextFromMessage (message : ChatMessage) : string :=
  String.concat ""
    (flat_map (fun part => match part with TextPart text => [text] | _ => [] end)
              (cm_parts message)).

Definition isReasoningModel (selectedChatModel : string) : bool :=
  Js.includes "reasoning" selectedChatModel || Js.includes "thinking" selectedChatModel.

(** The model-dependent arguments of the [streamText] call in [execute]. *)
Definition streamTextOptions (selectedChatModel : string) : StreamTextOptions :=
  mkStreamTextOptions
    5
    (if isReasoningModel selectedChatModel
     then []
     else [tool_getWeather; tool_createDocument; tool_updateDocument;
           tool_requestSuggestions])
    (if isReasoningModel selectedChatModel
     then None
     else Some (smoothStream chunking_word))
    (if isReasoningModel selectedChatModel
     then Some (mkThinking true 10000)
     else None)
    true.

Section Service.

(** [entitlementsByUserType] of ../ai/entitlements, keyed by [user.type]. *)
Variable entitlementsByUserType : string -> Entitlements.

(** The clock: the value of [new Date()] during the call. *)
Variable now : Z.

(** The identifier the call to [generateUUID()] yields. *)
Variable generateUUID : string.

Definition createChatStream (dto : Dto) (usr : JwtPayload) : Svc StreamSetup :=
  let id := dto_id dto in
  let message := dto_message dto in
  let messages := dto_messages dto in
  messageCount <- query (Db.getMessageCountByUserId (jwt_id usr) 24 now) ;;
  if messageCount >? maxMessagesPerDay (entitlementsByUserType (jwt_type usr)) then
    throw (mkHttpException rate_limit_chat TOO_MANY_REQUESTS)
  else
    let isToolApprovalFlow := Boolean messages in
    chat <- query (Db.getChatById id) ;;
    loaded <-
      match chat with
      | Some c =>
          if negb (String.eqb (chat_userId c) (jwt_id usr)) then
            throw (mkHttpException forbidden_chat FORBIDDEN)
          else if negb isToolApprovalFlow then
            messagesFromDb <- query (Db.getMessagesByChatId id) ;;
            ret (messagesFromDb, None)
          else ret ([], None)
      | None =>
          if roleIsUser message then
            exec (Db.SaveChat
                    (mkChat id (jwt_id usr) "New chat" (dto_selectedVisibilityType dto))) ;;
            ret ([], message)
          else ret ([], None)
      end ;;
    let messagesFromDb : list DBMessage := fst loaded in
    let titlePromise : option ChatMessage := snd loaded in
    let uiMessages :=
      match messages with
      | Some ms => map Some ms
      | None => map Some (convertToUIMessages messagesFromDb) ++ [message]
      end in
    (if roleIsUser message then
       match message with
       | Some m => exec (Db.SaveMessages [mkDBMessage (cm_id m) id user (cm_parts m) now])
       | None => ret tt
       end
     else ret tt) ;;
    let streamId := generateUUID in
    exec (Db.CreateStreamId streamId id) ;;
    ret (mkStreamSetup id streamId isToolApprovalFlow uiMessages
           (if isToolApprovalFlow then Some uiMessages else None)
           titlePromise
           (streamTextOptions (dto_selectedChatModel dto))).

(** [uiMessages.find((m) => m.id === finishedMsg.id)]; the find is only
    evaluated in the approval branch, where no element is [undefined]. *)
Definition findById (uiMessages : list (option ChatMessage)) (id : string)
  : option (option ChatMessage) :=
  find (fun m => match m with
                 | Some m' => String.eqb (cm_id m') id
                 | None => false
                 end) uiMessages.

Definition toDBMessage (chatId : string) (createdAt : Z) (msg : ChatMessage) : DBMessage :=
  mkDBMessage (cm_id msg) chatId (cm_role msg) (cm_parts msg) createdAt.

(** The [onFinish] callback of the UI message stream. *)
Definition onFinish (setup : StreamSetup) (finishedMessages : list ChatMessage) : Svc unit :=
  let id := ss_id setup in
  let uiMessages := ss_uiMessages setup in
  if ss_isToolApprovalFlow setup then
    forEach
      (fun finishedMsg =>
         match findById uiMessages (cm_id finishedMsg) with
         | Some _ => exec (Db.UpdateMessage (cm_id finishedMsg) (cm_parts finishedMsg))
         | None => exec (Db.SaveMessages [toDBMessage id now finishedMsg])
         end)
      finishedMessages
  else if (0 <? Z.of_nat (List.length finishedMessages)) then
    exec (Db.SaveMessages (map (toDBMessage id now) finishedMessages))
  else ret tt.

(** [differenceInSeconds(later, earlier)] of date-fns: the difference in
    milliseconds divided by 1000, rounded towards zero. *)
Definition differenceInSeconds (later earlier : Z) : Z :=
  Z.quot (later - earlier) 1000.

(** [xs.at(-1)] *)
Definition at_last {A} (xs : list A) : option A :=
  match rev xs with
  | [] => None
  | x :: _ => Some x
  end.

(** The [streamContext] field: [None] when resumable streams are
    disabled. *)
Variable streamContext : option ResumableStreamContext.

Definition getChatWithMessages (chatId userId : string)
  : Svc (Chat * list ChatMessage) :=
  chat <- query (Db.getChatById chatId) ;;
  match chat with
  | None => throw (mkHttpException not_found_chat NOT_FOUND)
  | Some c =>
      if Visibility_eqb (chat_visibility c) private
         && negb (String.eqb (chat_userId c) userId) then
        throw (mkHttpException forbidden_chat FORBIDDEN)
      else
        messagesFromDb <- query (Db.getMessagesByChatId chatId) ;;
        let uiMessages := convertToUIMessages messagesFromDb in
        ret (c, uiMessages)
  end.

(** The fallback of [getResumableStream], once the live feed is known to
    have concluded. *)
Definition restoreFromDatabase (chatId : string) (resumeRequestedAt : Z)
  : Svc (option ResumeFeed) :=
  messages <- query (Db.getMessagesByChatId chatId) ;;
  match at_last messages with
  | None => ret (Some (EventFeed []))
  | Some mostRecentMessage =>
      if negb (Role_eqb (m_role mostRecentMessage) assistant) then
        ret (Some (EventFeed []))
      else
        let messageCreatedAt := m_createdAt mostRecentMessage in
        if differenceInSeconds resumeRequestedAt messageCreatedAt >? 15 then
          ret (Some (EventFeed []))
        else
          ret (Some (EventFeed [data_appendMessage mostRecentMessage]))
  end.

Definition getResumableStream (chatId userId : string) : Svc (option ResumeFeed) :=
  match streamContext with
  | None => ret None
  | Some context =>
      chat <- query (Db.getChatById chatId) ;;
      match chat with
      | None => throw (mkHttpException not_found_chat NOT_FOUND)
      | Some c =>
          if Visibility_eqb (chat_visibility c) private
             && negb (String.eqb (chat_userId c) userId) then
            throw (mkHttpException forbidden_chat FORBIDDEN)
          else
            let resumeRequestedAt := now in
            streamIds <- query (Db.getStreamIdsByChatId chatId) ;;
            if (List.length streamIds =? 0)%nat then
              throw (mkHttpException not_found_stream NOT_FOUND)
            else
            match at_last streamIds with
            | None => throw (mkHttpException not_found_stream NOT_FOUND)
            | Some recentStreamId =>
                if negb (Js.truthy recentStreamId) then
                  throw (mkHttpException not_found_stream NOT_FOUND)
                else
                  match resumableStream context recentStreamId with
                  | attached chunks => ret (Some (LiveFeed (filter Js.truthy chunks)))
                  | concluded => restoreFromDatabase chatId resumeRequestedAt
                  | rejected => ret None
                  end
            end
      end
  end.

End Service.

End ChatService.

(** ** JSON values, as [JSON.parse] yields them *)

Module Json.

(** The fields of an object are its own properties in property order
    (the order of [Object.values]); [JSON.parse] yields no duplicate
    key. *)
#[warnings="-register-all"]
Inductive t :=
| null
| boolean (b : bool)
| number (n : Q)
| str (s : string)
| array (elements : list t)
| object (fields : list (string * t)).

(** Truthiness of a value that is not [undefined]. *)
Definition truthy (v : t) : bool :=
  match v with
  | null => false
  | boolean b => b
  | number n => negb (Qeq_bool n 0)
  | str s => Js.truthy s
  | array _ => true
  | object _ => true
  end.

(** Truthiness of the result of a property read. *)
Definition truthy_opt (v : option t) : bool :=
  match v with Some v' => truthy v' | None => false end.

(** [typeof v === "object" && v !== null] *)
Definition isObject (v : t) : bool :=
  match v with
  | array _ | object _ => true
  | _ => false
  end.

(** [typeof v === "string"] *)
Definition isString (v : t) : bool :=
  match v with str _ => true | _ => false end.

Fixpoint lookup (key : string) (fields : list (string * t)) : option t :=
  match fields with
  | [] => None
  | (k, v) :: rest => if String.eqb k key then Some v else lookup key rest
  end.

(** [v.key] for a name that is no built-in property ([type],
    [finishReason], [unified]), on a value other than [null]: [None] is
    [undefined]. *)
Definition get (v : t) (key : string) : option t :=
  match v with
  | object fields => lookup key fields
  | _ => None
  end.

Fixpoint update (key : string) (x : t) (fields : list (string * t))
  : list (string * t) :=
  match fields with
  | [] => [(key, x)]
  | (k, v) :: rest =>
      if String.eqb k key then (k, x) :: rest else (k, v) :: update key x rest
  end.

(** [v.key = x] on an object: an existing property keeps its place. *)
Definition set (v : t) (key : string) (x : t) : t :=
  match v with
  | object fields => object (update key x fields)
  | _ => v
  end.

(** [Object.values(v)] for an object or an array. *)
Definition values (v : t) : list t :=
  match v with
  | object fields => map snd fields
  | array elements => elements
  | _ => []
  end.

End Json.

(** ** The transport adapter of [createChatStream] *)

Module Transport.

Definition delimiter : string := String "010" (String "010" EmptyString).

(** The part of [extractAndTransformJson] between [JSON.parse] and
    [JSON.stringify]; [None] when it throws (reading [parsed.type] of
    [null]). *)
Definition transformFinishReason (parsed : Json.t) : option Json.t :=
  match parsed with
  | Json.null => None
  | _ =>
      match Json.get parsed "type", Json.get parsed "finishReason" with
      | Some (Json.str "finish"), Some finishReason =>
          if Json.truthy finishReason then
            if Json.isObject finishReason then
              if Json.truthy_opt (Json.get finishReason "unified") then
                match Json.get finishReason "unified" with
                | Some unified => Some (Json.set parsed "finishReason" unified)
                | None => Some parsed
                end
              else
                match Json.values finishReason with
                | first :: _ =>
                    if Json.isString first
                    then Some (Json.set parsed "finishReason" first)
                    else Some parsed
                | [] => Some parsed
                end
            else Some parsed
          else Some parsed
      | _, _ => Some parsed
      end
  end.

(** State of the pump: the frame buffer, the items handed to
    [subscriber.next] and the lines written with [console.warn]. *)
Record PumpState := mkPumpState {
  buffer : string;
  delivered : list string;
  console : list string
}.

(** How the observable ends: [subscriber.complete()] or
    [subscriber.error(e)]. *)
Inductive Terminal := completed | errored.

(** How the source stream ends: [done], or a rejected [read()]. *)
Inductive Ending := done | failure.

Section Adapter.

(** [JSON.parse]: [None] for a [SyntaxError]. *)
Variable JSON_parse : string -> option Json.t.

(** [JSON.stringify] *)
Variable JSON_stringify : Json.t -> string.

(** The text handed to [JSON.parse]. *)
Definition payloadOf (sseMessage : string) : string :=
  let jsonData := Js.trim sseMessage in
  if Js.startsWith "data: " jsonData then Js.substringFrom 6 jsonData else jsonData.

(** The result ([None] for [null]) and the warnings written. *)
Definition extractAndTransformJson (sseMessage : string) : option string * list string :=
  let jsonData := payloadOf sseMessage in
  match JSON_parse jsonData with
  | Some parsed =>
      match transformFinishReason parsed with
      | Some parsed' => (Some (JSON_stringify parsed'), [])
      | None => (None, [Js.substringTo 100 jsonData])
      end
  | None => (None, [Js.substringTo 100 jsonData])
  end.

(** [if (message.trim()) { const jsonData = extractAndTransformJson(message.trim());
    if (jsonData) subscriber.next({ data: jsonData }) }] *)
Definition emitMessage (message : string) (st : PumpState) : PumpState :=
  if Js.truthy (Js.trim message) then
    let (jsonData, warnings) := extractAndTransformJson (Js.trim message) in
    match jsonData with
    | Some data =>
        if Js.truthy data
        then mkPumpState (buffer st) (delivered st ++ [data]) (console st ++ warnings)
        else mkPumpState (buffer st) (delivered st) (console st ++ warnings)
    | None => mkPumpState (buffer st) (delivered st) (console st ++ warnings)
    end
  else st.

(** The inner [while (true)] of the pump: complete messages are cut off
    the buffer and processed until no delimiter is left. [None] when the
    fuel runs out. *)
Fixpoint drain (fuel : nat) (st : PumpState) : option PumpState :=
  match fuel with
  | O => None
  | S fuel' =>
      match Js.indexOf delimiter (buffer st) with
      | None => Some st
      | Some messageEndIndex =>
          let completeMessage := Js.substringTo messageEndIndex (buffer st) in
          let rest := Js.substringFrom (messageEndIndex + 2) (buffer st) in
          drain fuel' (emitMessage completeMessage
                         (mkPumpState rest (delivered st) (console st)))
      end
  end.

(** The outer [while (true)]: one iteration per [reader.read()]. *)
Fixpoint pumpLoop (reads : list string) (ending : Ending) (st : PumpState)
  : option (PumpState * Terminal) :=
  match reads with
  | [] =>
      match ending with
      | done => Some (emitMessage (buffer st) st, completed)
      | failure => Some (st, errored)
      end
  | value :: rest =>
      if Js.truthy value then
        let st' := mkPumpState (buffer st ++ value) (delivered st) (console st) in
        match drain (S (String.length (buffer st'))) st' with
        | Some st'' => pumpLoop rest ending st''
        | None => None
        end
      else pumpLoop rest ending st
  end.

Definition pump (reads : list string) (ending : Ending) : option (PumpState * Terminal) :=
  pumpLoop reads ending (mkPumpState "" [] []).

End Adapter.

End Transport.

(** ** Artifact handlers (apps/backend/src/ai/artifacts) *)

Module Artifacts.

(** [ArtifactKind = "text" | "code" | "sheet"] *)
Inductive ArtifactKind := kind_text | kind_code | kind_sheet.

(** The string an [ArtifactKind] is at run time. *)
Definition kindName (k : ArtifactKind) : string :=
  match k with
  | kind_text => "text"
  | kind_code => "code"
  | kind_sheet => "sheet"
  end.

(** A row of the document table; [kind] is the stored string. *)
Record Document := mkDocument {
  doc_id : string;
  doc_title : string;
  doc_content : option string;
  doc_kind : string;
  doc_userId : string;
  doc_createdAt : Z
}.

(** A suggestion as handed to [saveSuggestions]. *)
Record SuggestionRow := mkSuggestionRow {
  row_suggestion : Suggestion;
  row_userId : string;
  row_createdAt : Z;
  row_documentCreatedAt : Z
}.

(** What a tool does while it executes, in order: a write to the
    outbound stream ([dataStream.write]) or a Store write. *)
Inductive ToolEffect :=
| Emit (chunk : UIMessageChunk)
| SaveDocument (id title content : string) (kind : ArtifactKind) (userId : string)
| SaveSuggestions (suggestions : list SuggestionRow).

Record CreateDocumentCallbackProps := mkCreateProps {
  cp_id : string;
  cp_title : string;
  cp_session : JwtPayload
}.

Record UpdateDocumentCallbackProps := mkUpdateProps {
  up_document : Document;
  up_description : string;
  up_session : JwtPayload
}.

(** The argument of [createDocumentHandler]: a generator yields the
    events it writes and the draft content it returns. *)
Record HandlerConfig := mkHandlerConfig {
  cfg_kind : ArtifactKind;
  cfg_onCreateDocument : CreateDocumentCallbackProps -> list UIMessageChunk * string;
  cfg_onUpdateDocument : UpdateDocumentCallbackProps -> list UIMessageChunk * string
}.

Record DocumentHandler := mkDocumentHandler {
  kind : ArtifactKind;
  onCreateDocument : CreateDocumentCallbackProps -> list ToolEffect;
  onUpdateDocument : UpdateDocumentCallbackProps -> list ToolEffect
}.

Definition createDocumentHandler (config : HandlerConfig) : DocumentHandler :=
  mkDocumentHandler
    (cfg_kind config)
    (fun args =>
       let (written, draftContent) := cfg_onCreateDocument config args in
       map Emit written ++
       (if Js.truthy (jwt_id (cp_session args))
        then [SaveDocument (cp_id args) (cp_title args) draftContent (cfg_kind config)
                (jwt_id (cp_session args))]
        else []))
    (fun args =>
       let (written, draftContent) := cfg_onUpdateDocument config args in
       map Emit written ++
       (if Js.truthy (jwt_id (up_session args))
        then [SaveDocument (doc_id (up_document args)) (doc_title (up_document args))
                draftContent (cfg_kind config) (jwt_id (up_session args))]
        else [])).

(** A part of the [fullStream] of [streamObject]: an object part carries
    the code generated so far, if any. *)
Inductive Delta :=
| object_delta (code : option string)
| other_delta.

(** A request to the artifact model. *)
Inductive CodeRequest :=
| create_code (title : string)
| update_code (content : option string) (description : string).

(** The [for await] loop of the code handler. *)
Definition collectCode (fullStream : list Delta) : list UIMessageChunk * string :=
  fold_left
    (fun acc delta =>
       match delta with
       | object_delta (Some code) =>
           if Js.truthy code then (fst acc ++ [data_codeDelta code], code) else acc
       | _ => acc
       end)
    fullStream ([], "").

Section Registry.

(** [streamObject] on the artifact model. *)
Variable streamObject : CodeRequest -> list Delta.

(** Modelled from the spec: text.handler.ts and sheet.handler.ts are not
    part of the sources at hand; the registry holds "text/code/sheet
    generators", so these are the generators of kind text and sheet. *)
Variable textGenerators sheetGenerators :
  (CreateDocumentCallbackProps -> list UIMessageChunk * string) *
  (UpdateDocumentCallbackProps -> list UIMessageChunk * string).

Definition createCodeDocumentHandler : DocumentHandler :=
  createDocumentHandler
    (mkHandlerConfig kind_code
       (fun args => collectCode (streamObject (create_code (cp_title args))))
       (fun args =>
          collectCode
            (streamObject (update_code (doc_content (up_document args))
                                       (up_description args))))).

Definition createTextDocumentHandler : DocumentHandler :=
  createDocumentHandler
    (mkHandlerConfig kind_text (fst textGenerators) (snd textGenerators)).

Definition createSheetDocumentHandler : DocumentHandler :=
  createDocumentHandler
    (mkHandlerConfig kind_sheet (fst sheetGenerators) (snd sheetGenerators)).

Definition createDocumentHandlers : list DocumentHandler :=
  [createTextDocumentHandler; createCodeDocumentHandler; createSheetDocumentHandler].

End Registry.

End Artifacts.

(** ** The tools (apps/backend/src/ai/tools/tools.service.ts) *)

Module ToolsService.

Import Artifacts.

(** [z.enum(["text", "code", "image", "sheet"])], the [kind] of the
    input schema of [createDocument]. *)
Inductive KindInput := in_text | in_code | in_image | in_sheet.

Definition inputName (k : KindInput) : string :=
  match k with
  | in_text => "text"
  | in_code => "code"
  | in_image => "image"
  | in_sheet => "sheet"
  end.

(** What a tool returns to the model. *)
Inductive ToolOutput :=
| error_payload (error : string)
| document_payload (id title kind content : string).

(** How [execute] ends: it returns, or throws an [Error]. *)
Inductive ToolOutcome :=
| returned (output : ToolOutput)
| thrown (message : string).

(** An element of a partial output of the suggestion model; every field
    may still be missing. *)
Record PartialElement := mkPartialElement {
  originalSentence : option string;
  suggestedSentence : option string;
  description : option string
}.

(** [!element?.originalSentence || !element?.suggestedSentence ||
    !element?.description] is false. *)
Definition completeElement (element : option PartialElement)
  : option (string * string * string) :=
  match element with
  | Some e =>
      match originalSentence e, suggestedSentence e, description e with
      | Some o, Some s, Some d =>
          if Js.truthy o && Js.truthy s && Js.truthy d then Some (o, s, d) else None
      | _, _, _ => None
      end
  | None => None
  end.

(** State of the loops of [requestSuggestions]. *)
Record SuggestState := mkSuggestState {
  processedCount : nat;
  suggestions : list Suggestion;
  effects : list ToolEffect
}.

Section Tools.

Variable documentHandlers : list DocumentHandler.

(** [getDocumentById] of the Store. *)
Variable getDocumentById : string -> option Document.

(** The value of the [n]-th call of [generateUUID()] in an execution,
    counted from 0. *)
Variable generateUUID : nat -> string.

(** The clock. *)
Variable now : Z.

(** The [partialOutputStream] of the suggestion model for a document
    content: each item is a partial array, or nothing. *)
Variable partialOutputStream : string -> list (option (list (option PartialElement))).

Definition createDocument (session : JwtPayload) (title : string) (kind : KindInput)
  : list ToolEffect * ToolOutcome :=
  let id := generateUUID 0 in
  let preliminary :=
    [Emit (data_kind (inputName kind)); Emit (data_id id);
     Emit (data_title title); Emit data_clear] in
  match find (fun handler => String.eqb (kindName (Artifacts.kind handler)) (inputName kind))
             documentHandlers with
  | None =>
      (preliminary,
       thrown ("No document handler found for kind: " ++ inputName kind))
  | Some documentHandler =>
      (preliminary
         ++ onCreateDocument documentHandler (mkCreateProps id title session)
         ++ [Emit data_finish],
       returned (document_payload id title (inputName kind)
                   "A document was created and is now visible to the user."))
  end.

Definition updateDocument (session : JwtPayload) (id description : string)
  : list ToolEffect * ToolOutcome :=
  match getDocumentById id with
  | None => ([], returned (error_payload "Document not found"))
  | Some document =>
      match find (fun handler => String.eqb (kindName (Artifacts.kind handler))
                                            (doc_kind document))
                 documentHandlers with
      | None =>
          ([Emit data_clear],
           returned (error_payload
                       ("No document handler found for kind: " ++ doc_kind document)))
      | Some documentHandler =>
          ([Emit data_clear]
             ++ onUpdateDocument documentHandler (mkUpdateProps document description session)
             ++ [Emit data_finish],
           returned (document_payload id (doc_title document) (doc_kind document)
                       "The document has been updated successfully."))
      end
  end.

(** The body of the inner [for] loop, over the elements from index
    [processedCount] on. *)
Fixpoint processElements (documentId : string) (elements : list (option PartialElement))
    (st : SuggestState) : SuggestState :=
  match elements with
  | [] => st
  | element :: rest =>
      match completeElement element with
      | None => processElements documentId rest st
      | Some (o, s, d) =>
          let suggestion :=
            mkSuggestion o s d (generateUUID (processedCount st)) documentId false in
          processElements documentId rest
            (mkSuggestState (S (processedCount st))
                            (suggestions st ++ [suggestion])
                            (effects st ++ [Emit (data_suggestion suggestion)]))
      end
  end.

(** The [for await] loop. *)
Definition processStream (documentId : string)
    (stream : list (option (list (option PartialElement)))) : SuggestState :=
  fold_left
    (fun st partialOutput =>
       match partialOutput with
       | None => st
       | Some elements =>
           processElements documentId (skipn (processedCount st) elements) st
       end)
    stream (mkSuggestState 0 [] []).

Definition hasContent (document : Document) : option string :=
  match doc_content document with
  | Some content => if Js.truthy content then Some content else None
  | None => None
  end.

Definition requestSuggestions (session : JwtPayload) (documentId : string)
  : list ToolEffect * ToolOutcome :=
  match getDocumentById documentId with
  | None => ([], returned (error_payload "Document not found"))
  | Some document =>
      match hasContent document with
      | None => ([], returned (error_payload "Document not found"))
      | Some content =>
          let st := processStream documentId (partialOutputStream content) in
          (effects st ++
           (if Js.truthy (jwt_id session)
            then [SaveSuggestions
                    (map (fun suggestion =>
                            mkSuggestionRow suggestion (jwt_id session) now
                                            (doc_createdAt document))
                         (suggestions st))]
            else []),
           returned (document_payload documentId (doc_title document) (doc_kind document)
                       "Suggestions have been added to the document"))
      end
  end.

End Tools.

End ToolsService.

(** ** Vocabulary of the specification *)

(** A model identifier denotes a reasoning variant when "reasoning" or
    "thinking" occurs in it. *)
Definition denotesReasoningVariant (model : string) : Prop :=
  (exists pre post, model = (pre ++ "reasoning" ++ post)%string) \/
  (exists pre post, model = (pre ++ "thinking" ++ post)%string).

(** The full tool set. *)
Definition fullToolSet : list ToolName :=
  [tool_getWeather; tool_createDocument; tool_updateDocument; tool_requestSuggestions].

(** A Store write that inserts message rows. *)
Definition insertsMessages (o : Db.op) : Prop :=
  match o with Db.SaveMessages _ => True | _ => False end.

(** The Store write [onFinish] issues for one finished message in the
    approval-resume branch, given the input transcript. *)
Definition approvalWrite (chatId : string) (now : Z) (transcript : list ChatMessage)
    (finishedMsg : ChatMessage) : Db.op :=
  if existsb (fun m => String.eqb (cm_id m) (cm_id finishedMsg)) transcript
  then Db.UpdateMessage (cm_id finishedMsg) (cm_parts finishedMsg)
  else Db.SaveMessages [ChatService.toDBMessage chatId now finishedMsg].

(** The rows of the Store with a given message id. *)
Definition rowsWithId (id : string) (db : Db.t) : list DBMessage :=
  filter (fun m => String.eqb (m_id m) id) (Db.messages db).

(** The side-channel event a suggestion is emitted as. *)
Definition emitSuggestion (suggestion : Suggestion) : Artifacts.ToolEffect :=
  Artifacts.Emit (data_suggestion suggestion).

(** An element of a partial output with its three sentences present and
    not empty. *)
Definition isComplete (element : option ToolsService.PartialElement) : Prop :=
  ToolsService.completeElement element <> None.

(** Invariant of the loops of [requestSuggestions]: the events written
    so far are the suggestions collected so far, and [processedCount]
    counts them. *)
Definition inStep (st : ToolsService.SuggestState) : Prop :=
  ToolsService.effects st = map emitSuggestion (ToolsService.suggestions st) /\
  ToolsService.processedCount st = List.length (ToolsService.suggestions st).

(** A frame that holds no line feed ([JSON.stringify] escapes them). *)
Fixpoint lineFeedFree (frame : string) : bool :=
  match frame with
  | EmptyString => true
  | String c rest => negb (Ascii.eqb c "010") && lineFeedFree rest
  end.

(** The chunks the SSE transform hands to the pump: one per frame, each
    closed by the frame delimiter. *)
Definition wire (frames : list string) : list string :=
  map (fun frame => (frame ++ Transport.delimiter)%string) frames.

(** The text a sequence of chunks carries. *)
Definition received (chunks : list string) : string :=
  fold_right String.append EmptyString chunks.

Definition idle : Transport.PumpState := Transport.mkPumpState "" [] [].

(** What the pump hands to the subscriber for one frame. *)
Definition deliveredOf (JSON_parse : string -> option Json.t)
    (JSON_stringify : Json.t -> string) (frame : string) : list string :=
  Transport.delivered (Transport.emitMessage JSON_parse JSON_stringify frame idle).

(** What the pump writes to the console for one frame. *)
Definition warningsOf (JSON_parse : string -> option Json.t)
    (JSON_stringify : Json.t -> string) (frame : string) : list string :=
  Transport.console (Transport.emitMessage JSON_parse JSON_stringify frame idle).

(** ** A reference JSON reader and printer

    [JSON.parse] and [JSON.stringify] are parameters of the transport
    adapter, and every general statement about the adapter holds for any
    reader and printer. To run the adapter on sample frames the module
    below reads and prints the JSON texts of those frames: literals,
    integers, strings without escape sequences, arrays and objects. It is
    not [JSON.parse]: it refuses escape sequences, fractions and
    exponents, it keeps the members of an object in the order of the text
    (JavaScript lists integer-like keys first), and its white space is
    that of [trimStart]. It agrees with [JSON.parse] on the sample
    frames, which is all it is used for. *)

Module Codec.

Local Open Scope nat_scope.

Definition quote : ascii := "034"%char.

Definition backslash : ascii := "092"%char.

Definition quoted (s : string) : string :=
  (String quote s ++ String quote EmptyString)%string.

(** The text of a string up to its closing quote, and what follows. *)
Fixpoint readString (s : string) : option (string * string) :=
  match s with
  | EmptyString => None
  | String c rest =>
      if Ascii.eqb c quote then Some (EmptyString, rest)
      else if Ascii.eqb c backslash then None
      else match readString rest with
           | Some (body, rest') => Some (String c body, rest')
           | None => None
           end
  end.

Definition digit (c : ascii) : option Z :=
  let n := nat_of_ascii c in
  if (48 <=? n) && (n <=? 57) then Some (Z.of_nat (n - 48)) else None.

Fixpoint readDigits (s : string) (acc : Z) : Z * string :=
  match s with
  | String c rest =>
      match digit c with
      | Some d => readDigits rest (acc * 10 + d)%Z
      | None => (acc, s)
      end
  | EmptyString => (acc, s)
  end.

Definition startsWithDigit (s : string) : bool :=
  match s with
  | String c _ => match digit c with Some _ => true | None => false end
  | EmptyString => false
  end.

Fixpoint readValue (fuel : nat) (s : string) {struct fuel} : option (Json.t * string) :=
  match fuel with
  | O => None
  | S fuel' =>
      let s := Js.trimStart s in
      if Js.startsWith "null" s then Some (Json.null, Js.substringFrom 4 s)
      else if Js.startsWith "true" s then Some (Json.boolean true, Js.substringFrom 4 s)
      else if Js.startsWith "false" s then Some (Json.boolean false, Js.substringFrom 5 s)
      else
        match s with
        | String "[" rest =>
            match Js.trimStart rest with
            | String "]" rest' => Some (Json.array [], rest')
            | _ =>
                match readElements fuel' rest with
                | Some (elements, rest') => Some (Json.array elements, rest')
                | None => None
                end
            end
        | String "{" rest =>
            match Js.trimStart rest with
            | String "}" rest' => Some (Json.object [], rest')
            | _ =>
                match readMembers fuel' rest [] with
                | Some (fields, rest') => Some (Json.object fields, rest')
                | None => None
                end
            end
        | String "-" rest =>
            if startsWithDigit rest then
              let (n, rest') := readDigits rest 0%Z in
              Some (Json.number (inject_Z (- n)), rest')
            else None
        | String c rest =>
            if Ascii.eqb c quote then
              match readString rest with
              | Some (body, rest') => Some (Json.str body, rest')
              | None => None
              end
            else if startsWithDigit s then
              let (n, rest') := readDigits s 0%Z in
              Some (Json.number (inject_Z n), rest')
            else None
        | EmptyString => None
        end
  end
with readElements (fuel : nat) (s : string) {struct fuel} : option (list Json.t * string) :=
  match fuel with
  | O => None
  | S fuel' =>
      match readValue fuel' s with
      | Some (v, rest) =>
          match Js.trimStart rest with
          | String "," rest' =>
              match readElements fuel' rest' with
              | Some (vs, rest'') => Some (v :: vs, rest'')
              | None => None
              end
          | String "]" rest' => Some ([v], rest')
          | _ => None
          end
      | None => None
      end
  end
with readMembers (fuel : nat) (s : string) (fields : list (string * Json.t)) {struct fuel}
  : option (list (string * Json.t) * string) :=
  match fuel with
  | O => None
  | S fuel' =>
      match Js.trimStart s with
      | String c rest =>
          if Ascii.eqb c quote then
            match readString rest with
            | Some (key, rest') =>
                match Js.trimStart rest' with
                | String ":" rest'' =>
                    match readValue fuel' rest'' with
                    | Some (v, rest3) =>
                        let fields' := Json.update key v fields in
                        match Js.trimStart rest3 with
                        | String "," rest4 => readMembers fuel' rest4 fields'
                        | String "}" rest4 => Some (fields', rest4)
                        | _ => None
                        end
                    | None => None
                    end
                | _ => None
                end
            | None => None
            end
          else None
      | EmptyString => None
      end
  end.

(** The reader: a whole text must be one value. *)
Definition parse (text : string) : option Json.t :=
  match readValue (2 * String.length text + 2) text with
  | Some (v, rest) =>
      match Js.trimStart rest with
      | EmptyString => Some v
      | _ => None
      end
  | None => None
  end.

Fixpoint digitsOf (fuel : nat) (n : Z) (acc : string) : string :=
  match fuel with
  | O => acc
  | S fuel' =>
      let acc' := String (ascii_of_nat (48 + Z.to_nat (n mod 10)%Z)) acc in
      if (n <? 10)%Z then acc' else digitsOf fuel' (n / 10)%Z acc'
  end.

Definition printInteger (n : Z) : string :=
  if (n <? 0)%Z
  then String "-" (digitsOf (Z.to_nat (- n) + 1) (- n) EmptyString)
  else digitsOf (Z.to_nat n + 1) n EmptyString.

(** The printer. A number is printed by its integer part. *)
Fixpoint stringify (v : Json.t) : string :=
  match v with
  | Json.null => "null"
  | Json.boolean true => "true"
  | Json.boolean false => "false"
  | Json.number n => printInteger (Z.quot (Qnum n) (Zpos (Qden n)))
  | Json.str s => quoted s
  | Json.array elements =>
      ("[" ++
       (fix items (vs : list Json.t) : string :=
          match vs with
          | [] => EmptyString
          | [x] => stringify x
          | x :: rest => stringify x ++ "," ++ items rest
          end) elements
       ++ "]")%string
  | Json.object fields =>
      ("{" ++
       (fix members (fs : list (string * Json.t)) : string :=
          match fs with
          | [] => EmptyString
          | [(k, x)] => quoted k ++ ":" ++ stringify x
          | (k, x) :: rest => quoted k ++ ":" ++ stringify x ++ "," ++ members rest
          end) fields
       ++ "}")%string
  end.

End Codec.

(** ** Sample data, on which the service is run below *)

Module Samples.

Definition alice : JwtPayload := mkJwtPayload "alice" "regular".
Definition bob : JwtPayload := mkJwtPayload "bob" "regular".

(** Two messages a day. *)
Definition entitlements (userType : string) : Entitlements := mkEntitlements 2.

Definition hello (id : string) : ChatMessage :=
  mkChatMessage id user [TextPart "Hello"] None.

Definition row (id chatId : string) (role : Role) (createdAt : Z) : DBMessage :=
  mkDBMessage id chatId role [TextPart "Hello"] createdAt.

(** Chat c1 of alice, private, with two user messages of the last day. *)
Definition store2 : Db.t :=
  Db.mk [mkChat "c1" "alice" "New chat" private]
        [row "m1" "c1" user 1000; row "m2" "c1" user 2000]
        [mkStreamRecord "s1" "c1"].

Definition freshDto : Dto :=
  mkDto "c1" (Some (hello "m3")) None "chat-model" private.

Definition reasoningDto : Dto :=
  mkDto "c1" (Some (hello "m3")) None "chat-model-reasoning" private.

(** An approval-resume request for a chat c9 that the Store does not
    hold. *)
Definition approvalDto : Dto :=
  mkDto "c9" None (Some [hello "m1"; mkChatMessage "m2" assistant [ToolPart "getWeather" "approved"] None])
        "chat-model" private.

(** The transcript of an approval-resume request on chat c1: the two
    stored messages, the second one carrying the approved tool call. *)
Definition approvedTranscript : list ChatMessage :=
  [hello "m1"; mkChatMessage "m2" assistant [ToolPart "getWeather" "approved"] None].

Definition resumeDto : Dto :=
  mkDto "c1" None (Some approvedTranscript) "chat-model" private.

(** Chat c1 of alice with a user message and the assistant message that
    asked for the approval. *)
Definition storeApproval : Db.t :=
  Db.mk [mkChat "c1" "alice" "New chat" private]
        [row "m1" "c1" user 1000;
         mkDBMessage "m2" "c1" assistant [ToolPart "getWeather" "requested"] 2000]
        [mkStreamRecord "s1" "c1"].

(** The messages the resumed generation finishes with: m2 with the
    tool result, and a new message m3. *)
Definition finishedMessages : list ChatMessage :=
  [mkChatMessage "m2" assistant [ToolPart "getWeather" "result"] None;
   mkChatMessage "m3" assistant [TextPart "Sunny"] None].

(** A durable channel on which every feed has concluded. *)
Definition allConcluded : ResumableStreamContext :=
  mkResumableStreamContext (fun _ => concluded).

Definition answer : DBMessage :=
  mkDBMessage "m2" "c1" assistant [TextPart "Hi there"] 100000.

(** Chat c1 of alice, private: a user message and the assistant's
    answer, persisted at 100000 ms. *)
Definition storeAnswered : Db.t :=
  Db.mk [mkChat "c1" "alice" "New chat" private]
        [row "m1" "c1" user 90000; answer]
        [mkStreamRecord "s1" "c1"].

(** The text of an object, from its keys and the texts of its member
    values. *)
Fixpoint membersText (members : list (string * string)) : string :=
  match members with
  | [] => EmptyString
  | [(k, v)] => (Codec.quoted k ++ ":" ++ v)%string
  | (k, v) :: rest => (Codec.quoted k ++ ":" ++ v ++ "," ++ membersText rest)%string
  end.

Definition objectText (members : list (string * string)) : string :=
  ("{" ++ membersText members ++ "}")%string.

(** A wire frame: [data: <json>]. *)
Definition frame (json : string) : string := ("data: " ++ json)%string.

(** A finish frame whose finishReason is the object with unified: stop
    and raw: end_turn. *)
Definition finishNested : string :=
  objectText [("type", Codec.quoted "finish");
              ("finishReason", objectText [("unified", Codec.quoted "stop");
                                           ("raw", Codec.quoted "end_turn")])].

(** A finish frame whose finishReason is the string stop. *)
Definition finishScalar : string :=
  objectText [("type", Codec.quoted "finish"); ("finishReason", Codec.quoted "stop")].

(** A finish frame whose finishReason is the object with raw: end_turn
    and other: stop, and no unified key. *)
Definition finishFirstString : string :=
  objectText [("type", Codec.quoted "finish");
              ("finishReason", objectText [("raw", Codec.quoted "end_turn");
                                           ("other", Codec.quoted "stop")])].

(** A finish frame whose finishReason is the object with tokens: 7 and
    reason: stop, and no unified key. *)
Definition finishNumberFirst : string :=
  objectText [("type", Codec.quoted "finish");
              ("finishReason", objectText [("tokens", "7");
                                           ("reason", Codec.quoted "stop")])].

(** A frame of type data-usage whose finishReason is the object with
    unified: stop. *)
Definition otherNested : string :=
  objectText [("type", Codec.quoted "data-usage");
              ("finishReason", objectText [("unified", Codec.quoted "stop")])].

(** A text-delta frame. *)
Definition textDelta : string :=
  objectText [("type", Codec.quoted "text-delta"); ("delta", Codec.quoted "Hi")].

(** A text-delta frame cut short inside its type. *)
Definition truncated : string :=
  ("{" ++ Codec.quoted "type" ++ ":" ++ String Codec.quote "text-del")%string.

Definition lineFeed : string := String "010" EmptyString.

(** The frames text-delta, truncated, finish and DONE on the wire, cut
    into chunks inside the first frame, inside the delimiter after the
    second one, and with an empty chunk in between. *)
Definition cutChunks : list string :=
  [("data: " ++ Js.substringTo 10 textDelta)%string;
   (Js.substringFrom 10 textDelta ++ Transport.delimiter ++ frame truncated ++ lineFeed)%string;
   EmptyString;
   (lineFeed ++ frame finishNested ++ Transport.delimiter ++ "data: [DONE]" ++ lineFeed)%string;
   lineFeed].

(** The values the reference reader yields for the frames above. *)
Definition finishNestedValue : Json.t :=
  Json.object
    [("type", Json.str "finish");
     ("finishReason",
      Json.object [("unified", Json.str "stop"); ("raw", Json.str "end_turn")])].

Definition finishScalarValue : Json.t :=
  Json.object [("type", Json.str "finish"); ("finishReason", Json.str "stop")].

Definition finishFirstStringValue : Json.t :=
  Json.object
    [("type", Json.str "finish");
     ("finishReason",
      Json.object [("raw", Json.str "end_turn"); ("other", Json.str "stop")])].

Definition finishNumberFirstValue : Json.t :=
  Json.object
    [("type", Json.str "finish");
     ("finishReason",
      Json.object [("tokens", Json.number (inject_Z 7)); ("reason", Json.str "stop")])].

Definition otherNestedValue : Json.t :=
  Json.object
    [("type", Json.str "data-usage");
     ("finishReason", Json.object [("unified", Json.str "stop")])].

(** A finish frame whose finishReason is the string end_turn. *)
Definition finishEndTurn : string :=
  objectText [("type", Codec.quoted "finish"); ("finishReason", Codec.quoted "end_turn")].

Definition essay : Artifacts.Document :=
  Artifacts.mkDocument "d1" "Essay" (Some "One. Two. Three. Four. Five. Six.")
    "text" "alice" 1000.

(** A stored document of kind image. *)
Definition picture : Artifacts.Document :=
  Artifacts.mkDocument "d2" "Picture" (Some "pixels") "image" "alice" 1000.

Definition documents (id : string) : option Artifacts.Document :=
  if String.eqb id "d1" then Some essay
  else if String.eqb id "d2" then Some picture
  else None.

Definition uuids (n : nat) : string :=
  String (ascii_of_nat (97 + n)) EmptyString.

Definition rewrite (sentence : string) : option ToolsService.PartialElement :=
  Some (ToolsService.mkPartialElement (Some sentence) (Some "Better.") (Some "Tighter")).

(** A suggestion model that answers with six complete suggestions, the
    first partial output holding three of them. *)
Definition sixSuggestions (content : string)
  : list (option (list (option ToolsService.PartialElement))) :=
  [None;
   Some [rewrite "One."; rewrite "Two."; rewrite "Three."];
   Some [rewrite "One."; rewrite "Two."; rewrite "Three.";
         rewrite "Four."; rewrite "Five."; rewrite "Six."]].

(** Generators that write one delta and return it as the content. *)
Definition plainGenerators :
  (Artifacts.CreateDocumentCallbackProps -> list UIMessageChunk * string) *
  (Artifacts.UpdateDocumentCallbackProps -> list UIMessageChunk * string) :=
  (fun args => ([data_delta "data-textDelta" "draft"], "draft"),
   fun args => ([data_delta "data-textDelta" "revised"], "revised")).

Definition noCode (request : Artifacts.CodeRequest) : list Artifacts.Delta := [].

Definition registry : list Artifacts.DocumentHandler :=
  Artifacts.createDocumentHandlers noCode plainGenerators plainGenerators.

End Samples.

(** Unfolds the service monad. *)
Ltac svc_unfold :=
  unfold bind, query, exec, ret, throw in *; cbn [fst snd w_db w_journal] in *.

(** ** Further vocabulary *)

(** The row [createChatStream] persists for the user message of a
    request. *)
Definition userRow (now : Z) (chatId : string) (message : ChatMessage) : DBMessage :=
  mkDBMessage (cm_id message) chatId user (cm_parts message) now.

(** The rows the message of a request is persisted as before the
    generation starts: one row for a single message of role user, none
    otherwise. *)
Definition userRows (now : Z) (dto : Dto) : list DBMessage :=
  match dto_message dto with
  | Some message =>
      if Role_eqb (cm_role message) user
      then [userRow now (dto_id dto) message]
      else []
  | None => []
  end.

(** Whether a message id occurs in a transcript. *)
Definition inTranscript (transcript : list ChatMessage) (id : string) : bool :=
  existsb (fun m => String.eqb (cm_id m) id) transcript.

(** A stored row with other parts. *)
Definition withParts (parts : list Part) (row : DBMessage) : DBMessage :=
  mkDBMessage (m_id row) (m_chatId row) (m_role row) parts (m_createdAt row).

(** A stored row after the finished messages of an approval-resume
    generation have been gone through in order: each finished message
    that has the id of the row, and whose id occurs in the transcript,
    replaces the parts of the row. *)
Definition revise (transcript finished : list ChatMessage) (row : DBMessage) : DBMessage :=
  fold_left
    (fun r finishedMsg =>
       if inTranscript transcript (cm_id finishedMsg)
          && String.eqb (m_id r) (cm_id finishedMsg)
       then withParts (cm_parts finishedMsg) r
       else r)
    finished row.

(** The finished messages whose id does not occur in the transcript. *)
Definition newMessages (transcript finished : list ChatMessage) : list ChatMessage :=
  filter (fun finishedMsg => negb (inTranscript transcript (cm_id finishedMsg))) finished.

(** The Store after a sequence of writes. *)
Definition applyAll (ops : list Db.op) (db : Db.t) : Db.t :=
  fold_left (fun db o => Db.apply o db) ops db.

(** The Store writes of a [createChatStream] call that returns, in
    order. *)
Definition requestWrites (now : Z) (streamId : string) (dto : Dto) (usr : JwtPayload)
    (chatExists : bool) : list Db.op :=
  (if negb chatExists && ChatService.roleIsUser (dto_message dto)
   then [Db.SaveChat (mkChat (dto_id dto) (jwt_id usr) "New chat"
                             (dto_selectedVisibilityType dto))]
   else [])
  ++ match dto_message dto with
     | Some message =>
         if Role_eqb (cm_role message) user
         then [Db.SaveMessages [userRow now (dto_id dto) message]]
         else []
     | None => []
     end
  ++ [Db.CreateStreamId streamId (dto_id dto)].

(** What the adapter emits for a frame whose payload is JSON. *)
Definition emitted (JSON_parse : string -> option Json.t)
    (JSON_stringify : Json.t -> string) (frame : string) : string :=
  match JSON_parse (Transport.payloadOf frame) with
  | Some parsed =>
      match Transport.transformFinishReason parsed with
      | Some parsed' => JSON_stringify parsed'
      | None => EmptyString
      end
  | None => EmptyString
  end.

(** A frame that reaches the consumer: it is not blank, its payload is
    JSON other than [null], and the text to emit is not empty. *)
Definition deliverable (JSON_parse : string -> option Json.t)
    (JSON_stringify : Json.t -> string) (frame : string) : bool :=
  Js.truthy (Js.trim frame) &&
  match JSON_parse (Transport.payloadOf frame) with
  | Some parsed =>
      match Transport.transformFinishReason parsed with
      | Some parsed' => Js.truthy (JSON_stringify parsed')
      | None => false
      end
  | None => false
  end.

(** The properties of a JSON value: those of an object, none otherwise. *)
Definition fieldsOf (v : Json.t) : list (string * Json.t) :=
  match v with
  | Json.object fields => fields
  | _ => []
  end.

(** ** Chat management (deleteChat, deleteTrailingMessages,
    updateChatVisibility of the chat service) *)

Module Management.

(** The Store writes of the management methods. *)
Inductive write :=
| DeleteChatById (id : string)
| DeleteMessagesByChatIdAfterTimestamp (chatId : string) (timestamp : Z)
| UpdateChatVisibilityById (chatId : string) (visibility : Visibility).

(** Modelled from the spec: @repo/db is not part of the sources at hand.
    "get messages by id": the row with the given id, if any. *)
Definition getMessageById (id : string) (db : Db.t) : option DBMessage :=
  find (fun m => String.eqb (m_id m) id) (Db.messages db).

(** A management method reads the Store and either throws or returns,
    having issued the given writes. The value [deleteChat] returns is the
    answer of the Store to [deleteChatById]; it is not represented. *)
Definition Method : Type := Db.t -> Outcome unit * list write.

Definition deleteChat (id userId : string) : Method :=
  fun db =>
    match Db.getChatById id db with
    | None => (Throw (mkHttpException not_found_chat NOT_FOUND), [])
    | Some chat =>
        if negb (String.eqb (chat_userId chat) userId) then
          (Throw (mkHttpException forbidden_chat FORBIDDEN), [])
        else (Return tt, [DeleteChatById id])
    end.

Definition deleteTrailingMessages (messageId userId : string) : Method :=
  fun db =>
    match getMessageById messageId db with
    | None => (Throw (mkHttpException not_found_chat NOT_FOUND), [])
    | Some message =>
        match Db.getChatById (m_chatId message) db with
        | None => (Throw (mkHttpException not_found_chat NOT_FOUND), [])
        | Some chat =>
            if negb (String.eqb (chat_userId chat) userId) then
              (Throw (mkHttpException forbidden_chat FORBIDDEN), [])
            else
              (Return tt,
               [DeleteMessagesByChatIdAfterTimestamp (m_chatId message)
                  (m_createdAt message)])
        end
    end.

Definition updateChatVisibility (chatId : string) (visibility : Visibility)
    (userId : string) : Method :=
  fun db =>
    match Db.getChatById chatId db with
    | None => (Throw (mkHttpException not_found_chat NOT_FOUND), [])
    | Some chat =>
        if negb (String.eqb (chat_userId chat) userId) then
          (Throw (mkHttpException forbidden_chat FORBIDDEN), [])
        else (Return tt, [UpdateChatVisibilityById chatId visibility])
    end.

End Management.

(** ** The weather tool (getWeather and geocodeCity of the tools
    service) *)

Module Weather.

Section Tool.

(** JavaScript numbers; the tool passes them on without inspecting
    them. *)
Variable number : Type.

(** The body of a forecast response. *)
Variable forecast : Type.

Record Coordinates := mkCoordinates {
  latitude : number;
  longitude : number
}.

(** The input of the tool: every key is optional. *)
Record Input := mkInput {
  in_latitude : option number;
  in_longitude : option number;
  in_city : option string
}.

(** How a request to the geocoding API ends: the request or the
    decoding of its body fails, the status is not ok, or the body is
    decoded, with or without a [results] array. *)
Inductive GeoReply :=
| geo_failed
| geo_not_ok
| geo_data (results : option (list Coordinates)).

(** How a request to the forecast API ends. *)
Inductive ForecastReply :=
| forecast_failed
| forecast_data (weatherData : forecast).

(** The requests to the geocoding API and to the forecast API. *)
Variable searchCity : string -> GeoReply.
Variable fetchForecast : number -> number -> ForecastReply.

(** The network requests a call makes, in order. *)
Inductive Request :=
| Geocode (city : string)
| Forecast (lat lon : number).

Inductive Output :=
| error_payload (error : string)
| weather_payload (weatherData : forecast) (cityName : option string).

Inductive Outcome :=
| returned (output : Output)
| thrown.

Definition geocodeCity (city : string) : option Coordinates :=
  match searchCity city with
  | geo_failed => None
  | geo_not_ok => None
  | geo_data None => None
  | geo_data (Some []) => None
  | geo_data (Some (result :: _)) =>
      Some (mkCoordinates (latitude result) (longitude result))
  end.

Definition quote : string := String "034" EmptyString.

(** The end of [execute], once the coordinates are known. *)
Definition forecastAt (input : Input) (lat lon : number) (requests : list Request)
  : list Request * Outcome :=
  match fetchForecast lat lon with
  | forecast_failed => (requests ++ [Forecast lat lon], thrown)
  | forecast_data weatherData =>
      (requests ++ [Forecast lat lon],
       returned (weather_payload weatherData (in_city input)))
  end.

Definition cityGiven (input : Input) : option string :=
  match in_city input with
  | Some city => if Js.truthy city then Some city else None
  | None => None
  end.

(** [execute] of the tool. *)
Definition getWeather (input : Input) : list Request * Outcome :=
  match cityGiven input with
  | Some city =>
      match geocodeCity city with
      | None =>
          ([Geocode city],
           returned (error_payload
                       ("Could not find coordinates for " ++ quote ++ city ++ quote
                        ++ ". Please check the city name.")))
      | Some coords => forecastAt input (latitude coords) (longitude coords) [Geocode city]
      end
  | None =>
      match in_latitude input, in_longitude input with
      | Some lat, Some lon => forecastAt input lat lon []
      | _, _ =>
          ([],
           returned (error_payload
                       "Please provide either a city name or both latitude and longitude coordinates."))
      end
  end.

End Tool.

End Weather.

(** The non-empty code snapshots of a stream of deltas, in order. *)
Definition snapshots (fullStream : list Artifacts.Delta) : list string :=
  flat_map (fun delta =>
              match delta with
              | Artifacts.object_delta (Some code) =>
                  if Js.truthy code then [code] else []
              | _ => []
              end)
           fullStream.

(** A Store write among the effects of a tool. *)
Definition isStoreWrite (effect : Artifacts.ToolEffect) : bool :=
  match effect with
  | Artifacts.Emit _ => false
  | _ => true
  end.

(** The kind of the handler that serves an input kind. *)
Definition handledKind (kind : ToolsService.KindInput) : option Artifacts.ArtifactKind :=
  match kind with
  | ToolsService.in_text => Some Artifacts.kind_text
  | ToolsService.in_code => Some Artifacts.kind_code
  | ToolsService.in_sheet => Some Artifacts.kind_sheet
  | ToolsService.in_image => None
  end.

(** A complete element of the suggestion model: its three sentences. *)
Definition element (c : string * string * string) : option ToolsService.PartialElement :=
  let '(o, s, d) := c in
  Some (ToolsService.mkPartialElement (Some o) (Some s) (Some d)).

Definition allTruthy (c : string * string * string) : bool :=
  let '(o, s, d) := c in Js.truthy o && Js.truthy s && Js.truthy d.

(** The suggestions for complete elements, the first of which gets the
    [n]-th identifier. *)
Fixpoint suggest (generateUUID : nat -> string) (documentId : string) (n : nat)
    (cs : list (string * string * string)) : list Suggestion :=
  match cs with
  | [] => []
  | (o, s, d) :: rest =>
      mkSuggestion o s d (generateUUID n) documentId false
      :: suggest generateUUID documentId (S n) rest
  end.

(** A partial output of a model that streams the elements [cs] in order:
    the first [k] of them, followed by elements still incomplete. *)
Definition partialOutput (cs : list (string * string * string))
    (shape : nat * list (option ToolsService.PartialElement))
  : list (option ToolsService.PartialElement) :=
  (map element (firstn (fst shape) cs) ++ snd shape)%list.

(** The identifiers, document and state of the suggestions collected:
    the [n]-th suggestion carries the [n]-th identifier generated, the
    document asked for, and is not resolved. *)
Definition labelled (generateUUID : nat -> string) (documentId : string)
    (st : ToolsService.SuggestState) : Prop :=
  map sg_id (ToolsService.suggestions st)
    = map generateUUID (seq 0 (ToolsService.processedCount st)) /\
  Forall (fun s => sg_documentId s = documentId /\ sg_isResolved s = false)
         (ToolsService.suggestions st).

(** How many elements the partial outputs of a stream have shown
    complete. *)
Definition reached (shapes : list (option (nat * list (option ToolsService.PartialElement))))
  : nat :=
  fold_left (fun acc shape =>
               match shape with
               | Some (k, _) => Nat.max acc k
               | None => acc
               end)
            shapes 0%nat.

(** A partial output that is in step with the elements [cs]: it shows
    at most all of them, and what follows them is incomplete. *)
Definition inShape (cs : list (string * string * string))
    (shape : option (nat * list (option ToolsService.PartialElement))) : Prop :=
  match shape with
  | Some (k, junk) =>
      (k <= List.length cs)%nat /\
      Forall (fun e => ToolsService.completeElement e = None) junk
  | None => True
  end.

(** The state of the loops of [requestSuggestions] when the first [k]
    of the elements [cs] have been shown complete. *)
Definition caughtUpAt (generateUUID : nat -> string) (documentId : string)
    (cs : list (string * string * string)) (k : nat) : ToolsService.SuggestState :=
  ToolsService.mkSuggestState k
    (suggest generateUUID documentId 0 (firstn k cs))
    (map emitSuggestion (suggest generateUUID documentId 0 (firstn k cs))).

(** ** The chat controller (chat.controller.ts) *)

Module Controller.

(** The errors of the controller: those of the service, and its own. *)
Inductive ApiError :=
| service_error (e : HttpException)
| unauthorized_chat
| bad_request_api
| bad_request_activate_gateway
| offline_chat.

(** The HTTP status an error is thrown with. *)
Definition status (e : ApiError) : Z :=
  match e with
  | service_error e' =>
      match exn_status e' with
      | TOO_MANY_REQUESTS => 429
      | FORBIDDEN => 403
      | NOT_FOUND => 404
      end
  | unauthorized_chat => 401
  | bad_request_api => 400
  | bad_request_activate_gateway => 400
  | offline_chat => 503
  end.

Inductive Response (A : Type) :=
| ok (a : A)
| failed (e : ApiError).
Arguments ok {A} a.
Arguments failed {A} e.

(** What the [catch] of [createChat] may receive: an [HttpException],
    an [Error] with its message, or any other value. *)
Inductive Thrown :=
| thrown_http (e : HttpException)
| thrown_error (message : option string)
| thrown_other.

Definition gatewayPhrase : string :=
  "AI Gateway requires a valid credit card on file to service requests".

(** The [catch] block of [createChat]. *)
Definition onError (error : Thrown) : ApiError :=
  match error with
  | thrown_http e => service_error e
  | thrown_error (Some message) =>
      if Js.includes gatewayPhrase message
      then bad_request_activate_gateway
      else offline_chat
  | thrown_error None => offline_chat
  | thrown_other => offline_chat
  end.

(** What a call of the chat service comes to, as its caller sees it:
    it returns, or it throws, and what it throws need not be an
    [HttpException]. *)
Inductive Attempt (A : Type) :=
| returned (a : A)
| raised (error : Thrown).
Arguments returned {A} a.
Arguments raised {A} error.

(** The [chatService] the controller is constructed with, as far as
    [createChat] uses it. *)
Definition Service : Type := Dto -> JwtPayload -> World -> Attempt StreamSetup * World.

(** A service method of the model seen from its caller: what it throws
    are the [HttpException]s of its own checks. *)
Definition ofService {A} (r : Outcome A * World) : Attempt A * World :=
  match r with
  | (Return a, w) => (returned a, w)
  | (Throw e, w) => (raised (thrown_http e), w)
  end.

(** An endpoint without a [catch]: what the service throws is passed
    on. *)
Definition pass {A} (r : Outcome A * World) : Response A * World :=
  match r with
  | (Return a, w) => (ok a, w)
  | (Throw e, w) => (failed (service_error e), w)
  end.

Section Endpoints.

Variable entitlementsByUserType : string -> Entitlements.
Variable now : Z.
Variable generateUUID : string.
Variable streamContext : option ResumableStreamContext.

(** [req.user]: absent when the guard has set no identity. The call of
    the service sits in a [try]; whatever it throws goes through the
    [catch]. *)
Definition createChat (chatService : Service) (dto : Dto) (usr : option JwtPayload)
    (w : World) : Response StreamSetup * World :=
  match usr with
  | None => (failed unauthorized_chat, w)
  | Some u =>
      match chatService dto u w with
      | (returned setup, w') => (ok setup, w')
      | (raised error, w') => (failed (onError error), w')
      end
  end.

(** The service of the model behind the controller. *)
Definition modelled : Service :=
  fun dto u w =>
    ofService (ChatService.createChatStream entitlementsByUserType now generateUUID dto u w).

Definition getChat (id : string) (usr : option JwtPayload) (w : World)
  : Response (Chat * list ChatMessage) * World :=
  match usr with
  | None => (failed unauthorized_chat, w)
  | Some u => pass (ChatService.getChatWithMessages id (jwt_id u) w)
  end.

Definition getStream (id : string) (usr : option JwtPayload) (w : World)
  : Response (option ResumeFeed) * World :=
  match usr with
  | None => (failed unauthorized_chat, w)
  | Some u => pass (ChatService.getResumableStream now streamContext id (jwt_id u) w)
  end.

Definition liftMethod (r : Outcome unit * list Management.write)
  : Response unit * list Management.write :=
  match r with
  | (Return a, writes) => (ok a, writes)
  | (Throw e, writes) => (failed (service_error e), writes)
  end.

Definition deleteChat (id : string) (usr : option JwtPayload) (db : Db.t)
  : Response unit * list Management.write :=
  match usr with
  | None => (failed unauthorized_chat, [])
  | Some u =>
      if negb (Js.truthy id) then (failed bad_request_api, [])
      else liftMethod (Management.deleteChat id (jwt_id u) db)
  end.

Definition deleteTrailingMessages (messageId : string) (usr : option JwtPayload) (db : Db.t)
  : Response unit * list Management.write :=
  match usr with
  | None => (failed unauthorized_chat, [])
  | Some u => liftMethod (Management.deleteTrailingMessages messageId (jwt_id u) db)
  end.

Definition updateChatVisibility (chatId : string) (visibility : Visibility)
    (usr : option JwtPayload) (db : Db.t)
  : Response unit * list Management.write :=
  match usr with
  | None => (failed unauthorized_chat, [])
  | Some u => liftMethod (Management.updateChatVisibility chatId visibility (jwt_id u) db)
  end.

End Endpoints.

End Controller.

(** ** Frontend utilities (apps/frontend/lib/utils.ts) *)

Module Utils.



(** [s.replace(/c/g, replacement)] for a single character [c]. *)
Fixpoint replaceChar (c : ascii) (replacement : string) (s : string) : string :=
  match s with
  | EmptyString => EmptyString
  | String x rest =>
      if Ascii.eqb x c
      then (replacement ++ replaceChar c replacement rest)%string
      else String x (replaceChar c replacement rest)
  end.






(** The digits of [Number.prototype.toString(16)]. *)
Definition hexDigits : list ascii :=
  ["0"; "1"; "2"; "3"; "4"; "5"; "6"; "7"; "8"; "9"; "a"; "b"; "c"; "d"; "e"; "f"]%char.

Definition hexChar (v : Z) : ascii := nth (Z.to_nat v) hexDigits "0"%char.

Fixpoint toHex (fuel : nat) (v : Z) (acc : string) : string :=
  match fuel with
  | O => acc
  | S fuel' =>
      let acc' := String (hexChar (v mod 16)) acc in
      if v <? 16 then acc' else toHex fuel' (v / 16) acc'
  end.

(** [v.toString(16)] for an integer [v]. *)
Definition toString16 (v : Z) : string :=
  if v <? 0
  then String "-" (toHex (Z.to_nat (- v) + 1) (- v) EmptyString)
  else toHex (Z.to_nat v + 1) v EmptyString.

(** The callback of the [replace]: [r] is [(Math.random() * 16) | 0]. *)
Definition replacement (c : ascii) (r : Z) : string :=
  let v := if Ascii.eqb c "x" then r else Z.lor (Z.land r 3) 8 in
  toString16 v.

(** [template.replace(/[xy]/g, callback)]; the [n]-th call of the
    callback draws [draw n]. *)
Fixpoint fill (template : string) (n : nat) (draw : nat -> Z) : string :=
  match template with
  | EmptyString => EmptyString
  | String c rest =>
      if Ascii.eqb c "x" || Ascii.eqb c "y"
      then (replacement c (draw n) ++ fill rest (S n) draw)%string
      else String c (fill rest n draw)
  end.

Definition generateUUID (draw : nat -> Z) : string :=
  fill "xxxxxxxx-xxxx-4xxx-yxxx-xxxxxxxxxxxx" 0 draw.

Definition isHex (c : ascii) : bool :=
  existsb (Ascii.eqb c) hexDigits.

(** What the character at position [i] of a version 4 identifier has
    to be. *)
Definition uuidChar (i : nat) (c : ascii) : bool :=
  match i with
  | 8%nat | 13%nat | 18%nat | 23%nat => Ascii.eqb c "-"
  | 14%nat => Ascii.eqb c "4"
  | 19%nat => existsb (Ascii.eqb c) ["8"; "9"; "a"; "b"]%char
  | _ => isHex c
  end.

End Utils.

(** Further sample data. *)
Module Samples2.

(** A public chat of alice with one user message. *)
Definition storePublic : Db.t :=
  Db.mk [mkChat "c1" "alice" "Plans" public]
        [Samples.row "m1" "c1" user 1000]
        [mkStreamRecord "s1" "c1"].

(** A first message for a chat c5 that does not exist yet. *)
Definition newChatDto : Dto :=
  mkDto "c5" (Some (Samples.hello "m9")) None "chat-model" public.

Definition reply : ChatMessage :=
  mkChatMessage "m10" assistant [TextPart "Hi"; ReasoningPart "thought"; TextPart " there"]
                None.



(** Geocoding that knows Paris only; numbers are integers here. *)
Definition searchCity (city : string) : Weather.GeoReply Z :=
  if String.eqb city "Paris"
  then Weather.geo_data Z (Some [Weather.mkCoordinates Z 48 2; Weather.mkCoordinates Z 33 (-95)])
  else Weather.geo_data Z (Some []).

Definition fetchForecast (lat lon : Z) : Weather.ForecastReply string :=
  Weather.forecast_data string "sunny".

Definition threeSentences : list (string * string * string) :=
  [("One.", "Uno.", "es"); ("Two.", "Dos.", "es"); ("Three.", "Tres.", "es")].

Definition halfDone : option ToolsService.PartialElement :=
  Some (ToolsService.mkPartialElement (Some "Fo") None None).

(** A model that streams three suggestions: first one and a half, then
    nothing new, then all three. *)
Definition streamed (content : string)
  : list (option (list (option ToolsService.PartialElement))) :=
  map (option_map (partialOutput threeSentences))
      [None; Some (1%nat, [halfDone]); Some (1%nat, []); Some (3%nat, [])].

Definition codeDeltas (request : Artifacts.CodeRequest) : list Artifacts.Delta :=
  [Artifacts.other_delta; Artifacts.object_delta None;
   Artifacts.object_delta (Some "pri"); Artifacts.object_delta (Some "");
   Artifacts.object_delta (Some "print(1)"); Artifacts.other_delta].

Definition codeRegistry : list Artifacts.DocumentHandler :=
  Artifacts.createDocumentHandlers codeDeltas Samples.plainGenerators
    Samples.plainGenerators.

Definition anonymous : JwtPayload := mkJwtPayload "" "guest".

(** A service whose call fails outside its own checks: the gateway
    refuses the request. *)
Definition refused : Controller.Service :=
  fun dto u w =>
    (Controller.raised
       (Controller.thrown_error
          (Some "Error: AI Gateway requires a valid credit card on file to service requests.")),
     w).

(** A service whose Store is out of reach after the user message has
    been written. *)
Definition interrupted : Controller.Service :=
  fun dto u w =>
    (Controller.raised (Controller.thrown_error (Some "connection refused")),
     mkWorld (Db.saveMessages (userRows 5000 dto) (w_db w))
             (w_journal w ++ [Db.SaveMessages (userRows 5000 dto)])).

(** A request on chat c1 that carries the full transcript and, beside
    it, a single new user message m9. *)
Definition bothDto : Dto :=
  mkDto "c1" (Some (Samples.hello "m9")) (Some Samples.approvedTranscript)
        "chat-model" private.

(** What the resumed generation of that request finishes with: m2 with
    the tool result, m2 once more with the final text, and a new
    message m3. *)
Definition finishedTwice : list ChatMessage :=
  [mkChatMessage "m2" assistant [ToolPart "getWeather" "result"] None;
   mkChatMessage "m3" assistant [TextPart "Sunny"] None;
   mkChatMessage "m2" assistant [ToolPart "getWeather" "result"; TextPart "Done"] None].

(** Draws 0, 7, 14, 5, 12, ... *)
Definition draws (n : nat) : Z := (Z.of_nat n * 7) mod 16.

End Samples2.

(** * Properties *)

(** ** Strings *)

Lemma prefix_append (p s : string) :
  String.prefix p s = true <-> exists post, s = (p ++ post)%string.
Proof.
  revert s. induction p as [|a p IH]; intros s.
  - split; [intros _; exists s; reflexivity | intros _; destruct s; reflexivity].
  - destruct s as [|b s]; simpl.
    + split; [discriminate | intros [post H]; discriminate].
    + destruct (Ascii.ascii_dec a b) as [->|Hab].
      * rewrite IH. split; intros [post H]; exists post.
        -- now rewrite H.
        -- now inversion H.
      * split; [discriminate | intros [post H]; inversion H; subst; contradiction].
Qed.

(** [includes] finds exactly the substrings. *)
Lemma includes_spec (sub s : string) :
  Js.includes sub s = true <->
  exists pre post, s = (pre ++ sub ++ post)%string.
Proof.
  induction s as [|c s IH].
  - change (Js.includes sub "") with (String.prefix sub "" || false).
    rewrite orb_false_r, prefix_append. split.
    + intros [post H]. exists EmptyString, post. exact H.
    + intros [pre [post H]]. destruct pre; simpl in H.
      * exists post. exact H.
      * discriminate.
  - change (Js.includes sub (String c s))
      with (String.prefix sub (String c s) || Js.includes sub s).
    rewrite orb_true_iff, IH, prefix_append. split.
    + intros [[post H] | [pre [post H]]].
      * exists EmptyString, post. exact H.
      * exists (String c pre), post. simpl. now rewrite H.
    + intros [pre [post H]]. destruct pre as [|c' pre]; simpl in H.
      * left. exists post. exact H.
      * right. inversion H. exists pre, post. reflexivity.
Qed.

(** ** The quota gate of [createChatStream] *)

Section QuotaGate.

Variable entitlementsByUserType : string -> Entitlements.
Variable now : Z.
Variable generateUUID : string.

(** A user whose count exceeds the entitlement is turned away with
    [rate_limit:chat], the Store untouched and nothing written. *)
Lemma createChatStream_over_quota (dto : Dto) (usr : JwtPayload) (w : World) :
  Db.getMessageCountByUserId (jwt_id usr) 24 now (w_db w)
    > maxMessagesPerDay (entitlementsByUserType (jwt_type usr)) ->
  ChatService.createChatStream entitlementsByUserType now generateUUID dto usr w
  = (Throw (mkHttpException rate_limit_chat TOO_MANY_REQUESTS), w).
Proof.
  intros Hover. unfold ChatService.createChatStream. svc_unfold.
  destruct (Z.gtb_spec (Db.getMessageCountByUserId (jwt_id usr) 24 now (w_db w))
                       (maxMessagesPerDay (entitlementsByUserType (jwt_type usr))))
    as [_|Hle]; [reflexivity | lia].
Qed.

(** Past the gate the call throws at most [forbidden:chat]. *)
Lemma createChatStream_within_quota (dto : Dto) (usr : JwtPayload) (w : World) :
  Db.getMessageCountByUserId (jwt_id usr) 24 now (w_db w)
    <= maxMessagesPerDay (entitlementsByUserType (jwt_type usr)) ->
  forall e,
    fst (ChatService.createChatStream entitlementsByUserType now generateUUID dto usr w) = Throw e ->
    e = mkHttpException forbidden_chat FORBIDDEN.
Proof.
  intros Hle e. unfold ChatService.createChatStream. svc_unfold.
  destruct (Z.gtb_spec (Db.getMessageCountByUserId (jwt_id usr) 24 now (w_db w))
                       (maxMessagesPerDay (entitlementsByUserType (jwt_type usr))))
    as [Hgt|_]; [lia|].
  destruct (Db.getChatById (dto_id dto) (w_db w)) as [c|].
  - destruct (negb (chat_userId c =? jwt_id usr)%string).
    + cbn. intros H. now inversion H.
    + destruct (negb (ChatService.Boolean (dto_messages dto)));
        destruct (ChatService.roleIsUser (dto_message dto));
        destruct (dto_message dto); cbn; discriminate.
  - destruct (ChatService.roleIsUser (dto_message dto));
      destruct (dto_message dto); cbn; discriminate.
Qed.

End QuotaGate.

(** C1 (the code at the boundary): a user with exactly
    [maxMessagesPerDay] messages in the preceding 24 hours is not turned
    away by [createChatStream]: the call never ends in
    [rate_limit:chat]. The comparison of the gate is strict. *)
Theorem createChatStream_at_quota_not_rejected
    (entitlementsByUserType : string -> Entitlements) (now : Z) (generateUUID : string)
    (dto : Dto) (usr : JwtPayload) (w : World) :
  Db.getMessageCountByUserId (jwt_id usr) 24 now (w_db w)
    = maxMessagesPerDay (entitlementsByUserType (jwt_type usr)) ->
  fst (ChatService.createChatStream entitlementsByUserType now generateUUID dto usr w)
    <> Throw (mkHttpException rate_limit_chat TOO_MANY_REQUESTS).
Proof.
  intros Heq Hthrow.
  apply (createChatStream_within_quota entitlementsByUserType now generateUUID) in Hthrow.
  - discriminate.
  - lia.
Qed.

(** With two messages in the last day and an entitlement of two, the
    third message of alice is accepted and persisted. *)
Lemma createChatStream_at_quota_not_rejected_witness :
  Db.getMessageCountByUserId "alice" 24 5000 Samples.store2 = 2 /\
  fst (ChatService.createChatStream Samples.entitlements 5000 "s2" Samples.freshDto
         Samples.alice (initial Samples.store2))
    <> Throw (mkHttpException rate_limit_chat TOO_MANY_REQUESTS) /\
  w_journal (snd (ChatService.createChatStream Samples.entitlements 5000 "s2"
                    Samples.freshDto Samples.alice (initial Samples.store2)))
    = [Db.SaveMessages [mkDBMessage "m3" "c1" user [TextPart "Hello"] 5000];
       Db.CreateStreamId "s2" "c1"].
Proof.
  split; [reflexivity|]. split.
  - apply (createChatStream_at_quota_not_rejected Samples.entitlements 5000 "s2"
             Samples.freshDto Samples.alice (initial Samples.store2)).
    reflexivity.
  - reflexivity.
Defined.

(** ** What [createChatStream] sets up *)

Section Setup.

Variable entitlementsByUserType : string -> Entitlements.
Variable now : Z.
Variable generateUUID : string.

Lemma createChatStream_setup (dto : Dto) (usr : JwtPayload) (w w' : World)
    (setup : StreamSetup) :
  ChatService.createChatStream entitlementsByUserType now generateUUID dto usr w
    = (Return setup, w') ->
  ss_id setup = dto_id dto /\
  ss_streamId setup = generateUUID /\
  ss_isToolApprovalFlow setup = ChatService.Boolean (dto_messages dto) /\
  ss_options setup = ChatService.streamTextOptions (dto_selectedChatModel dto) /\
  (forall ms, dto_messages dto = Some ms -> ss_uiMessages setup = map Some ms).
Proof.
  unfold ChatService.createChatStream. svc_unfold.
  destruct (_ >? _); [discriminate|].
  destruct (Db.getChatById (dto_id dto) (w_db w)) as [c|].
  - destruct (negb (chat_userId c =? jwt_id usr)%string); [discriminate|].
    destruct (dto_messages dto) as [ms|]; cbn;
      destruct (ChatService.roleIsUser (dto_message dto));
      destruct (dto_message dto); cbn; intros H; inversion H; cbn;
      repeat split; try reflexivity; intros ms' Hms; now inversion Hms.
  - destruct (dto_messages dto) as [ms|]; cbn;
      destruct (ChatService.roleIsUser (dto_message dto));
      destruct (dto_message dto); cbn; intros H; inversion H; cbn;
      repeat split; try reflexivity; intros ms' Hms; now inversion Hms.
Qed.

End Setup.

Lemma isReasoningModel_spec (model : string) :
  ChatService.isReasoningModel model = true <-> denotesReasoningVariant model.
Proof.
  unfold ChatService.isReasoningModel, denotesReasoningVariant.
  rewrite orb_true_iff, !includes_spec. reflexivity.
Qed.

(** C6: for every generation that [createChatStream] sets up, a model
    identifier that denotes a reasoning variant gives an empty enabled-tool
    set and no smoothing transform; every other model identifier gives the
    full tool set (getWeather, createDocument, updateDocument,
    requestSuggestions) and the word-level smoothing transform. *)
Theorem generation_tools_and_smoothing_by_variant
    (entitlementsByUserType : string -> Entitlements) (now : Z) (generateUUID : string)
    (dto : Dto) (usr : JwtPayload) (w w' : World) (setup : StreamSetup) :
  ChatService.createChatStream entitlementsByUserType now generateUUID dto usr w
    = (Return setup, w') ->
  (denotesReasoningVariant (dto_selectedChatModel dto) ->
     experimental_activeTools (ss_options setup) = [] /\
     experimental_transform (ss_options setup) = None) /\
  (~ denotesReasoningVariant (dto_selectedChatModel dto) ->
     experimental_activeTools (ss_options setup) = fullToolSet /\
     experimental_transform (ss_options setup) = Some (smoothStream chunking_word)).
Proof.
  intros Hrun. apply createChatStream_setup in Hrun.
  destruct Hrun as (_ & _ & _ & Hopt & _). rewrite Hopt.
  unfold ChatService.streamTextOptions. cbn.
  split; intros Hvariant.
  - apply isReasoningModel_spec in Hvariant. rewrite Hvariant. split; reflexivity.
  - destruct (ChatService.isReasoningModel (dto_selectedChatModel dto)) eqn:E.
    + apply isReasoningModel_spec in E. contradiction.
    + split; reflexivity.
Qed.

Lemma generation_tools_and_smoothing_by_variant_witness :
  (exists setup w',
     ChatService.createChatStream Samples.entitlements 5000 "s2" Samples.reasoningDto
       Samples.alice (initial Samples.store2) = (Return setup, w') /\
     experimental_activeTools (ss_options setup) = [] /\
     experimental_transform (ss_options setup) = None) /\
  (exists setup w',
     ChatService.createChatStream Samples.entitlements 5000 "s2" Samples.freshDto
       Samples.alice (initial Samples.store2) = (Return setup, w') /\
     experimental_activeTools (ss_options setup) = fullToolSet /\
     experimental_transform (ss_options setup) = Some (smoothStream chunking_word)).
Proof.
  split.
  - eexists. eexists. split; [vm_compute; reflexivity|].
    refine (proj1 (generation_tools_and_smoothing_by_variant Samples.entitlements 5000 "s2"
                     Samples.reasoningDto Samples.alice (initial Samples.store2) _ _
                     eq_refl) _).
    left. exists "chat-model-", "". reflexivity.
  - eexists. eexists. split; [vm_compute; reflexivity|].
    refine (proj2 (generation_tools_and_smoothing_by_variant Samples.entitlements 5000 "s2"
                     Samples.freshDto Samples.alice (initial Samples.store2) _ _
                     eq_refl) _).
    intros Hvariant. apply isReasoningModel_spec in Hvariant. discriminate.
Defined.

(** ** The approval-resume branch of [createChatStream] *)

(** C10: when [createChatStream] runs its approval-resume branch
    (messages list present, no single new user message) for a chat id the
    Store does not hold, the call returns without [not_found] or
    [forbidden], creates no Chat record, and registers the new stream
    identifier against the chat id that does not exist. *)
Theorem approval_resume_unknown_chat_registers_stream
    (entitlementsByUserType : string -> Entitlements) (now : Z) (generateUUID : string)
    (dto : Dto) (usr : JwtPayload) (w : World) (ms : list ChatMessage) :
  Db.getMessageCountByUserId (jwt_id usr) 24 now (w_db w)
    <= maxMessagesPerDay (entitlementsByUserType (jwt_type usr)) ->
  dto_messages dto = Some ms ->
  ChatService.roleIsUser (dto_message dto) = false ->
  Db.getChatById (dto_id dto) (w_db w) = None ->
  exists setup w',
    ChatService.createChatStream entitlementsByUserType now generateUUID dto usr w
      = (Return setup, w') /\
    w_journal w' = w_journal w ++ [Db.CreateStreamId generateUUID (dto_id dto)] /\
    Db.chats (w_db w') = Db.chats (w_db w) /\
    Db.getChatById (dto_id dto) (w_db w') = None /\
    Db.getStreamIdsByChatId (dto_id dto) (w_db w')
      = Db.getStreamIdsByChatId (dto_id dto) (w_db w) ++ [generateUUID] /\
    ss_streamId setup = generateUUID.
Proof.
  intros Hquota Hms Hrole Hchat.
  unfold ChatService.createChatStream. svc_unfold.
  destruct (Z.gtb_spec (Db.getMessageCountByUserId (jwt_id usr) 24 now (w_db w))
                       (maxMessagesPerDay (entitlementsByUserType (jwt_type usr))))
    as [Hgt|_]; [lia|].
  rewrite Hchat, Hrole, Hms. cbn.
  eexists. eexists. split; [reflexivity|]. cbn.
  repeat split; try reflexivity.
  - exact Hchat.
  - unfold Db.getStreamIdsByChatId. cbn.
    rewrite filter_app, map_app. cbn. rewrite String.eqb_refl. reflexivity.
Qed.

Lemma approval_resume_unknown_chat_registers_stream_witness :
  exists setup w',
    ChatService.createChatStream Samples.entitlements 5000 "s2" Samples.approvalDto
      Samples.alice (initial Samples.store2) = (Return setup, w') /\
    w_journal w' = [Db.CreateStreamId "s2" "c9"] /\
    Db.chats (w_db w') = Db.chats Samples.store2 /\
    Db.getChatById "c9" (w_db w') = None /\
    Db.getStreamIdsByChatId "c9" (w_db w') = ["s2"] /\
    ss_streamId setup = "s2".
Proof.
  apply (approval_resume_unknown_chat_registers_stream Samples.entitlements 5000 "s2"
           Samples.approvalDto Samples.alice (initial Samples.store2)
           [Samples.hello "m1";
            mkChatMessage "m2" assistant [ToolPart "getWeather" "approved"] None]).
  - vm_compute. discriminate.
  - reflexivity.
  - reflexivity.
  - reflexivity.
Defined.

Lemma findById_transcript (ms : list ChatMessage) (id : string) :
  ChatService.findById (map Some ms) id
  = if existsb (fun m => String.eqb (cm_id m) id) ms
    then ChatService.findById (map Some ms) id
    else None.
Proof.
  induction ms as [|m ms IH]; [reflexivity|].
  unfold ChatService.findById in *. cbn.
  destruct (cm_id m =? id)%string; [reflexivity | exact IH].
Qed.

Lemma findById_found (ms : list ChatMessage) (id : string) :
  existsb (fun m => String.eqb (cm_id m) id) ms = true ->
  exists found, ChatService.findById (map Some ms) id = Some found.
Proof.
  induction ms as [|m ms IH]; [discriminate|].
  unfold ChatService.findById in *. cbn.
  destruct (cm_id m =? id)%string; [intros _; eexists; reflexivity | exact IH].
Qed.

Lemma existsb_id_In (ms : list ChatMessage) (id : string) :
  existsb (fun m => String.eqb (cm_id m) id) ms = true <-> In id (map cm_id ms).
Proof.
  rewrite existsb_exists, in_map_iff. split.
  - intros [m [Hin Heq]]. apply String.eqb_eq in Heq. now exists m.
  - intros [m [Heq Hin]]. exists m. split; [exact Hin | now apply String.eqb_eq].
Qed.

(** In the approval-resume branch [onFinish] issues one Store write per
    finished message, in order, and nothing else. *)
Lemma onFinish_approval (now : Z) (setup : StreamSetup) (ms finished : list ChatMessage)
    (w : World) :
  ss_isToolApprovalFlow setup = true ->
  ss_uiMessages setup = map Some ms ->
  ChatService.onFinish now setup finished w
  = (Return tt,
     mkWorld (fold_left (fun db o => Db.apply o db)
                (map (approvalWrite (ss_id setup) now ms) finished) (w_db w))
             (w_journal w ++ map (approvalWrite (ss_id setup) now ms) finished)).
Proof.
  intros Hflow Hui. unfold ChatService.onFinish. rewrite Hflow, Hui.
  revert w. induction finished as [|fm finished IH]; intros w.
  - cbn. rewrite app_nil_r. now destruct w.
  - cbn [forEach map fold_left]. unfold bind at 1.
    assert (Hstep :
      match ChatService.findById (map Some ms) (cm_id fm) with
      | Some _ => exec (Db.UpdateMessage (cm_id fm) (cm_parts fm))
      | None => exec (Db.SaveMessages [ChatService.toDBMessage (ss_id setup) now fm])
      end = exec (approvalWrite (ss_id setup) now ms fm)).
    { unfold approvalWrite. rewrite findById_transcript.
      destruct (existsb _ ms) eqn:E; [|reflexivity].
      destruct (findById_found ms (cm_id fm) E) as [found ->]. reflexivity. }
    rewrite Hstep. unfold exec at 1. rewrite IH. cbn [w_db w_journal].
    rewrite <- app_assoc. reflexivity.
Qed.

Lemma rowsWithId_apply_approvalWrite (chatId : string) (now : Z)
    (ms : list ChatMessage) (fm : ChatMessage) (i : string) (db : Db.t) :
  In i (map cm_id ms) ->
  List.length (rowsWithId i (Db.apply (approvalWrite chatId now ms fm) db))
  = List.length (rowsWithId i db).
Proof.
  intros Hin. unfold approvalWrite, rowsWithId.
  destruct (existsb _ ms) eqn:E; cbn.
  - induction (Db.messages db) as [|r rows IH]; [reflexivity|]. cbn.
    destruct (m_id r =? cm_id fm)%string; cbn;
      destruct (m_id r =? i)%string; cbn; now rewrite ?IH.
  - rewrite filter_app, length_app. cbn.
    destruct (cm_id fm =? i)%string eqn:Eid; [|cbn; lia].
    apply String.eqb_eq in Eid. subst i.
    apply existsb_id_In in Hin. congruence.
Qed.

Lemma rowsWithId_fold_approvalWrite (chatId : string) (now : Z)
    (ms finished : list ChatMessage) (i : string) (db : Db.t) :
  In i (map cm_id ms) ->
  List.length (rowsWithId i (fold_left (fun db o => Db.apply o db)
                               (map (approvalWrite chatId now ms) finished) db))
  = List.length (rowsWithId i db).
Proof.
  intros Hin. revert db. induction finished as [|fm finished IH]; intros db.
  - reflexivity.
  - cbn [map fold_left]. rewrite IH. now apply rowsWithId_apply_approvalWrite.
Qed.

Lemma approvalWrite_cases (chatId : string) (now : Z) (ms : list ChatMessage)
    (fm : ChatMessage) :
  (In (cm_id fm) (map cm_id ms) /\
   approvalWrite chatId now ms fm = Db.UpdateMessage (cm_id fm) (cm_parts fm)) \/
  (~ In (cm_id fm) (map cm_id ms) /\
   approvalWrite chatId now ms fm
   = Db.SaveMessages [ChatService.toDBMessage chatId now fm]).
Proof.
  unfold approvalWrite. destruct (existsb _ ms) eqn:E.
  - left. split; [now apply existsb_id_In | reflexivity].
  - right. split; [|reflexivity].
    intros Hin. apply existsb_id_In in Hin. congruence.
Qed.

Lemma revise_cons (ms : list ChatMessage) (fm : ChatMessage) (rest : list ChatMessage)
    (row : DBMessage) :
  revise ms (fm :: rest) row
  = revise ms rest
      (if inTranscript ms (cm_id fm) && String.eqb (m_id row) (cm_id fm)
       then withParts (cm_parts fm) row
       else row).
Proof. reflexivity. Qed.

Lemma revise_app (ms pre post : list ChatMessage) (row : DBMessage) :
  revise ms (pre ++ post) row = revise ms post (revise ms pre row).
Proof. unfold revise. apply fold_left_app. Qed.

(** Revising a row changes nothing but its parts. *)
Lemma revise_frame (ms finished : list ChatMessage) (row : DBMessage) :
  m_id (revise ms finished row) = m_id row /\
  m_chatId (revise ms finished row) = m_chatId row /\
  m_role (revise ms finished row) = m_role row /\
  m_createdAt (revise ms finished row) = m_createdAt row.
Proof.
  revert row. induction finished as [|fm rest IH]; intros row.
  - cbn. repeat split.
  - rewrite revise_cons.
    destruct (inTranscript ms (cm_id fm) && String.eqb (m_id row) (cm_id fm)).
    + destruct (IH (withParts (cm_parts fm) row)) as (H1 & H2 & H3 & H4).
      rewrite H1, H2, H3, H4. cbn. repeat split.
    + apply IH.
Qed.

(** A row that no finished message of the transcript addresses is left
    as it is. *)
Lemma revise_untouched (ms finished : list ChatMessage) (row : DBMessage) :
  (forall fm, In fm finished -> In (cm_id fm) (map cm_id ms) -> cm_id fm <> m_id row) ->
  revise ms finished row = row.
Proof.
  induction finished as [|fm rest IH]; intros Hnone; [reflexivity|].
  rewrite revise_cons.
  destruct (inTranscript ms (cm_id fm)) eqn:Hin; cbn [andb];
    [|apply IH; intros fm' Hfm'; apply Hnone; now right].
  destruct (String.eqb_spec (m_id row) (cm_id fm)) as [Heq|_];
    [|apply IH; intros fm' Hfm'; apply Hnone; now right].
  exfalso. apply (Hnone fm); [now left | now apply existsb_id_In | now symmetry].
Qed.

Lemma revise_new (ms finished : list ChatMessage) (row : DBMessage) :
  inTranscript ms (m_id row) = false -> revise ms finished row = row.
Proof.
  intros Hnew. apply revise_untouched. intros fm _ Hin Heq.
  apply existsb_id_In in Hin. rewrite Heq in Hin.
  unfold inTranscript in Hnew. congruence.
Qed.

(** The last finished message that addresses a row decides its parts. *)
Lemma revise_last (ms pre post : list ChatMessage) (fm : ChatMessage) (row : DBMessage) :
  In (cm_id fm) (map cm_id ms) ->
  m_id row = cm_id fm ->
  (forall fm', In fm' post -> cm_id fm' <> cm_id fm) ->
  revise ms (pre ++ fm :: post) row = withParts (cm_parts fm) row.
Proof.
  intros Hin Hid Hlast.
  rewrite revise_app, revise_cons.
  destruct (revise_frame ms pre row) as (H1 & H2 & H3 & H4).
  apply existsb_id_In in Hin. fold (inTranscript ms (cm_id fm)) in Hin.
  rewrite Hin, H1, Hid, String.eqb_refl. cbn [andb].
  rewrite revise_untouched.
  - unfold withParts. now rewrite H1, H2, H3, H4.
  - intros fm' Hfm' _ Heq. apply (Hlast fm' Hfm').
    rewrite Heq. unfold withParts. cbn. now rewrite H1.
Qed.

(** The message table after the writes of [onFinish] in the
    approval-resume branch: the rows it held, revised where they stand,
    followed by one row for each finished message with a new id. *)
Lemma messages_after_approval (chatId : string) (now : Z)
    (ms finished : list ChatMessage) (db : Db.t) :
  Db.messages (fold_left (fun db o => Db.apply o db)
                 (map (approvalWrite chatId now ms) finished) db)
  = map (revise ms finished) (Db.messages db)
    ++ map (ChatService.toDBMessage chatId now) (newMessages ms finished).
Proof.
  revert db. induction finished as [|fm rest IH]; intros db.
  - cbn. rewrite app_nil_r. symmetry. apply map_id.
  - cbn [map fold_left]. rewrite IH. unfold approvalWrite, newMessages.
    cbn [filter].
    change (existsb (fun m => String.eqb (cm_id m) (cm_id fm)) ms)
      with (inTranscript ms (cm_id fm)).
    destruct (inTranscript ms (cm_id fm)) eqn:Hin; cbn [negb Db.apply].
    + unfold Db.updateMessage. cbn [Db.messages]. rewrite map_map.
      f_equal. apply map_ext. intros row. rewrite revise_cons, Hin. cbn [andb].
      reflexivity.
    + unfold Db.saveMessages. cbn [Db.messages map]. rewrite map_app. cbn [map].
      rewrite (revise_new ms rest (ChatService.toDBMessage chatId now fm)) by exact Hin.
      rewrite <- app_assoc. cbn [app]. f_equal.
      apply map_ext. intros row. rewrite revise_cons, Hin. reflexivity.
Qed.

(** The writes of [onFinish] in the approval-resume branch touch
    neither the chats nor the stream identifiers. *)
Lemma chats_after_approval (chatId : string) (now : Z)
    (ms finished : list ChatMessage) (db : Db.t) :
  Db.chats (fold_left (fun db o => Db.apply o db)
              (map (approvalWrite chatId now ms) finished) db) = Db.chats db /\
  Db.streams (fold_left (fun db o => Db.apply o db)
                (map (approvalWrite chatId now ms) finished) db) = Db.streams db.
Proof.
  revert db. induction finished as [|fm rest IH]; intros db; [now split|].
  cbn [map fold_left]. destruct (IH (Db.apply (approvalWrite chatId now ms fm) db))
    as [Hc Hs].
  rewrite Hc, Hs. unfold approvalWrite. destruct (existsb _ ms); now split.
Qed.

(** What [createChatStream] persists of the messages of a request that
    carries a messages list: the single message, when it is a user
    message and the call returns, and nothing else. *)
Lemma approval_request_rows
    (entitlementsByUserType : string -> Entitlements) (now : Z) (generateUUID : string)
    (dto : Dto) (usr : JwtPayload) (w w1 : World) (ms : list ChatMessage)
    (o : Outcome StreamSetup) :
  dto_messages dto = Some ms ->
  ChatService.createChatStream entitlementsByUserType now generateUUID dto usr w = (o, w1) ->
  Db.messages (w_db w1)
  = Db.messages (w_db w)
    ++ match o with Return _ => userRows now dto | Throw _ => [] end /\
  exists ops,
    w_journal w1 = w_journal w ++ ops /\
    (forall rows, In (Db.SaveMessages rows) ops ->
       ChatService.roleIsUser (dto_message dto) = true /\ rows = userRows now dto) /\
    (ChatService.roleIsUser (dto_message dto) = true ->
     forall setup, o = Return setup -> In (Db.SaveMessages (userRows now dto)) ops).
Proof.
  intros Hms. unfold ChatService.createChatStream, userRows, userRow,
    ChatService.roleIsUser. svc_unfold. rewrite Hms. cbn [ChatService.Boolean negb].
  assert (Hnone : forall db : Db.t, Db.messages db = Db.messages db ++ [])
    by (intros; now rewrite app_nil_r).
  assert (Hnil : forall j : list Db.op, j = j ++ []) by (intros; now rewrite app_nil_r).
  destruct (_ >? _).
  { intros H. inversion H. split; [apply Hnone|].
    exists []. split; [apply Hnil|]. split; [intros rows []|discriminate]. }
  destruct (Db.getChatById (dto_id dto) (w_db w)) as [c|].
  - destruct (negb (chat_userId c =? jwt_id usr)%string).
    { intros H. inversion H. split; [apply Hnone|].
      exists []. split; [apply Hnil|]. split; [intros rows []|discriminate]. }
    destruct (dto_message dto) as [m|]; cbn;
      [destruct (Role_eqb (cm_role m) user); cbn|];
      intros H; inversion H; cbn; rewrite <- ?app_assoc.
    + split; [reflexivity|]. eexists. split; [reflexivity|]. split.
      * intros rows [Hr|[Hr|[]]]; [|discriminate]. inversion Hr. now split.
      * intros _ setup _. now left.
    + split; [apply Hnone|]. eexists. split; [reflexivity|]. split.
      * intros rows [Hr|[]]. discriminate.
      * discriminate.
    + split; [apply Hnone|]. eexists. split; [reflexivity|]. split.
      * intros rows [Hr|[]]. discriminate.
      * discriminate.
  - destruct (dto_message dto) as [m|]; cbn;
      [destruct (Role_eqb (cm_role m) user); cbn|];
      intros H; inversion H; cbn; rewrite <- ?app_assoc.
    + split; [reflexivity|]. eexists. split; [reflexivity|]. split.
      * intros rows [Hr|[Hr|[Hr|[]]]]; try discriminate. inversion Hr. now split.
      * intros _ setup _. right. now left.
    + split; [apply Hnone|]. eexists. split; [reflexivity|]. split.
      * intros rows [Hr|[]]. discriminate.
      * discriminate.
    + split; [apply Hnone|]. eexists. split; [reflexivity|]. split.
      * intros rows [Hr|[]]. discriminate.
      * discriminate.
Qed.

(** C4, as the code has it: when the request carries a full messages
    list, [createChatStream] takes the approval-resume branch whatever
    else the request holds, and what it persists before the generation is
    the single message of the request when that is a user message (no
    message row at all when the request carries no such message) and
    nothing else. On
    completion [onFinish] issues one write per finished message, in order:
    an update in place of the parts for a finished message whose id
    appears in the input transcript, and the insertion of one new row
    otherwise. In the Store the rows held before stay where they are and
    keep their id, chat, role and date; a row no finished message of the
    transcript addresses is unchanged, a row that is addressed takes the
    parts of the last finished message with its id; no row is inserted for
    an id of the transcript; and the rows of the finished messages with
    new ids follow, in order. *)
Theorem approval_resume_updates_in_place
    (entitlementsByUserType : string -> Entitlements) (now : Z) (generateUUID : string)
    (dto : Dto) (usr : JwtPayload) (w w1 : World) (ms : list ChatMessage)
    (o : Outcome StreamSetup) :
  dto_messages dto = Some ms ->
  ChatService.createChatStream entitlementsByUserType now generateUUID dto usr w = (o, w1) ->
  Db.messages (w_db w1)
  = Db.messages (w_db w)
    ++ match o with Return _ => userRows now dto | Throw _ => [] end /\
  (exists ops,
     w_journal w1 = w_journal w ++ ops /\
     (forall rows, In (Db.SaveMessages rows) ops ->
        ChatService.roleIsUser (dto_message dto) = true /\ rows = userRows now dto) /\
     (ChatService.roleIsUser (dto_message dto) = true ->
      forall setup, o = Return setup -> In (Db.SaveMessages (userRows now dto)) ops) /\
     (ChatService.roleIsUser (dto_message dto) = false ->
      Forall (fun op => ~ insertsMessages op) ops)) /\
  (forall setup, o = Return setup ->
   ss_isToolApprovalFlow setup = true /\
   forall (finishedAt : Z) (finished : list ChatMessage) (w2 : World),
   exists w3,
     ChatService.onFinish finishedAt setup finished w2 = (Return tt, w3) /\
     w_journal w3
     = w_journal w2 ++ map (approvalWrite (dto_id dto) finishedAt ms) finished /\
     (forall fm, In fm finished ->
        (In (cm_id fm) (map cm_id ms) ->
           approvalWrite (dto_id dto) finishedAt ms fm
           = Db.UpdateMessage (cm_id fm) (cm_parts fm)) /\
        (~ In (cm_id fm) (map cm_id ms) ->
           approvalWrite (dto_id dto) finishedAt ms fm
           = Db.SaveMessages [ChatService.toDBMessage (dto_id dto) finishedAt fm])) /\
     Db.chats (w_db w3) = Db.chats (w_db w2) /\
     Db.streams (w_db w3) = Db.streams (w_db w2) /\
     Db.messages (w_db w3)
     = map (revise ms finished) (Db.messages (w_db w2))
       ++ map (ChatService.toDBMessage (dto_id dto) finishedAt) (newMessages ms finished) /\
     (forall row,
        m_id (revise ms finished row) = m_id row /\
        m_chatId (revise ms finished row) = m_chatId row /\
        m_role (revise ms finished row) = m_role row /\
        m_createdAt (revise ms finished row) = m_createdAt row) /\
     (forall row,
        (forall fm, In fm finished -> In (cm_id fm) (map cm_id ms) ->
                    cm_id fm <> m_id row) ->
        revise ms finished row = row) /\
     (forall pre fm post row,
        finished = pre ++ fm :: post ->
        In (cm_id fm) (map cm_id ms) ->
        m_id row = cm_id fm ->
        (forall fm', In fm' post -> cm_id fm' <> cm_id fm) ->
        revise ms finished row = withParts (cm_parts fm) row) /\
     (forall fm, In fm (newMessages ms finished) <->
                 In fm finished /\ ~ In (cm_id fm) (map cm_id ms)) /\
     (forall i, In i (map cm_id ms) ->
        List.length (rowsWithId i (w_db w3)) = List.length (rowsWithId i (w_db w2)))).
Proof.
  intros Hms Hrun.
  destruct (approval_request_rows entitlementsByUserType now generateUUID dto usr w w1
              ms o Hms Hrun) as [Hrows Hjournal].
  split; [exact Hrows|]. split.
  { destruct Hjournal as (ops & Hops & Hsave & Huser).
    exists ops. split; [exact Hops|]. split; [exact Hsave|]. split; [exact Huser|].
    intros Hrole. apply Forall_forall. intros op Hop.
    destruct op as [c|rows|i parts|sid cid]; cbn; try tauto.
    intros _. destruct (Hsave rows Hop) as [Htrue _]. congruence. }
  intros setup ->.
  apply createChatStream_setup in Hrun.
  destruct Hrun as (Hid & _ & Hflow & _ & Hui).
  rewrite Hms in Hflow. specialize (Hui ms Hms).
  split; [exact Hflow|].
  intros finishedAt finished w2.
  eexists. split; [apply (onFinish_approval finishedAt setup ms finished w2 Hflow Hui)|].
  cbn [w_journal w_db]. rewrite Hid.
  split; [reflexivity|].
  split.
  { intros fm _. split.
    - intros Hin.
      destruct (approvalWrite_cases (dto_id dto) finishedAt ms fm) as [[_ Hw]|[Hn _]];
        [exact Hw | contradiction].
    - intros Hnew.
      destruct (approvalWrite_cases (dto_id dto) finishedAt ms fm) as [[Hin _]|[_ Hw]];
        [contradiction | exact Hw]. }
  split; [apply chats_after_approval|].
  split; [apply chats_after_approval|].
  split; [apply messages_after_approval|].
  split; [intros row; apply revise_frame|].
  split; [intros row; apply revise_untouched|].
  split.
  { intros pre fm post row -> Hin Hrow Hlast. now apply revise_last. }
  split.
  { intros fm. unfold newMessages. rewrite filter_In.
    split; intros [Hfm Hnew]; (split; [exact Hfm|]).
    - intros Hin. apply existsb_id_In in Hin. unfold inTranscript in Hnew.
      rewrite Hin in Hnew. discriminate.
    - unfold inTranscript.
      destruct (existsb (fun m => (cm_id m =? cm_id fm)%string) ms) eqn:E;
        [|reflexivity].
      exfalso. apply Hnew. now apply existsb_id_In. }
  intros i Hin. now apply rowsWithId_fold_approvalWrite.
Qed.

Lemma approval_resume_updates_in_place_witness :
  exists setup w1 w3,
    ChatService.createChatStream Samples.entitlements 5000 "s2" Samples2.bothDto
      Samples.alice (initial Samples.storeApproval) = (Return setup, w1) /\
    Db.messages (w_db w1)
    = Db.messages Samples.storeApproval ++ [Samples.row "m9" "c1" user 5000] /\
    ChatService.onFinish 9000 setup Samples2.finishedTwice w1 = (Return tt, w3) /\
    Db.messages (w_db w3)
    = [Samples.row "m1" "c1" user 1000;
       mkDBMessage "m2" "c1" assistant
                   [ToolPart "getWeather" "result"; TextPart "Done"] 2000;
       Samples.row "m9" "c1" user 5000;
       mkDBMessage "m3" "c1" assistant [TextPart "Sunny"] 9000].
Proof.
  destruct (ChatService.createChatStream Samples.entitlements 5000 "s2" Samples2.bothDto
              Samples.alice (initial Samples.storeApproval)) as [o w1] eqn:Hrun.
  destruct (approval_resume_updates_in_place Samples.entitlements 5000 "s2"
              Samples2.bothDto Samples.alice (initial Samples.storeApproval) w1
              Samples.approvedTranscript o eq_refl Hrun)
    as (Hrows & _ & Hfinish).
  destruct o as [setup|e]; [|vm_compute in Hrun; discriminate Hrun].
  destruct (Hfinish setup eq_refl) as [_ Hdone].
  destruct (Hdone 9000 Samples2.finishedTwice w1)
    as (w3 & Hfin & _ & _ & _ & _ & Hmessages & _).
  exists setup, w1, w3.
  split; [reflexivity|]. split; [exact Hrows|]. split; [exact Hfin|].
  rewrite Hmessages, Hrows. reflexivity.
Defined.

(** C4, as stated, fails on a request that carries the full transcript
    and, beside it, a single user message: it runs the approval-resume
    branch, and its user message is persisted as a new row. *)
Lemma approval_resume_persists_user_message :
  exists setup w1,
    dto_messages Samples2.bothDto = Some Samples.approvedTranscript /\
    ChatService.createChatStream Samples.entitlements 5000 "s2" Samples2.bothDto
      Samples.alice (initial Samples.storeApproval) = (Return setup, w1) /\
    ss_isToolApprovalFlow setup = true /\
    w_journal w1
    = [Db.SaveMessages [mkDBMessage "m9" "c1" user [TextPart "Hello"] 5000];
       Db.CreateStreamId "s2" "c1"] /\
    Db.messages (w_db w1)
    = Db.messages Samples.storeApproval
      ++ [mkDBMessage "m9" "c1" user [TextPart "Hello"] 5000].
Proof.
  eexists. eexists. split; [reflexivity|].
  split; [vm_compute; reflexivity|].
  repeat split.
Qed.

(** ** Existence and visibility checks of chat-read and resume *)

Section Access.

Variable now : Z.

Lemma getChatWithMessages_not_found (chatId userId : string) (w : World) :
  Db.getChatById chatId (w_db w) = None ->
  ChatService.getChatWithMessages chatId userId w
  = (Throw (mkHttpException not_found_chat NOT_FOUND), w).
Proof.
  intros Hchat. unfold ChatService.getChatWithMessages. svc_unfold.
  now rewrite Hchat.
Qed.

Lemma getChatWithMessages_forbidden (chatId userId : string) (w : World) (c : Chat) :
  Db.getChatById chatId (w_db w) = Some c ->
  chat_visibility c = private ->
  chat_userId c <> userId ->
  ChatService.getChatWithMessages chatId userId w
  = (Throw (mkHttpException forbidden_chat FORBIDDEN), w).
Proof.
  intros Hchat Hprivate Hother. unfold ChatService.getChatWithMessages. svc_unfold.
  rewrite Hchat, Hprivate. apply String.eqb_neq in Hother. now rewrite Hother.
Qed.

Lemma getResumableStream_not_found (context : ResumableStreamContext)
    (chatId userId : string) (w : World) :
  Db.getChatById chatId (w_db w) = None ->
  ChatService.getResumableStream now (Some context) chatId userId w
  = (Throw (mkHttpException not_found_chat NOT_FOUND), w).
Proof.
  intros Hchat. unfold ChatService.getResumableStream. svc_unfold.
  now rewrite Hchat.
Qed.

Lemma getResumableStream_forbidden (context : ResumableStreamContext)
    (chatId userId : string) (w : World) (c : Chat) :
  Db.getChatById chatId (w_db w) = Some c ->
  chat_visibility c = private ->
  chat_userId c <> userId ->
  ChatService.getResumableStream now (Some context) chatId userId w
  = (Throw (mkHttpException forbidden_chat FORBIDDEN), w).
Proof.
  intros Hchat Hprivate Hother. unfold ChatService.getResumableStream. svc_unfold.
  rewrite Hchat, Hprivate. apply String.eqb_neq in Hother. now rewrite Hother.
Qed.

(** With resumable streams disabled, every resume request returns [null]
    and reads nothing. *)
Lemma getResumableStream_disabled (chatId userId : string) (w : World) :
  ChatService.getResumableStream now None chatId userId w = (Return None, w).
Proof. reflexivity. Qed.

End Access.

(** C7, as the code has it: for every chat-read request, and for every
    resume request while resumable streams are enabled, a chat id the
    Store does not hold fails with [not_found] whoever asks (the existence
    check comes before the visibility check), and a private chat read by
    an identity other than its owner fails with [forbidden]; the Store is
    left untouched. *)
Theorem chat_access_checks (now : Z) (context : ResumableStreamContext)
    (chatId userId : string) (w : World) :
  (Db.getChatById chatId (w_db w) = None ->
     ChatService.getChatWithMessages chatId userId w
       = (Throw (mkHttpException not_found_chat NOT_FOUND), w) /\
     ChatService.getResumableStream now (Some context) chatId userId w
       = (Throw (mkHttpException not_found_chat NOT_FOUND), w)) /\
  (forall c, Db.getChatById chatId (w_db w) = Some c ->
     chat_visibility c = private ->
     chat_userId c <> userId ->
     ChatService.getChatWithMessages chatId userId w
       = (Throw (mkHttpException forbidden_chat FORBIDDEN), w) /\
     ChatService.getResumableStream now (Some context) chatId userId w
       = (Throw (mkHttpException forbidden_chat FORBIDDEN), w)).
Proof.
  split.
  - intros Hchat. split.
    + now apply getChatWithMessages_not_found.
    + now apply getResumableStream_not_found.
  - intros c Hchat Hprivate Hother. split.
    + now apply getChatWithMessages_forbidden with (c := c).
    + now apply getResumableStream_forbidden with (c := c).
Qed.

Lemma chat_access_checks_witness :
  (ChatService.getChatWithMessages "c9" "bob" (initial Samples.storeAnswered)
     = (Throw (mkHttpException not_found_chat NOT_FOUND), initial Samples.storeAnswered) /\
   ChatService.getResumableStream 5000 (Some Samples.allConcluded) "c9" "bob"
       (initial Samples.storeAnswered)
     = (Throw (mkHttpException not_found_chat NOT_FOUND), initial Samples.storeAnswered)) /\
  (ChatService.getChatWithMessages "c1" "bob" (initial Samples.storeAnswered)
     = (Throw (mkHttpException forbidden_chat FORBIDDEN), initial Samples.storeAnswered) /\
   ChatService.getResumableStream 5000 (Some Samples.allConcluded) "c1" "bob"
       (initial Samples.storeAnswered)
     = (Throw (mkHttpException forbidden_chat FORBIDDEN), initial Samples.storeAnswered)).
Proof.
  split.
  - apply (proj1 (chat_access_checks 5000 Samples.allConcluded "c9" "bob"
                    (initial Samples.storeAnswered))).
    reflexivity.
  - apply (proj2 (chat_access_checks 5000 Samples.allConcluded "c1" "bob"
                    (initial Samples.storeAnswered))
             (mkChat "c1" "alice" "New chat" private)).
    + reflexivity.
    + reflexivity.
    + discriminate.
Defined.

(** C7, as stated, fails on resume requests: with resumable streams
    disabled, a resume request on a chat id the Store does not hold
    returns [null] instead of failing with [not_found]. *)
Lemma resume_disabled_unknown_chat_is_not_rejected :
  Db.getChatById "c9" Samples.storeAnswered = None /\
  ChatService.getResumableStream 5000 None "c9" "bob" (initial Samples.storeAnswered)
    = (Return None, initial Samples.storeAnswered) /\
  fst (ChatService.getResumableStream 5000 None "c9" "bob" (initial Samples.storeAnswered))
    <> Throw (mkHttpException not_found_chat NOT_FOUND).
Proof.
  split; [reflexivity|]. split; [reflexivity|]. discriminate.
Qed.

(** ** Resuming a concluded feed *)

(** Whole seconds: the staleness test fires from sixteen seconds on. *)
Lemma differenceInSeconds_stale (later earlier : Z) :
  (ChatService.differenceInSeconds later earlier >? 15) = true <->
  16000 <= later - earlier.
Proof.
  unfold ChatService.differenceInSeconds.
  destruct (Z.gtb_spec (Z.quot (later - earlier) 1000) 15) as [Hgt|Hle].
  - split; [intros _ | reflexivity].
    destruct (Z.lt_ge_cases (later - earlier) 16000) as [Hlt|Hge]; [|exact Hge].
    exfalso.
    assert (Hmono : Z.quot (later - earlier) 1000 <= Z.quot 15999 1000)
      by (apply Z.quot_le_mono; lia).
    change (Z.quot 15999 1000) with 15 in Hmono. lia.
  - split; [discriminate|]. intros Hge. exfalso.
    assert (Hmono : Z.quot 16000 1000 <= Z.quot (later - earlier) 1000)
      by (apply Z.quot_le_mono; lia).
    change (Z.quot 16000 1000) with 16 in Hmono. lia.
Qed.

Section Resume.

Variable context : ResumableStreamContext.
Variables chatId userId : string.
Variable w : World.
Variable c : Chat.
Variable recentStreamId : string.
Variable mostRecentMessage : DBMessage.

Hypothesis chat_found : Db.getChatById chatId (w_db w) = Some c.
Hypothesis chat_visible : chat_visibility c = public \/ chat_userId c = userId.
Hypothesis stream_recorded :
  ChatService.at_last (Db.getStreamIdsByChatId chatId (w_db w)) = Some recentStreamId.
Hypothesis stream_named : recentStreamId <> "".
Hypothesis feed_concluded : resumableStream context recentStreamId = concluded.
Hypothesis last_message :
  ChatService.at_last (Db.getMessagesByChatId chatId (w_db w)) = Some mostRecentMessage.
Hypothesis last_is_assistant : m_role mostRecentMessage = assistant.

Lemma at_last_nonempty {A} (xs : list A) (x : A) :
  ChatService.at_last xs = Some x -> (List.length xs =? 0)%nat = false.
Proof.
  destruct xs; [discriminate | reflexivity].
Qed.

(** Up to the staleness test a resume request on a concluded feed runs
    the fallback. *)
Lemma getResumableStream_concluded (now : Z) :
  ChatService.getResumableStream now (Some context) chatId userId w
  = ChatService.restoreFromDatabase chatId now w.
Proof.
  unfold ChatService.getResumableStream. svc_unfold. rewrite chat_found.
  assert (Hvisible : Visibility_eqb (chat_visibility c) private
                     && negb (chat_userId c =? userId)%string = false).
  { destruct chat_visible as [-> | ->]; [reflexivity|].
    rewrite String.eqb_refl. apply andb_false_r. }
  rewrite Hvisible, (at_last_nonempty _ _ stream_recorded), stream_recorded.
  destruct recentStreamId as [|ch rest]; [contradiction|].
  cbn [Js.truthy negb]. now rewrite feed_concluded.
Qed.

Lemma resume_stale (now : Z) :
  16000 <= now - m_createdAt mostRecentMessage ->
  ChatService.getResumableStream now (Some context) chatId userId w
  = (Return (Some (EventFeed [])), w).
Proof.
  intros Hstale. rewrite getResumableStream_concluded.
  unfold ChatService.restoreFromDatabase. svc_unfold.
  rewrite last_message, last_is_assistant. cbn [Role_eqb negb].
  apply differenceInSeconds_stale in Hstale. now rewrite Hstale.
Qed.

Lemma resume_fresh (now : Z) :
  now - m_createdAt mostRecentMessage < 16000 ->
  ChatService.getResumableStream now (Some context) chatId userId w
  = (Return (Some (EventFeed [data_appendMessage mostRecentMessage])), w).
Proof.
  intros Hfresh. rewrite getResumableStream_concluded.
  unfold ChatService.restoreFromDatabase. svc_unfold.
  rewrite last_message, last_is_assistant. cbn [Role_eqb negb].
  destruct (ChatService.differenceInSeconds now (m_createdAt mostRecentMessage) >? 15)
    eqn:E; [|reflexivity].
  apply differenceInSeconds_stale in E. lia.
Qed.

End Resume.

(** The staleness rule of the code: on a resume request for a chat whose live
    feed has concluded and whose last persisted message is an assistant
    message, staleness is measured in whole seconds. If the message was
    persisted sixteen seconds or more before the request (the whole-second
    difference exceeds 15), the result is an empty feed that completes at
    once, and so is the result of every later repetition; otherwise the
    result is exactly one catch-up event carrying that message, followed by
    completion. No request changes the Store. *)
Theorem resume_concluded_feed
    (context : ResumableStreamContext) (chatId userId : string) (w : World) (c : Chat)
    (recentStreamId : string) (mostRecentMessage : DBMessage) (now : Z) :
  Db.getChatById chatId (w_db w) = Some c ->
  chat_visibility c = public \/ chat_userId c = userId ->
  ChatService.at_last (Db.getStreamIdsByChatId chatId (w_db w)) = Some recentStreamId ->
  recentStreamId <> "" ->
  resumableStream context recentStreamId = concluded ->
  ChatService.at_last (Db.getMessagesByChatId chatId (w_db w)) = Some mostRecentMessage ->
  m_role mostRecentMessage = assistant ->
  (16000 <= now - m_createdAt mostRecentMessage ->
     forall later, now <= later ->
       ChatService.getResumableStream later (Some context) chatId userId w
       = (Return (Some (EventFeed [])), w)) /\
  (now - m_createdAt mostRecentMessage < 16000 ->
     ChatService.getResumableStream now (Some context) chatId userId w
     = (Return (Some (EventFeed [data_appendMessage mostRecentMessage])), w)).
Proof.
  intros Hchat Hvisible Hstream Hnamed Hconcluded Hlast Hrole. split.
  - intros Hstale later Hlater.
    apply (resume_stale context chatId userId w c recentStreamId mostRecentMessage);
      try assumption.
    lia.
  - intros Hfresh.
    now apply (resume_fresh context chatId userId w c recentStreamId mostRecentMessage).
Qed.

(** The answer of chat c1 was persisted at 100000 ms: a request at
    120000 ms and every later one get the empty feed, a request at
    105000 ms gets the answer. *)
Lemma resume_concluded_feed_witness :
  (forall later, 120000 <= later ->
     ChatService.getResumableStream later (Some Samples.allConcluded) "c1" "alice"
       (initial Samples.storeAnswered)
     = (Return (Some (EventFeed [])), initial Samples.storeAnswered)) /\
  ChatService.getResumableStream 105000 (Some Samples.allConcluded) "c1" "alice"
    (initial Samples.storeAnswered)
  = (Return (Some (EventFeed [data_appendMessage Samples.answer])),
     initial Samples.storeAnswered).
Proof.
  split.
  - apply (proj1 (resume_concluded_feed Samples.allConcluded "c1" "alice"
                    (initial Samples.storeAnswered)
                    (mkChat "c1" "alice" "New chat" private) "s1" Samples.answer 120000
                    eq_refl (or_intror eq_refl) eq_refl
                    ltac:(discriminate) eq_refl eq_refl eq_refl)).
    vm_compute. discriminate.
  - apply (proj2 (resume_concluded_feed Samples.allConcluded "c1" "alice"
                    (initial Samples.storeAnswered)
                    (mkChat "c1" "alice" "New chat" private) "s1" Samples.answer 105000
                    eq_refl (or_intror eq_refl) eq_refl
                    ltac:(discriminate) eq_refl eq_refl eq_refl)).
    reflexivity.
Defined.

(** C2 (the code between fifteen and sixteen seconds): the answer of
    chat c1 was persisted at 100000 ms, its live feed has concluded, and a
    resume request at 115500 ms, more than 15 seconds later, does not get
    the empty feed but the catch-up event carrying the answer. *)
Lemma resume_after_fifteen_and_a_half_seconds_replays :
  115500 - m_createdAt Samples.answer > 15 * 1000 /\
  ChatService.getResumableStream 115500 (Some Samples.allConcluded) "c1" "alice"
    (initial Samples.storeAnswered)
  = (Return (Some (EventFeed [data_appendMessage Samples.answer])),
     initial Samples.storeAnswered) /\
  fst (ChatService.getResumableStream 115500 (Some Samples.allConcluded) "c1" "alice"
         (initial Samples.storeAnswered))
  <> Return (Some (EventFeed [])).
Proof.
  split; [reflexivity|]. split; [reflexivity|].
  vm_compute. discriminate.
Qed.

(** ** Documents without a handler *)

Lemma no_handler_for_image (handlers : list Artifacts.DocumentHandler) :
  find (fun handler =>
          String.eqb (Artifacts.kindName (Artifacts.kind handler))
                     (ToolsService.inputName ToolsService.in_image))
       handlers = None.
Proof.
  induction handlers as [|h handlers IH]; [reflexivity|].
  cbn [find]. destruct (Artifacts.kind h); cbn; exact IH.
Qed.

Lemma no_handler_for_kind (handlers : list Artifacts.DocumentHandler) (k : string) :
  ~ In k (map (fun handler => Artifacts.kindName (Artifacts.kind handler)) handlers) ->
  find (fun handler => String.eqb (Artifacts.kindName (Artifacts.kind handler)) k)
       handlers = None.
Proof.
  induction handlers as [|h handlers IH]; [reflexivity|].
  cbn [find map In]. intros Hnot.
  destruct (String.eqb_spec (Artifacts.kindName (Artifacts.kind h)) k) as [E|_].
  - exfalso. apply Hnot. now left.
  - apply IH. intros Hin. apply Hnot. now right.
Qed.

(** C9: the input schema of [createDocument] has the kind "image", the
    handler registry has handlers for text, code and sheet only, so every
    [createDocument] call with kind "image" throws after it has written its
    four preliminary events, whereas [updateDocument] on a document whose
    kind has no handler returns an error payload. *)
Theorem createDocument_image_throws
    (streamObject : Artifacts.CodeRequest -> list Artifacts.Delta)
    (textGenerators sheetGenerators :
       (Artifacts.CreateDocumentCallbackProps -> list UIMessageChunk * string) *
       (Artifacts.UpdateDocumentCallbackProps -> list UIMessageChunk * string))
    (getDocumentById : string -> option Artifacts.Document)
    (generateUUID : nat -> string)
    (session : JwtPayload) (title id description : string) :
  let documentHandlers :=
    Artifacts.createDocumentHandlers streamObject textGenerators sheetGenerators in
  ToolsService.inputName ToolsService.in_image = "image" /\
  map (fun handler => Artifacts.kindName (Artifacts.kind handler)) documentHandlers
    = ["text"; "code"; "sheet"] /\
  ToolsService.createDocument documentHandlers generateUUID session title
      ToolsService.in_image
    = ([Artifacts.Emit (data_kind "image");
        Artifacts.Emit (data_id (generateUUID 0%nat));
        Artifacts.Emit (data_title title);
        Artifacts.Emit data_clear],
       ToolsService.thrown "No document handler found for kind: image") /\
  (forall document,
     getDocumentById id = Some document ->
     ~ In (Artifacts.doc_kind document) ["text"; "code"; "sheet"] ->
     ToolsService.updateDocument documentHandlers getDocumentById session id description
     = ([Artifacts.Emit data_clear],
        ToolsService.returned
          (ToolsService.error_payload
             ("No document handler found for kind: " ++ Artifacts.doc_kind document)))).
Proof.
  intros documentHandlers. split; [reflexivity|]. split; [reflexivity|]. split.
  - unfold ToolsService.createDocument. now rewrite no_handler_for_image.
  - intros document Hdoc Hkind. unfold ToolsService.updateDocument. rewrite Hdoc.
    now rewrite (no_handler_for_kind documentHandlers (Artifacts.doc_kind document) Hkind).
Qed.

Lemma createDocument_image_throws_witness :
  ToolsService.createDocument Samples.registry Samples.uuids Samples.alice "Sunset"
      ToolsService.in_image
    = ([Artifacts.Emit (data_kind "image"); Artifacts.Emit (data_id "a");
        Artifacts.Emit (data_title "Sunset"); Artifacts.Emit data_clear],
       ToolsService.thrown "No document handler found for kind: image") /\
  ToolsService.updateDocument Samples.registry Samples.documents Samples.alice "d2"
      "Brighter"
    = ([Artifacts.Emit data_clear],
       ToolsService.returned
         (ToolsService.error_payload "No document handler found for kind: image")).
Proof.
  destruct (createDocument_image_throws Samples.noCode Samples.plainGenerators
              Samples.plainGenerators Samples.documents Samples.uuids Samples.alice
              "Sunset" "d2" "Brighter") as (_ & _ & Hcreate & Hupdate).
  split; [exact Hcreate|].
  apply (Hupdate Samples.picture); [reflexivity|].
  cbn. intros [H|[H|[H|[]]]]; discriminate.
Defined.

(** ** Suggestions *)

Section Suggestions.

Variable generateUUID : nat -> string.
Variable documentId : string.

Lemma processElements_inStep (elements : list (option ToolsService.PartialElement))
    (st : ToolsService.SuggestState) :
  inStep st -> inStep (ToolsService.processElements generateUUID documentId elements st).
Proof.
  revert st. induction elements as [|element elements IH]; intros st Hst; [exact Hst|].
  cbn [ToolsService.processElements].
  destruct (ToolsService.completeElement element) as [[[o s] d]|]; [|now apply IH].
  apply IH. destruct Hst as [Heff Hcount]. split; cbn.
  - rewrite Heff, map_app. reflexivity.
  - rewrite length_app, Hcount. cbn. lia.
Qed.

Lemma processStream_inStep
    (stream : list (option (list (option ToolsService.PartialElement)))) :
  inStep (ToolsService.processStream generateUUID documentId stream).
Proof.
  unfold ToolsService.processStream.
  assert (Hinit : inStep (ToolsService.mkSuggestState 0 [] [])) by (split; reflexivity).
  revert Hinit. generalize (ToolsService.mkSuggestState 0 [] []).
  induction stream as [|partialOutput stream IH]; intros st Hst; [exact Hst|].
  cbn [fold_left]. apply IH.
  destruct partialOutput as [elements|]; [|exact Hst].
  now apply processElements_inStep.
Qed.

(** Every complete element from the first unprocessed index on becomes a
    suggestion: none is turned away. *)
Lemma processElements_all_complete (elements : list (option ToolsService.PartialElement))
    (st : ToolsService.SuggestState) :
  Forall isComplete elements ->
  List.length (ToolsService.suggestions
                 (ToolsService.processElements generateUUID documentId elements st))
  = (List.length (ToolsService.suggestions st) + List.length elements)%nat.
Proof.
  intros Hall. revert st. induction Hall as [|element elements Hc _ IH]; intros st.
  - cbn. lia.
  - cbn [ToolsService.processElements].
    unfold isComplete in Hc.
    destruct (ToolsService.completeElement element) as [[[o s] d]|]; [|contradiction].
    rewrite IH. cbn. rewrite length_app. cbn. lia.
Qed.

End Suggestions.

(** C5, as the code has it: for every document with content the
    [requestSuggestions] tool emits each suggestion as a side-channel event
    as it completes and hands the full batch to the Store once, at the end
    (when the session carries a user id): the batch holds exactly the
    emitted suggestions, in order. The code puts no bound on the batch: a
    model that answers with one array of complete elements gets every one
    of them emitted and persisted, however many they are. *)
Theorem requestSuggestions_emits_then_persists
    (getDocumentById : string -> option Artifacts.Document)
    (generateUUID : nat -> string) (now : Z)
    (partialOutputStream : string -> list (option (list (option ToolsService.PartialElement))))
    (session : JwtPayload) (documentId : string)
    (document : Artifacts.Document) (content : string) :
  getDocumentById documentId = Some document ->
  ToolsService.hasContent document = Some content ->
  let batch :=
    ToolsService.suggestions
      (ToolsService.processStream generateUUID documentId (partialOutputStream content)) in
  ToolsService.requestSuggestions getDocumentById generateUUID now partialOutputStream
      session documentId
    = (map emitSuggestion batch ++
       (if Js.truthy (jwt_id session)
        then [Artifacts.SaveSuggestions
                (map (fun suggestion =>
                        Artifacts.mkSuggestionRow suggestion (jwt_id session) now
                          (Artifacts.doc_createdAt document))
                     batch)]
        else []),
       ToolsService.returned
         (ToolsService.document_payload documentId (Artifacts.doc_title document)
            (Artifacts.doc_kind document) "Suggestions have been added to the document")) /\
  (forall elements,
     partialOutputStream content = [Some elements] ->
     Forall isComplete elements ->
     List.length batch = List.length elements).
Proof.
  intros Hdoc Hcontent batch. split.
  - unfold ToolsService.requestSuggestions. rewrite Hdoc, Hcontent.
    destruct (processStream_inStep generateUUID documentId (partialOutputStream content))
      as [Heff _].
    rewrite Heff. reflexivity.
  - intros elements Hstream Hall. unfold batch. rewrite Hstream.
    unfold ToolsService.processStream. cbn [fold_left ToolsService.processedCount skipn].
    now rewrite processElements_all_complete.
Qed.

Lemma requestSuggestions_emits_then_persists_witness :
  exists batch,
    List.length batch = 6%nat /\
    fst (ToolsService.requestSuggestions Samples.documents Samples.uuids 5000
           Samples.sixSuggestions Samples.alice "d1")
    = map emitSuggestion batch ++
      [Artifacts.SaveSuggestions
         (map (fun suggestion => Artifacts.mkSuggestionRow suggestion "alice" 5000 1000)
              batch)].
Proof.
  destruct (requestSuggestions_emits_then_persists Samples.documents Samples.uuids 5000
              Samples.sixSuggestions Samples.alice "d1" Samples.essay
              "One. Two. Three. Four. Five. Six." eq_refl eq_refl) as [Hrun _].
  eexists. split; [|rewrite Hrun; reflexivity]. reflexivity.
Defined.

(** C5, as stated, fails on a model that answers with six suggestions:
    six events are emitted and the persisted batch holds six suggestions,
    more than 5. *)
Lemma requestSuggestions_six_suggestions :
  exists emitted batch,
    ToolsService.requestSuggestions Samples.documents Samples.uuids 5000
      Samples.sixSuggestions Samples.alice "d1"
    = (map emitSuggestion emitted ++ [Artifacts.SaveSuggestions batch],
       ToolsService.returned
         (ToolsService.document_payload "d1" "Essay" "text"
            "Suggestions have been added to the document")) /\
    List.length emitted = 6%nat /\
    List.length batch = 6%nat /\
    ~ (List.length batch <= 5)%nat.
Proof.
  exists (ToolsService.suggestions
            (ToolsService.processStream Samples.uuids "d1"
               (Samples.sixSuggestions "One. Two. Three. Four. Five. Six."))).
  eexists. split; [vm_compute; reflexivity|].
  split; [reflexivity|]. split; [reflexivity|]. cbn. lia.
Qed.

(** ** Strings of the transport adapter *)

Lemma length_append (a b : string) :
  String.length (a ++ b) = (String.length a + String.length b)%nat.
Proof. induction a as [|c a IH]; cbn; [reflexivity | now rewrite IH]. Qed.

Lemma length_substringFrom (n : nat) (s : string) :
  String.length (Js.substringFrom n s) = (String.length s - n)%nat.
Proof.
  revert s. induction n as [|n IH]; intros s.
  - cbn. lia.
  - destruct s as [|c s]; cbn; [reflexivity | apply IH].
Qed.

Lemma length_substring_le (i n : nat) (s : string) :
  (String.length (String.substring i n s) <= String.length s - i)%nat.
Proof.
  revert i n. induction s as [|c s IH]; intros i n.
  - destruct i, n; cbn; lia.
  - destruct i as [|i].
    + destruct n as [|n]; cbn; [lia|]. specialize (IH 0%nat n). lia.
    + cbn. apply IH.
Qed.

(** A delimiter found at index [i] lies within the buffer. *)
Lemma indexOf_delimiter_bound (s : string) (i : nat) :
  Js.indexOf Transport.delimiter s = Some i -> (i + 2 <= String.length s)%nat.
Proof.
  unfold Js.indexOf. intros Hidx. apply String.index_correct1 in Hidx.
  pose proof (length_substring_le i (String.length Transport.delimiter) s) as Hlen.
  rewrite Hidx in Hlen. cbn in Hlen. lia.
Qed.

Lemma substringTo_append (f rest : string) :
  Js.substringTo (String.length f) (f ++ rest) = f.
Proof.
  unfold Js.substringTo. induction f as [|c f IH]; cbn.
  - now destruct rest.
  - now rewrite IH.
Qed.

Lemma substringFrom_append (f rest : string) :
  Js.substringFrom (String.length f + 2) (f ++ Transport.delimiter ++ rest) = rest.
Proof.
  induction f as [|c f IH]; cbn; [reflexivity | exact IH].
Qed.

Lemma indexOf_frame (f rest : string) :
  lineFeedFree f = true ->
  Js.indexOf Transport.delimiter (f ++ Transport.delimiter ++ rest)
  = Some (String.length f).
Proof.
  unfold Js.indexOf. induction f as [|c f IH]; intros Hfree.
  - cbn. now destruct rest.
  - cbn in Hfree. apply andb_true_iff in Hfree. destruct Hfree as [Hc Hfree].
    apply negb_true_iff, Ascii.eqb_neq in Hc.
    cbn [String.append String.index].
    assert (Hprefix : String.prefix Transport.delimiter
                        (String c (f ++ Transport.delimiter ++ rest)) = false).
    { destruct (String.prefix _ _) eqn:E; [|reflexivity].
      apply prefix_append in E. destruct E as [post E].
      inversion E. congruence. }
    rewrite Hprefix, (IH Hfree). reflexivity.
Qed.

Lemma lineFeedFree_no_delimiter (s : string) :
  lineFeedFree s = true -> Js.indexOf Transport.delimiter s = None.
Proof.
  unfold Js.indexOf. induction s as [|c s IH]; intros Hfree; [reflexivity|].
  cbn in Hfree. apply andb_true_iff in Hfree. destruct Hfree as [Hc Hfree].
  apply negb_true_iff, Ascii.eqb_neq in Hc.
  cbn [String.index].
  assert (Hprefix : String.prefix Transport.delimiter (String c s) = false).
  { destruct (String.prefix _ _) eqn:E; [|reflexivity].
    apply prefix_append in E. destruct E as [post E].
    inversion E. congruence. }
  now rewrite Hprefix, (IH Hfree).
Qed.

Lemma lineFeedFree_prefix (a b : string) :
  lineFeedFree (a ++ b) = true -> lineFeedFree a = true.
Proof.
  induction a as [|c a IH]; [reflexivity|]. cbn.
  intros H. apply andb_true_iff in H. destruct H as [Hc H].
  now rewrite Hc, (IH H).
Qed.

(** A piece [T] cut off the front of the text [f ++ delimiter ++ rest],
    with [f] free of line feeds: either it stops before the delimiter is
    complete, and holds none, or it holds the whole frame and its
    delimiter. *)
Lemma front_of_frame (f rest T R : string) :
  lineFeedFree f = true ->
  (T ++ R)%string = (f ++ Transport.delimiter ++ rest)%string ->
  ((String.length T < String.length f + 2)%nat /\
   Js.indexOf Transport.delimiter T = None) \/
  (exists T2, T = (f ++ Transport.delimiter ++ T2)%string /\ (T2 ++ R)%string = rest).
Proof.
  revert T. induction f as [|c f IH]; intros T Hfree Hcut.
  - destruct T as [|a T1]; [left; split; [cbn; lia | reflexivity]|].
    cbn in Hcut. injection Hcut as Ha Hcut1. subst a.
    destruct T1 as [|b T2]; [left; split; [cbn; lia | reflexivity]|].
    cbn in Hcut1. injection Hcut1 as Hb Hcut2. subst b.
    right. exists T2. split; [reflexivity | exact Hcut2].
  - cbn in Hfree. apply andb_true_iff in Hfree. destruct Hfree as [Hc Hfree].
    destruct T as [|a T1]; [left; split; [cbn; lia | reflexivity]|].
    cbn in Hcut. injection Hcut as Ha Hcut1. subst a.
    destruct (IH T1 Hfree Hcut1) as [[Hshort Hnone] | [T2 [HT1 Hrest]]].
    + left. split; [cbn; lia|].
      apply negb_true_iff, Ascii.eqb_neq in Hc.
      unfold Js.indexOf in *. cbn [String.index].
      assert (Hprefix : String.prefix Transport.delimiter (String c T1) = false).
      { destruct (String.prefix _ _) eqn:E; [|reflexivity].
        apply prefix_append in E. destruct E as [post E].
        inversion E. congruence. }
      now rewrite Hprefix, Hnone.
    + right. exists T2. split; [cbn; now rewrite HT1 | exact Hrest].
Qed.

Lemma append_assoc (a b c : string) : ((a ++ b) ++ c = a ++ (b ++ c))%string.
Proof. induction a as [|x a IH]; cbn; [reflexivity | now rewrite IH]. Qed.

Lemma append_nil_r (a : string) : (a ++ "")%string = a.
Proof. induction a as [|x a IH]; cbn; [reflexivity | now rewrite IH]. Qed.

Lemma trimEnd_cons (c : ascii) (s : string) :
  Js.trimEnd (String c s)
  = match Js.trimEnd s with
    | EmptyString => if Js.isWhiteSpace c then EmptyString else String c EmptyString
    | String d t => String c (String d t)
    end.
Proof. reflexivity. Qed.

Lemma trimEnd_idempotent (s : string) : Js.trimEnd (Js.trimEnd s) = Js.trimEnd s.
Proof.
  induction s as [|c s IH]; [reflexivity|].
  rewrite trimEnd_cons. destruct (Js.trimEnd s) as [|d t] eqn:E.
  - destruct (Js.isWhiteSpace c) eqn:Ec; [reflexivity|].
    rewrite trimEnd_cons. cbn [Js.trimEnd]. now rewrite Ec.
  - rewrite trimEnd_cons, IH. reflexivity.
Qed.

(** A string that does not start with white space. *)
Lemma trimStart_headed (s : string) :
  match Js.trimStart s with
  | EmptyString => True
  | String c _ => Js.isWhiteSpace c = false
  end.
Proof.
  induction s as [|c s IH]; [exact I|].
  cbn [Js.trimStart]. destruct (Js.isWhiteSpace c) eqn:Ec; [exact IH | exact Ec].
Qed.

Lemma trimStart_trimEnd_headed (s : string) :
  match s with
  | EmptyString => True
  | String c _ => Js.isWhiteSpace c = false
  end ->
  Js.trimStart (Js.trimEnd s) = Js.trimEnd s.
Proof.
  destruct s as [|c s]; [reflexivity|]. intros Hc.
  rewrite trimEnd_cons. destruct (Js.trimEnd s); rewrite ?Hc; cbn [Js.trimStart];
    now rewrite Hc.
Qed.

Lemma trim_idempotent (s : string) : Js.trim (Js.trim s) = Js.trim s.
Proof.
  unfold Js.trim.
  rewrite (trimStart_trimEnd_headed _ (trimStart_headed s)).
  apply trimEnd_idempotent.
Qed.

(** ** The pump *)

Section Pump.

Variable JSON_parse : string -> option Json.t.
Variable JSON_stringify : Json.t -> string.

Lemma payloadOf_trim (message : string) :
  Transport.payloadOf (Js.trim message) = Transport.payloadOf message.
Proof. unfold Transport.payloadOf. now rewrite trim_idempotent. Qed.

Lemma emitMessage_split (message : string) (st : Transport.PumpState) :
  Transport.emitMessage JSON_parse JSON_stringify message st
  = Transport.mkPumpState
      (Transport.buffer st)
      (Transport.delivered st ++ deliveredOf JSON_parse JSON_stringify message)
      (Transport.console st ++ warningsOf JSON_parse JSON_stringify message).
Proof.
  unfold deliveredOf, warningsOf, Transport.emitMessage.
  destruct (Js.truthy (Js.trim message)).
  - destruct (Transport.extractAndTransformJson JSON_parse JSON_stringify (Js.trim message))
      as [[data|] warnings]; [destruct (Js.truthy data)|]; cbn;
      now rewrite ?app_nil_r.
  - cbn. rewrite !app_nil_r. now destruct st.
Qed.

Lemma emitMessage_buffer (message : string) (st : Transport.PumpState) :
  Transport.buffer (Transport.emitMessage JSON_parse JSON_stringify message st)
  = Transport.buffer st.
Proof. now rewrite emitMessage_split. Qed.

(** A frame whose payload [JSON.parse] rejects: nothing for the
    subscriber, one warning. *)
Lemma emitMessage_malformed (message : string) :
  Js.truthy (Js.trim message) = true ->
  JSON_parse (Transport.payloadOf message) = None ->
  deliveredOf JSON_parse JSON_stringify message = [] /\
  warningsOf JSON_parse JSON_stringify message
  = [Js.substringTo 100 (Transport.payloadOf message)].
Proof.
  intros Hfull Hbad.
  unfold deliveredOf, warningsOf, Transport.emitMessage,
    Transport.extractAndTransformJson.
  rewrite Hfull, payloadOf_trim, Hbad. split; reflexivity.
Qed.

(** The inner loop ends before its fuel does. *)
Lemma drain_total (fuel : nat) (st : Transport.PumpState) :
  (String.length (Transport.buffer st) < fuel)%nat ->
  exists st', Transport.drain JSON_parse JSON_stringify fuel st = Some st'.
Proof.
  revert st. induction fuel as [|fuel IH]; intros st Hfuel; [lia|].
  cbn [Transport.drain].
  destruct (Js.indexOf Transport.delimiter (Transport.buffer st)) as [i|] eqn:Hidx.
  - apply IH. rewrite emitMessage_buffer. cbn [Transport.buffer].
    rewrite length_substringFrom. apply indexOf_delimiter_bound in Hidx. lia.
  - now exists st.
Qed.

(** The pump always ends, and it ends with [complete] when its source
    does. *)
Lemma pumpLoop_total (reads : list string) (ending : Transport.Ending)
    (st : Transport.PumpState) :
  exists st',
    Transport.pumpLoop JSON_parse JSON_stringify reads ending st
    = Some (st', match ending with
                 | Transport.done => Transport.completed
                 | Transport.failure => Transport.errored
                 end).
Proof.
  revert st. induction reads as [|value reads IH]; intros st.
  - destruct ending; cbn; eexists; reflexivity.
  - cbn [Transport.pumpLoop]. destruct (Js.truthy value); [|apply IH].
    destruct (drain_total
                (S (String.length (Transport.buffer st ++ value)))
                (Transport.mkPumpState (Transport.buffer st ++ value)
                   (Transport.delivered st) (Transport.console st)))
      as [st' Hdrain]; [cbn; lia|].
    cbn [Transport.buffer]. rewrite Hdrain. apply IH.
Qed.

Lemma received_wire_cons (f : string) (todo : list string) :
  received (wire (f :: todo))
  = (f ++ Transport.delimiter ++ received (wire todo))%string.
Proof. cbn. apply append_assoc. Qed.

Lemma pumpState_eta (st : Transport.PumpState) :
  Transport.mkPumpState (Transport.buffer st) (Transport.delivered st ++ [])
    (Transport.console st ++ []) = st.
Proof. destruct st. cbn. now rewrite !app_nil_r. Qed.

(** The inner loop on a buffer [T] cut off the front of the text of the
    frames still to come: it processes the frames that are complete in
    [T], in order, and leaves the incomplete rest in the buffer. *)
Lemma drain_cut (tail : string) (todo : list string) :
  Forall (fun frame => lineFeedFree frame = true) todo ->
  lineFeedFree tail = true ->
  forall (fuel : nat) (T R : string) (st : Transport.PumpState),
    (T ++ R)%string = (received (wire todo) ++ tail)%string ->
    Transport.buffer st = T ->
    (String.length T < fuel)%nat ->
    exists processed todo' T',
      todo = processed ++ todo' /\
      (T' ++ R)%string = (received (wire todo') ++ tail)%string /\
      Js.indexOf Transport.delimiter T' = None /\
      Transport.drain JSON_parse JSON_stringify fuel st
      = Some (Transport.mkPumpState T'
                (Transport.delivered st
                   ++ flat_map (deliveredOf JSON_parse JSON_stringify) processed)
                (Transport.console st
                   ++ flat_map (warningsOf JSON_parse JSON_stringify) processed)).
Proof.
  intros Hfree Htail. induction Hfree as [|f todo Hf _ IH];
    intros fuel T R st Hcut Hbuffer Hfuel.
  - exists [], [], T. cbn in Hcut.
    assert (Hnone : Js.indexOf Transport.delimiter T = None).
    { apply lineFeedFree_no_delimiter, (lineFeedFree_prefix T R). now rewrite Hcut. }
    repeat split; [exact Hcut | exact Hnone |].
    destruct fuel as [|fuel]; [lia|]. cbn [Transport.drain flat_map].
    rewrite Hbuffer, Hnone, <- Hbuffer. now rewrite pumpState_eta.
  - rewrite received_wire_cons in Hcut. rewrite !append_assoc in Hcut.
    destruct (front_of_frame f _ T R Hf Hcut) as [[_ Hnone] | [T2 [HT Hrest]]].
    + exists [], (f :: todo), T.
      repeat split; [now rewrite received_wire_cons, !append_assoc | exact Hnone |].
      destruct fuel as [|fuel]; [lia|]. cbn [Transport.drain flat_map].
      rewrite Hbuffer, Hnone, <- Hbuffer. now rewrite pumpState_eta.
    + destruct fuel as [|fuel]; [lia|]. cbn [Transport.drain].
      rewrite Hbuffer, HT, (indexOf_frame f T2 Hf), substringTo_append,
        substringFrom_append.
      assert (Hfuel2 : (String.length T2 < fuel)%nat).
      { rewrite HT, !length_append in Hfuel. cbn in Hfuel. lia. }
      destruct (IH fuel T2 R
                  (Transport.emitMessage JSON_parse JSON_stringify f
                     (Transport.mkPumpState T2 (Transport.delivered st)
                        (Transport.console st)))
                  Hrest (emitMessage_buffer _ _) Hfuel2)
        as (processed & todo' & T' & Htodo & Hcut' & Hnone & Hdrain).
      exists (f :: processed), todo', T'.
      repeat split; [now rewrite Htodo | exact Hcut' | exact Hnone |].
      rewrite Hdrain, emitMessage_split.
      cbn [Transport.delivered Transport.console flat_map].
      now rewrite <- !app_assoc.
Qed.

(** However the transport cuts the text of the frames into chunks, the
    pump hands on what each frame yields, frame by frame and in order, and
    completes. A last frame that lacks its delimiter ([tail]) is processed
    when the source is done. *)
Lemma pumpLoop_chunked (tail : string) (chunks : list string) :
  lineFeedFree tail = true ->
  forall (todo : list string) (st : Transport.PumpState),
    Forall (fun frame => lineFeedFree frame = true) todo ->
    (Transport.buffer st ++ received chunks)%string
      = (received (wire todo) ++ tail)%string ->
    Js.indexOf Transport.delimiter (Transport.buffer st) = None ->
    Transport.pumpLoop JSON_parse JSON_stringify chunks Transport.done st
    = Some (Transport.mkPumpState tail
              (Transport.delivered st
                 ++ flat_map (deliveredOf JSON_parse JSON_stringify) (todo ++ [tail]))
              (Transport.console st
                 ++ flat_map (warningsOf JSON_parse JSON_stringify) (todo ++ [tail])),
            Transport.completed).
Proof.
  intros Htail. induction chunks as [|value chunks IH]; intros todo st Hfree Htext Hnone.
  - cbn in Htext. rewrite append_nil_r in Htext.
    destruct todo as [|f todo].
    + cbn in Htext. cbn [Transport.pumpLoop app flat_map].
      rewrite emitMessage_split, Htext, !app_nil_r. reflexivity.
    + exfalso. inversion Hfree as [|? ? Hf _]. subst.
      rewrite received_wire_cons, !append_assoc in Htext.
      rewrite Htext, (indexOf_frame f _ Hf) in Hnone. discriminate.
  - cbn [Transport.pumpLoop]. destruct value as [|c value].
    + cbn [Js.truthy]. apply IH; assumption.
    + cbn [Js.truthy].
      cbn [received fold_right] in Htext. fold (received chunks) in Htext.
      rewrite <- append_assoc in Htext.
      destruct (drain_cut tail todo Hfree Htail
                  (S (String.length (Transport.buffer st ++ String c value)))
                  (Transport.buffer st ++ String c value) (received chunks)
                  (Transport.mkPumpState (Transport.buffer st ++ String c value)
                     (Transport.delivered st) (Transport.console st))
                  Htext eq_refl (Nat.lt_succ_diag_r _))
        as (processed & todo' & T' & Htodo & Hcut' & Hnone' & Hdrain).
      cbn [Transport.buffer]. rewrite Hdrain.
      cbn [Transport.delivered Transport.console] in *.
      assert (Hfree' : Forall (fun frame => lineFeedFree frame = true) todo').
      { rewrite Htodo in Hfree. now apply Forall_app in Hfree. }
      rewrite (IH todo' (Transport.mkPumpState T' _ _) Hfree' Hcut' Hnone').
      cbn [Transport.delivered Transport.console].
      rewrite Htodo, !flat_map_app, <- ?app_assoc. reflexivity.
Qed.

Lemma deliveredOf_blank : deliveredOf JSON_parse JSON_stringify "" = [].
Proof. reflexivity. Qed.

Lemma warningsOf_blank : warningsOf JSON_parse JSON_stringify "" = [].
Proof. reflexivity. Qed.

(** The pump on the chunks of a sequence of delimited frames. *)
Lemma pump_frames (frames chunks : list string) :
  Forall (fun frame => lineFeedFree frame = true) frames ->
  received chunks = received (wire frames) ->
  Transport.pump JSON_parse JSON_stringify chunks Transport.done
  = Some (Transport.mkPumpState ""
            (flat_map (deliveredOf JSON_parse JSON_stringify) frames)
            (flat_map (warningsOf JSON_parse JSON_stringify) frames),
          Transport.completed).
Proof.
  intros Hfree Htext. unfold Transport.pump.
  rewrite (pumpLoop_chunked "" chunks eq_refl frames (Transport.mkPumpState "" [] [])
             Hfree).
  - cbn [Transport.delivered Transport.console app].
    rewrite !flat_map_app. cbn [flat_map].
    rewrite deliveredOf_blank, warningsOf_blank, !app_nil_r. reflexivity.
  - cbn [Transport.buffer String.append]. now rewrite Htext, append_nil_r.
  - reflexivity.
Qed.

End Pump.

(** C8: a wire frame whose payload is not valid JSON is dropped with a
    warning: however the stream is cut into chunks, nothing is handed to the
    consumer for that frame, the frames after it are processed as if it had
    not been sent, and the stream ends with [complete], not with an
    error. *)
Theorem malformed_frame_is_dropped
    (JSON_parse : string -> option Json.t) (JSON_stringify : Json.t -> string)
    (before after : list string) (bad : string) (chunks chunks' : list string) :
  Forall (fun frame => lineFeedFree frame = true) (before ++ bad :: after) ->
  Js.truthy (Js.trim bad) = true ->
  JSON_parse (Transport.payloadOf bad) = None ->
  received chunks = received (wire (before ++ bad :: after)) ->
  received chunks' = received (wire (before ++ after)) ->
  exists st st',
    Transport.pump JSON_parse JSON_stringify chunks Transport.done
      = Some (st, Transport.completed) /\
    Transport.pump JSON_parse JSON_stringify chunks' Transport.done
      = Some (st', Transport.completed) /\
    Transport.delivered st = Transport.delivered st' /\
    Transport.delivered st
      = flat_map (deliveredOf JSON_parse JSON_stringify) before
        ++ flat_map (deliveredOf JSON_parse JSON_stringify) after /\
    Transport.console st
      = flat_map (warningsOf JSON_parse JSON_stringify) before
        ++ [Js.substringTo 100 (Transport.payloadOf bad)]
        ++ flat_map (warningsOf JSON_parse JSON_stringify) after.
Proof.
  intros Hfree Hfull Hbad Htext Htext'.
  assert (Hfree' : Forall (fun frame => lineFeedFree frame = true) (before ++ after)).
  { apply Forall_app in Hfree. destruct Hfree as [Hb Ha].
    apply Forall_app. split; [exact Hb | now inversion Ha]. }
  destruct (emitMessage_malformed JSON_parse JSON_stringify bad Hfull Hbad)
    as [Hnone Hwarn].
  rewrite (pump_frames JSON_parse JSON_stringify _ _ Hfree Htext).
  rewrite (pump_frames JSON_parse JSON_stringify _ _ Hfree' Htext').
  eexists. eexists. split; [reflexivity|]. split; [reflexivity|].
  cbn [Transport.delivered Transport.console].
  rewrite !flat_map_app. cbn [flat_map]. rewrite Hnone, Hwarn. cbn [app].
  repeat split; reflexivity.
Qed.

(** A text delta, a frame cut short, a finish frame and the closing
    [DONE] marker, the first three arriving in chunks that cut across the
    frames and a delimiter: the two frames that are no JSON are dropped
    with a warning each, the other two are delivered. *)
Lemma malformed_frame_is_dropped_witness :
  exists st st',
    Transport.pump Codec.parse Codec.stringify Samples.cutChunks Transport.done
      = Some (st, Transport.completed) /\
    Transport.pump Codec.parse Codec.stringify
      (wire [Samples.frame Samples.textDelta; Samples.frame Samples.finishNested;
             "data: [DONE]"])
      Transport.done
      = Some (st', Transport.completed) /\
    Transport.delivered st = Transport.delivered st' /\
    Transport.delivered st = [Samples.textDelta; Samples.finishScalar] /\
    Transport.console st
      = [Js.substringTo 100 Samples.truncated; "[DONE]"].
Proof.
  destruct (malformed_frame_is_dropped Codec.parse Codec.stringify
              [Samples.frame Samples.textDelta]
              [Samples.frame Samples.finishNested; "data: [DONE]"]
              (Samples.frame Samples.truncated)
              Samples.cutChunks
              (wire [Samples.frame Samples.textDelta; Samples.frame Samples.finishNested;
                     "data: [DONE]"]))
    as (st & st' & Hrun & Hrun' & Hsame & Hdelivered & Hconsole).
  - repeat constructor.
  - reflexivity.
  - reflexivity.
  - reflexivity.
  - reflexivity.
  - exists st, st'. split; [exact Hrun|]. split; [exact Hrun'|]. split; [exact Hsame|].
    split.
    + rewrite Hdelivered. reflexivity.
    + rewrite Hconsole. reflexivity.
Defined.

(** ** The finish-reason normalisation *)

Lemma lookup_update (key : string) (x : Json.t) (fields : list (string * Json.t)) :
  Json.lookup key (Json.update key x fields) = Some x.
Proof.
  induction fields as [|[k v] fields IH]; cbn.
  - now rewrite String.eqb_refl.
  - destruct (String.eqb k key) eqn:E; cbn; rewrite E; [reflexivity | exact IH].
Qed.

(** After [parsed.key = x] the property reads [x]. *)
Lemma get_set (parsed : Json.t) (key : string) (x : Json.t) :
  Json.get parsed key <> None ->
  Json.get (Json.set parsed key x) key = Some x.
Proof.
  destruct parsed; cbn; try congruence. intros _. apply lookup_update.
Qed.

(** C3, as the code has it: for every frame of type "finish" whose
    finishReason is a nested structure with a truthy unified value (such as
    the structure with unified: stop), the emitted frame carries that value
    as its finishReason; every frame whose finishReason is a plain scalar
    string is emitted as parsed, unchanged; and when the nested structure
    of a finish frame has no truthy unified value, its first value is used
    if that value is a string, and otherwise the frame is emitted
    unchanged. *)
Theorem finishReason_normalisation
    (JSON_parse : string -> option Json.t) (JSON_stringify : Json.t -> string)
    (sseMessage : string) (parsed : Json.t) :
  JSON_parse (Transport.payloadOf sseMessage) = Some parsed ->
  (forall nested unified,
     Json.get parsed "type" = Some (Json.str "finish") ->
     Json.get parsed "finishReason" = Some nested ->
     Json.isObject nested = true ->
     Json.get nested "unified" = Some unified ->
     Json.truthy unified = true ->
     Transport.extractAndTransformJson JSON_parse JSON_stringify sseMessage
       = (Some (JSON_stringify (Json.set parsed "finishReason" unified)), []) /\
     Json.get (Json.set parsed "finishReason" unified) "finishReason" = Some unified) /\
  (forall s,
     Json.get parsed "finishReason" = Some (Json.str s) ->
     Transport.extractAndTransformJson JSON_parse JSON_stringify sseMessage
       = (Some (JSON_stringify parsed), [])) /\
  (forall nested,
     Json.get parsed "type" = Some (Json.str "finish") ->
     Json.get parsed "finishReason" = Some nested ->
     Json.isObject nested = true ->
     Json.truthy_opt (Json.get nested "unified") = false ->
     match Json.values nested with
     | Json.str first :: _ =>
         Transport.extractAndTransformJson JSON_parse JSON_stringify sseMessage
           = (Some (JSON_stringify (Json.set parsed "finishReason" (Json.str first))), []) /\
         Json.get (Json.set parsed "finishReason" (Json.str first)) "finishReason"
           = Some (Json.str first)
     | _ =>
         Transport.extractAndTransformJson JSON_parse JSON_stringify sseMessage
           = (Some (JSON_stringify parsed), [])
     end).
Proof.
  intros Hparse. unfold Transport.extractAndTransformJson. rewrite Hparse.
  split; [|split].
  - intros nested unified Htype Hreason Hobj Hunified Htruthy.
    split; [|apply get_set; congruence].
    unfold Transport.transformFinishReason. rewrite Htype, Hreason, Hobj, Hunified.
    cbn [Json.truthy_opt]. rewrite Htruthy.
    destruct parsed; try discriminate.
    destruct nested; try discriminate; reflexivity.
  - intros s Hreason. unfold Transport.transformFinishReason. rewrite Hreason.
    destruct parsed; try discriminate.
    destruct (Json.get (Json.object fields) "type") as [[| | |t| |]|]; try reflexivity.
    destruct (String.eqb_spec t "finish") as [->|Hne].
    + cbn [Json.isObject]. now destruct (Json.truthy (Json.str s)).
    + destruct t as [|c0 t]; [reflexivity|].
      repeat (match goal with
              | |- context [match ?x with String _ _ => _ | EmptyString => _ end] =>
                  destruct x; try reflexivity
              | |- context [match ?a with Ascii _ _ _ _ _ _ _ _ => _ end] =>
                  destruct a
              | |- context [if ?b then _ else _] => destruct b; try reflexivity
              end).
  - intros nested Htype Hreason Hobj Hunified.
    unfold Transport.transformFinishReason. rewrite Htype, Hreason, Hobj, Hunified.
    destruct parsed; try discriminate.
    assert (Htruthy : Json.truthy nested = true) by (destruct nested; try discriminate;
                                                     reflexivity).
    rewrite Htruthy.
    destruct (Json.values nested) as [|first rest]; [reflexivity|].
    destruct first; cbn [Json.isString]; try reflexivity.
    split; [reflexivity|]. apply get_set. congruence.
Qed.

Lemma finishReason_normalisation_witness :
  Transport.extractAndTransformJson Codec.parse Codec.stringify
    (Samples.frame Samples.finishNested) = (Some Samples.finishScalar, []) /\
  Transport.extractAndTransformJson Codec.parse Codec.stringify
    (Samples.frame Samples.finishScalar) = (Some Samples.finishScalar, []) /\
  Transport.extractAndTransformJson Codec.parse Codec.stringify
    (Samples.frame Samples.finishFirstString) = (Some Samples.finishEndTurn, []) /\
  Transport.extractAndTransformJson Codec.parse Codec.stringify
    (Samples.frame Samples.finishNumberFirst) = (Some Samples.finishNumberFirst, []).
Proof.
  split; [|split; [|split]].
  - destruct (finishReason_normalisation Codec.parse Codec.stringify
                (Samples.frame Samples.finishNested) Samples.finishNestedValue eq_refl)
      as (Hunified & _ & _).
    destruct (Hunified
                (Json.object [("unified", Json.str "stop"); ("raw", Json.str "end_turn")])
                (Json.str "stop") eq_refl eq_refl eq_refl eq_refl eq_refl) as [Hrun _].
    rewrite Hrun. reflexivity.
  - destruct (finishReason_normalisation Codec.parse Codec.stringify
                (Samples.frame Samples.finishScalar) Samples.finishScalarValue eq_refl)
      as (_ & Hscalar & _).
    rewrite (Hscalar "stop" eq_refl). reflexivity.
  - destruct (finishReason_normalisation Codec.parse Codec.stringify
                (Samples.frame Samples.finishFirstString) Samples.finishFirstStringValue
                eq_refl)
      as (_ & _ & Hfirst).
    destruct (Hfirst
                (Json.object [("raw", Json.str "end_turn"); ("other", Json.str "stop")])
                eq_refl eq_refl eq_refl eq_refl) as [Hrun _].
    rewrite Hrun. reflexivity.
  - destruct (finishReason_normalisation Codec.parse Codec.stringify
                (Samples.frame Samples.finishNumberFirst) Samples.finishNumberFirstValue
                eq_refl)
      as (_ & _ & Hfirst).
    rewrite (Hfirst
               (Json.object [("tokens", Json.number (inject_Z 7));
                             ("reason", Json.str "stop")])
               eq_refl eq_refl eq_refl eq_refl).
    reflexivity.
Defined.

(** C3, as stated, fails on two frames. A frame that is not of type
    "finish" keeps its nested finishReason with unified: stop instead of
    carrying the scalar; and a finish frame whose nested finishReason has no
    unified key and holds a number before its first string (tokens: 7,
    reason: stop) keeps the nested structure instead of carrying that first
    scalar string. *)
Lemma finishReason_left_nested :
  (Transport.transformFinishReason Samples.otherNestedValue
     = Some Samples.otherNestedValue /\
   Json.get Samples.otherNestedValue "finishReason"
     = Some (Json.object [("unified", Json.str "stop")]) /\
   Json.get Samples.otherNestedValue "finishReason" <> Some (Json.str "stop") /\
   Codec.parse Samples.otherNested = Some Samples.otherNestedValue /\
   Transport.extractAndTransformJson Codec.parse Codec.stringify
     (Samples.frame Samples.otherNested) = (Some Samples.otherNested, [])) /\
  (Transport.transformFinishReason Samples.finishNumberFirstValue
     = Some Samples.finishNumberFirstValue /\
   Json.get Samples.finishNumberFirstValue "finishReason"
     = Some (Json.object [("tokens", Json.number (inject_Z 7));
                          ("reason", Json.str "stop")]) /\
   Json.get Samples.finishNumberFirstValue "finishReason" <> Some (Json.str "stop") /\
   Codec.parse Samples.finishNumberFirst = Some Samples.finishNumberFirstValue /\
   Transport.extractAndTransformJson Codec.parse Codec.stringify
     (Samples.frame Samples.finishNumberFirst) = (Some Samples.finishNumberFirst, [])).
Proof.
  split; repeat split; try reflexivity; cbn; discriminate.
Qed.

(** * Further properties of the chat service *)

Section Writes.

Variable entitlementsByUserType : string -> Entitlements.
Variable now : Z.
Variable generateUUID : string.

(** X1: A call that throws has written nothing: the quota and ownership
    checks come before every Store write. *)
Theorem createChatStream_throws_before_writing
    (dto : Dto) (usr : JwtPayload) (w w' : World) (e : HttpException) :
  ChatService.createChatStream entitlementsByUserType now generateUUID dto usr w
    = (Throw e, w') ->
  w' = w /\
  (e = mkHttpException rate_limit_chat TOO_MANY_REQUESTS \/
   e = mkHttpException forbidden_chat FORBIDDEN).
Proof.
  unfold ChatService.createChatStream. svc_unfold.
  destruct (_ >? _).
  - intros H. inversion H. split; [reflexivity | now left].
  - destruct (Db.getChatById (dto_id dto) (w_db w)) as [c|].
    + destruct (negb (chat_userId c =? jwt_id usr)%string).
      * intros H. inversion H. split; [reflexivity | now right].
      * destruct (negb (ChatService.Boolean (dto_messages dto)));
          destruct (ChatService.roleIsUser (dto_message dto));
          destruct (dto_message dto); cbn; discriminate.
    + destruct (ChatService.roleIsUser (dto_message dto));
        destruct (dto_message dto); cbn; discriminate.
Qed.

(** The writes of a call that returns, as a journal suffix and as the
    Store they leave. *)
Lemma createChatStream_effects
    (dto : Dto) (usr : JwtPayload) (w w' : World) (setup : StreamSetup) :
  ChatService.createChatStream entitlementsByUserType now generateUUID dto usr w
    = (Return setup, w') ->
  let writes :=
    requestWrites now generateUUID dto usr
      (match Db.getChatById (dto_id dto) (w_db w) with Some _ => true | None => false end) in
  w_journal w' = w_journal w ++ writes /\
  w_db w' = applyAll writes (w_db w).
Proof.
  unfold ChatService.createChatStream, requestWrites, userRow, applyAll,
    ChatService.roleIsUser. svc_unfold.
  destruct (_ >? _); [discriminate|].
  destruct (Db.getChatById (dto_id dto) (w_db w)) as [c|].
  - destruct (negb (chat_userId c =? jwt_id usr)%string); [discriminate|].
    destruct (negb (ChatService.Boolean (dto_messages dto)));
      destruct (dto_message dto) as [m|]; cbn;
      try destruct (Role_eqb (cm_role m) user); cbn;
      intros H; inversion H; cbn; rewrite <- ?app_assoc; split; reflexivity.
  - destruct (dto_message dto) as [m|]; cbn;
      try destruct (Role_eqb (cm_role m) user); cbn;
      intros H; inversion H; cbn; rewrite <- ?app_assoc; split; reflexivity.
Qed.

(** X2: A call that returns has written, in this order: the chat record
    (only when the chat did not exist and the request carries a user
    message), the user message (only when the request carries one) and one
    stream identifier. *)
Theorem createChatStream_writes_in_order
    (dto : Dto) (usr : JwtPayload) (w w' : World) (setup : StreamSetup) :
  ChatService.createChatStream entitlementsByUserType now generateUUID dto usr w
    = (Return setup, w') ->
  let writes :=
    requestWrites now generateUUID dto usr
      (match Db.getChatById (dto_id dto) (w_db w) with Some _ => true | None => false end) in
  w_journal w' = w_journal w ++ writes /\
  w_db w' = applyAll writes (w_db w).
Proof.
  intros Hrun. exact (createChatStream_effects dto usr w w' setup Hrun).
Qed.

End Writes.

Lemma createChatStream_throws_before_writing_witness :
  ChatService.createChatStream Samples.entitlements 5000 "s2" Samples.freshDto
    Samples.bob (initial Samples2.storePublic)
  = (Throw (mkHttpException forbidden_chat FORBIDDEN), initial Samples2.storePublic).
Proof.
  destruct (ChatService.createChatStream Samples.entitlements 5000 "s2" Samples.freshDto
              Samples.bob (initial Samples2.storePublic)) as [o w'] eqn:Hrun.
  assert (Ho : o = Throw (mkHttpException forbidden_chat FORBIDDEN))
    by (vm_compute in Hrun; now inversion Hrun).
  subst o.
  destruct (createChatStream_throws_before_writing Samples.entitlements 5000 "s2"
              Samples.freshDto Samples.bob (initial Samples2.storePublic) w' _ Hrun)
    as [-> _].
  reflexivity.
Defined.

Lemma createChatStream_writes_in_order_witness :
  exists setup w',
    ChatService.createChatStream Samples.entitlements 5000 "s2" Samples2.newChatDto
      Samples.alice (initial Samples.store2) = (Return setup, w') /\
    w_journal w'
    = [Db.SaveChat (mkChat "c5" "alice" "New chat" public);
       Db.SaveMessages [mkDBMessage "m9" "c5" user [TextPart "Hello"] 5000];
       Db.CreateStreamId "s2" "c5"].
Proof.
  eexists. eexists. split; [vm_compute; reflexivity|].
  apply (createChatStream_writes_in_order Samples.entitlements 5000 "s2"
           Samples2.newChatDto Samples.alice (initial Samples.store2) _ _ eq_refl).
Defined.

(** ** Lists and the Store *)






Section AfterRequest.

Variable entitlementsByUserType : string -> Entitlements.
Variable now : Z.
Variable generateUUID : string.





End AfterRequest.





(** ** The fresh branch of [onFinish] *)





(** ** Reading and resuming *)

(** X6: Reading a chat and resuming a stream never write: whatever the
    request and its outcome, the Store and the journal of writes are as
    before. *)
Theorem reads_leave_store_untouched
    (now : Z) (streamContext : option ResumableStreamContext)
    (chatId userId : string) (w : World) :
  snd (ChatService.getChatWithMessages chatId userId w) = w /\
  snd (ChatService.getResumableStream now streamContext chatId userId w) = w.
Proof.
  split.
  - unfold ChatService.getChatWithMessages. svc_unfold.
    destruct (Db.getChatById chatId (w_db w)) as [c|]; [|reflexivity].
    destruct (Visibility_eqb (chat_visibility c) private
              && negb (chat_userId c =? userId)%string); reflexivity.
  - unfold ChatService.getResumableStream, ChatService.restoreFromDatabase. svc_unfold.
    destruct streamContext as [context|]; [|reflexivity].
    destruct (Db.getChatById chatId (w_db w)) as [c|]; [|reflexivity].
    destruct (Visibility_eqb (chat_visibility c) private
              && negb (chat_userId c =? userId)%string); [reflexivity|].
    destruct (List.length (Db.getStreamIdsByChatId chatId (w_db w)) =? 0)%nat;
      [reflexivity|].
    destruct (ChatService.at_last (Db.getStreamIdsByChatId chatId (w_db w)))
      as [recent|]; [|reflexivity].
    destruct (negb (Js.truthy recent)); [reflexivity|].
    destruct (resumableStream context recent); try reflexivity.
    destruct (ChatService.at_last (Db.getMessagesByChatId chatId (w_db w)))
      as [m|]; [|reflexivity].
    destruct (negb (Role_eqb (m_role m) assistant)); [reflexivity|].
    destruct (ChatService.differenceInSeconds now (m_createdAt m) >? 15); reflexivity.
Qed.

Section ResumeBranches.

Variable now : Z.
Variable context : ResumableStreamContext.
Variables chatId userId : string.
Variable w : World.
Variable c : Chat.

Hypothesis chat_found : Db.getChatById chatId (w_db w) = Some c.
Hypothesis chat_visible : chat_visibility c = public \/ chat_userId c = userId.




End ResumeBranches.



(** ** Who may change a chat *)

(** X8: Reading is open on a public chat, changing is not: an identity
    other than the owner reads a public chat and its messages, but
    continuing it with [createChatStream], deleting it, changing its
    visibility and deleting its trailing messages all fail with
    [forbidden], before any write. *)
Theorem public_chat_is_read_only_for_others
    (entitlementsByUserType : string -> Entitlements) (now : Z) (generateUUID : string)
    (dto : Dto) (usr : JwtPayload) (w : World) (c : Chat) :
  Db.getChatById (dto_id dto) (w_db w) = Some c ->
  chat_visibility c = public ->
  chat_userId c <> jwt_id usr ->
  Db.getMessageCountByUserId (jwt_id usr) 24 now (w_db w)
    <= maxMessagesPerDay (entitlementsByUserType (jwt_type usr)) ->
  ChatService.getChatWithMessages (dto_id dto) (jwt_id usr) w
    = (Return (c, ChatService.convertToUIMessages
                    (Db.getMessagesByChatId (dto_id dto) (w_db w))), w) /\
  ChatService.createChatStream entitlementsByUserType now generateUUID dto usr w
    = (Throw (mkHttpException forbidden_chat FORBIDDEN), w) /\
  Management.deleteChat (dto_id dto) (jwt_id usr) (w_db w)
    = (Throw (mkHttpException forbidden_chat FORBIDDEN), []) /\
  (forall visibility,
     Management.updateChatVisibility (dto_id dto) visibility (jwt_id usr) (w_db w)
     = (Throw (mkHttpException forbidden_chat FORBIDDEN), [])) /\
  (forall messageId message,
     Management.getMessageById messageId (w_db w) = Some message ->
     m_chatId message = dto_id dto ->
     Management.deleteTrailingMessages messageId (jwt_id usr) (w_db w)
     = (Throw (mkHttpException forbidden_chat FORBIDDEN), [])).
Proof.
  intros Hchat Hpublic Hother Hquota.
  apply String.eqb_neq in Hother.
  split; [|split; [|split; [|split]]].
  - unfold ChatService.getChatWithMessages. svc_unfold.
    now rewrite Hchat, Hpublic.
  - unfold ChatService.createChatStream. svc_unfold.
    destruct (Z.gtb_spec (Db.getMessageCountByUserId (jwt_id usr) 24 now (w_db w))
                         (maxMessagesPerDay (entitlementsByUserType (jwt_type usr))))
      as [Hgt|_]; [lia|].
    now rewrite Hchat, Hother.
  - unfold Management.deleteChat. now rewrite Hchat, Hother.
  - intros visibility. unfold Management.updateChatVisibility.
    now rewrite Hchat, Hother.
  - intros messageId message Hmessage Hin. unfold Management.deleteTrailingMessages.
    now rewrite Hmessage, Hin, Hchat, Hother.
Qed.

Lemma public_chat_is_read_only_for_others_witness :
  ChatService.getChatWithMessages "c1" "bob" (initial Samples2.storePublic)
    = (Return (mkChat "c1" "alice" "Plans" public,
               [mkChatMessage "m1" user [TextPart "Hello"] (Some 1000)]),
       initial Samples2.storePublic) /\
  ChatService.createChatStream Samples.entitlements 5000 "s2" Samples.freshDto Samples.bob
      (initial Samples2.storePublic)
    = (Throw (mkHttpException forbidden_chat FORBIDDEN), initial Samples2.storePublic) /\
  Management.deleteChat "c1" "bob" Samples2.storePublic
    = (Throw (mkHttpException forbidden_chat FORBIDDEN), []) /\
  Management.updateChatVisibility "c1" private "bob" Samples2.storePublic
    = (Throw (mkHttpException forbidden_chat FORBIDDEN), []) /\
  Management.deleteTrailingMessages "m1" "bob" Samples2.storePublic
    = (Throw (mkHttpException forbidden_chat FORBIDDEN), []).
Proof.
  destruct (public_chat_is_read_only_for_others Samples.entitlements 5000 "s2"
              Samples.freshDto Samples.bob (initial Samples2.storePublic)
              (mkChat "c1" "alice" "Plans" public) eq_refl eq_refl)
    as (Hread & Hcontinue & Hdelete & Hscope & Htrim).
  - discriminate.
  - vm_compute. discriminate.
  - split; [exact Hread|]. split; [exact Hcontinue|]. split; [exact Hdelete|].
    split; [exact (Hscope private)|].
    exact (Htrim "m1" (Samples.row "m1" "c1" user 1000) eq_refl eq_refl).
Defined.

(** X9: The management methods write exactly when they return, and
    what they write is tied to the chat they checked. [deleteChat] of a
    chat that exists and belongs to the caller returns after the one write
    that deletes this very chat; [updateChatVisibility] after the one write
    that sets the visibility asked for on this very chat;
    [deleteTrailingMessages] of a message whose chat exists and belongs to
    the caller after the one write that deletes, in the chat of that
    message, from the date of that message on. A call that throws has
    written nothing: [not_found:chat] when the chat (or the message) is
    missing, [forbidden:chat] when the chat belongs to someone else. *)
Theorem management_writes_iff_returns
    (id messageId userId : string) (visibility : Visibility) (db : Db.t) :
  let refused (r : Outcome unit * list Management.write) (e : HttpException)
              (target : option string) :=
    snd r = [] /\
    ((e = mkHttpException not_found_chat NOT_FOUND /\
      forall chatId, target = Some chatId -> Db.getChatById chatId db = None) \/
     (e = mkHttpException forbidden_chat FORBIDDEN /\
      exists chatId c, target = Some chatId /\ Db.getChatById chatId db = Some c /\
                       chat_userId c <> userId)) in
  let owned (chatId : string) :=
    exists c, Db.getChatById chatId db = Some c /\ chat_userId c = userId in
  match fst (Management.deleteChat id userId db) with
  | Return _ =>
      owned id /\
      snd (Management.deleteChat id userId db) = [Management.DeleteChatById id]
  | Throw e => refused (Management.deleteChat id userId db) e (Some id)
  end /\
  match fst (Management.updateChatVisibility id visibility userId db) with
  | Return _ =>
      owned id /\
      snd (Management.updateChatVisibility id visibility userId db)
      = [Management.UpdateChatVisibilityById id visibility]
  | Throw e => refused (Management.updateChatVisibility id visibility userId db) e (Some id)
  end /\
  match fst (Management.deleteTrailingMessages messageId userId db) with
  | Return _ =>
      exists message,
        Management.getMessageById messageId db = Some message /\
        owned (m_chatId message) /\
        snd (Management.deleteTrailingMessages messageId userId db)
        = [Management.DeleteMessagesByChatIdAfterTimestamp
             (m_chatId message) (m_createdAt message)]
  | Throw e =>
      refused (Management.deleteTrailingMessages messageId userId db) e
              (option_map m_chatId (Management.getMessageById messageId db))
  end.
Proof.
  cbn zeta. split; [|split].
  - unfold Management.deleteChat.
    destruct (Db.getChatById id db) as [c|] eqn:Hc; cbn.
    + destruct (String.eqb_spec (chat_userId c) userId) as [E|E]; cbn.
      * split; [exists c; now split | reflexivity].
      * split; [reflexivity|]. right. split; [reflexivity|]. now exists id, c.
    + split; [reflexivity|]. left. split; [reflexivity|].
      intros chatId H. now inversion H; subst.
  - unfold Management.updateChatVisibility.
    destruct (Db.getChatById id db) as [c|] eqn:Hc; cbn.
    + destruct (String.eqb_spec (chat_userId c) userId) as [E|E]; cbn.
      * split; [exists c; now split | reflexivity].
      * split; [reflexivity|]. right. split; [reflexivity|]. now exists id, c.
    + split; [reflexivity|]. left. split; [reflexivity|].
      intros chatId H. now inversion H; subst.
  - unfold Management.deleteTrailingMessages.
    destruct (Management.getMessageById messageId db) as [m|]; cbn.
    + destruct (Db.getChatById (m_chatId m) db) as [c|] eqn:Hc; cbn.
      * destruct (String.eqb_spec (chat_userId c) userId) as [E|E]; cbn.
        -- exists m. split; [reflexivity|]. split; [exists c; now split | reflexivity].
        -- split; [reflexivity|]. right. split; [reflexivity|].
           now exists (m_chatId m), c.
      * split; [reflexivity|]. left. split; [reflexivity|].
        intros chatId H. now inversion H; subst.
    + split; [reflexivity|]. left. split; [reflexivity|]. discriminate.
Qed.

(** ** The text of a message *)

Lemma concat_empty_cons (h : string) (t : list string) :
  String.concat "" (h :: t) = (h ++ String.concat "" t)%string.
Proof.
  destruct t as [|x t]; cbn; [now rewrite append_nil_r | reflexivity].
Qed.

Lemma concat_empty_app (xs ys : list string) :
  String.concat "" (xs ++ ys) = (String.concat "" xs ++ String.concat "" ys)%string.
Proof.
  induction xs as [|x xs IH]; [reflexivity|].
  rewrite <- app_comm_cons, !concat_empty_cons, IH. now rewrite append_assoc.
Qed.

(** X10: The text of a message is the text of its text parts, in order:
    parts of other types contribute nothing, and the text of parts put one
    after the other is the text of the first followed by the text of the
    second. *)
Theorem getTextFromMessage_of_parts
    (id : string) (role : Role) (createdAt : option Z) (before after : list Part) :
  ChatService.getTextFromMessage (mkChatMessage id role (before ++ after) createdAt)
  = (ChatService.getTextFromMessage (mkChatMessage id role before createdAt)
     ++ ChatService.getTextFromMessage (mkChatMessage id role after createdAt))%string /\
  (forall text,
     ChatService.getTextFromMessage (mkChatMessage id role (TextPart text :: after) createdAt)
     = (text ++ ChatService.getTextFromMessage (mkChatMessage id role after createdAt))%string) /\
  (forall part,
     (forall text, part <> TextPart text) ->
     ChatService.getTextFromMessage (mkChatMessage id role (part :: after) createdAt)
     = ChatService.getTextFromMessage (mkChatMessage id role after createdAt)).
Proof.
  unfold ChatService.getTextFromMessage. cbn [cm_parts]. split; [|split].
  - now rewrite flat_map_app, concat_empty_app.
  - intros text. cbn [flat_map app]. apply concat_empty_cons.
  - intros part Hpart. destruct part; try reflexivity. now contradiction (Hpart text).
Qed.

Lemma getTextFromMessage_of_parts_witness :
  ChatService.getTextFromMessage Samples2.reply = "Hi there".
Proof.
  destruct (getTextFromMessage_of_parts "m10" assistant None [TextPart "Hi"]
              [ReasoningPart "thought"; TextPart " there"]) as (Happ & _ & _).
  unfold Samples2.reply.
  change [TextPart "Hi"; ReasoningPart "thought"; TextPart " there"]
    with ([TextPart "Hi"] ++ [ReasoningPart "thought"; TextPart " there"]).
  rewrite Happ.
  destruct (getTextFromMessage_of_parts "m10" assistant None [] [TextPart " there"])
    as (_ & _ & Hskip).
  rewrite (Hskip (ReasoningPart "thought")); [reflexivity | discriminate].
Defined.

(** * Further properties of the transport adapter *)

Section Delivery.

Variable JSON_parse : string -> option Json.t.
Variable JSON_stringify : Json.t -> string.

Lemma deliveredOf_deliverable (frame : string) :
  deliveredOf JSON_parse JSON_stringify frame
  = if deliverable JSON_parse JSON_stringify frame
    then [emitted JSON_parse JSON_stringify frame]
    else [].
Proof.
  unfold deliveredOf, deliverable, emitted, Transport.emitMessage,
    Transport.extractAndTransformJson.
  destruct (Js.truthy (Js.trim frame)); [|reflexivity].
  rewrite payloadOf_trim. cbn [andb].
  destruct (JSON_parse (Transport.payloadOf frame)) as [parsed|]; [|reflexivity].
  destruct (Transport.transformFinishReason parsed) as [parsed'|]; [|reflexivity].
  destruct (Js.truthy (JSON_stringify parsed')); reflexivity.
Qed.

Lemma flat_map_deliveredOf (frames : list string) :
  flat_map (deliveredOf JSON_parse JSON_stringify) frames
  = map (emitted JSON_parse JSON_stringify)
        (filter (deliverable JSON_parse JSON_stringify) frames).
Proof.
  induction frames as [|frame frames IH]; [reflexivity|].
  cbn [flat_map filter]. rewrite deliveredOf_deliverable, IH.
  destruct (deliverable JSON_parse JSON_stringify frame); reflexivity.
Qed.

(** The pump on a failing source: as on a source that is done, but
    what is left in the buffer is not processed and the stream ends with an
    error. *)
Lemma pumpLoop_chunked_failure (tail : string) (chunks : list string) :
  lineFeedFree tail = true ->
  forall (todo : list string) (st : Transport.PumpState),
    Forall (fun frame => lineFeedFree frame = true) todo ->
    (Transport.buffer st ++ received chunks)%string
      = (received (wire todo) ++ tail)%string ->
    Js.indexOf Transport.delimiter (Transport.buffer st) = None ->
    Transport.pumpLoop JSON_parse JSON_stringify chunks Transport.failure st
    = Some (Transport.mkPumpState tail
              (Transport.delivered st
                 ++ flat_map (deliveredOf JSON_parse JSON_stringify) todo)
              (Transport.console st
                 ++ flat_map (warningsOf JSON_parse JSON_stringify) todo),
            Transport.errored).
Proof.
  intros Htail. induction chunks as [|value chunks IH]; intros todo st Hfree Htext Hnone.
  - cbn in Htext. rewrite append_nil_r in Htext.
    destruct todo as [|f todo].
    + cbn in Htext. cbn [Transport.pumpLoop flat_map]. rewrite <- Htext.
      now rewrite pumpState_eta.
    + exfalso. inversion Hfree as [|? ? Hf _]. subst.
      rewrite received_wire_cons, !append_assoc in Htext.
      rewrite Htext, (indexOf_frame f _ Hf) in Hnone. discriminate.
  - cbn [Transport.pumpLoop]. destruct value as [|c value].
    + cbn [Js.truthy]. apply IH; assumption.
    + cbn [Js.truthy].
      cbn [received fold_right] in Htext. fold (received chunks) in Htext.
      rewrite <- append_assoc in Htext.
      destruct (drain_cut JSON_parse JSON_stringify tail todo Hfree Htail
                  (S (String.length (Transport.buffer st ++ String c value)))
                  (Transport.buffer st ++ String c value) (received chunks)
                  (Transport.mkPumpState (Transport.buffer st ++ String c value)
                     (Transport.delivered st) (Transport.console st))
                  Htext eq_refl (Nat.lt_succ_diag_r _))
        as (processed & todo' & T' & Htodo & Hcut' & Hnone' & Hdrain).
      cbn [Transport.buffer]. rewrite Hdrain.
      cbn [Transport.delivered Transport.console] in *.
      assert (Hfree' : Forall (fun frame => lineFeedFree frame = true) todo').
      { rewrite Htodo in Hfree. now apply Forall_app in Hfree. }
      rewrite (IH todo' (Transport.mkPumpState T' _ _) Hfree' Hcut' Hnone').
      cbn [Transport.delivered Transport.console].
      rewrite Htodo, !flat_map_app, <- ?app_assoc. reflexivity.
Qed.

End Delivery.

(** X11: The adapter preserves order and drops nothing that can be
    delivered: however the text of a sequence of delimited frames is cut
    into chunks, the consumer receives exactly one item for each
    deliverable frame (not blank, payload JSON other than null), in the
    order of the frames, and the stream completes. *)
Theorem pump_preserves_order
    (JSON_parse : string -> option Json.t) (JSON_stringify : Json.t -> string)
    (frames chunks : list string) :
  Forall (fun frame => lineFeedFree frame = true) frames ->
  received chunks = received (wire frames) ->
  exists st,
    Transport.pump JSON_parse JSON_stringify chunks Transport.done
      = Some (st, Transport.completed) /\
    Transport.delivered st
      = map (emitted JSON_parse JSON_stringify)
            (filter (deliverable JSON_parse JSON_stringify) frames) /\
    (Forall (fun frame => deliverable JSON_parse JSON_stringify frame = true) frames ->
     Transport.delivered st = map (emitted JSON_parse JSON_stringify) frames /\
     Transport.console st = []).
Proof.
  intros Hfree Htext.
  rewrite (pump_frames JSON_parse JSON_stringify frames chunks Hfree Htext).
  eexists. split; [reflexivity|]. cbn [Transport.delivered Transport.console].
  split; [apply flat_map_deliveredOf|].
  intros Hall. rewrite flat_map_deliveredOf.
  assert (Hfilter : filter (deliverable JSON_parse JSON_stringify) frames = frames).
  { clear Hfree Htext. induction Hall as [|f fs Hf _ IH]; [reflexivity|].
    cbn. now rewrite Hf, IH. }
  rewrite Hfilter. split; [reflexivity|].
  clear Hfree Htext Hfilter. induction Hall as [|f fs Hf _ IH]; [reflexivity|].
  cbn [flat_map]. rewrite IH, app_nil_r.
  unfold warningsOf, Transport.emitMessage, Transport.extractAndTransformJson.
  unfold deliverable in Hf. apply andb_true_iff in Hf. destruct Hf as [Hfull Hf].
  rewrite Hfull, payloadOf_trim.
  destruct (JSON_parse (Transport.payloadOf f)) as [parsed|]; [|discriminate].
  destruct (Transport.transformFinishReason parsed) as [parsed'|]; [|discriminate].
  now rewrite Hf.
Qed.

Lemma pump_preserves_order_witness :
  exists st,
    Transport.pump Codec.parse Codec.stringify Samples.cutChunks Transport.done
      = Some (st, Transport.completed) /\
    Transport.delivered st = [Samples.textDelta; Samples.finishScalar].
Proof.
  destruct (pump_preserves_order Codec.parse Codec.stringify
              [Samples.frame Samples.textDelta; Samples.frame Samples.truncated;
               Samples.frame Samples.finishNested; "data: [DONE]"]
              Samples.cutChunks)
    as (st & Hrun & Hdelivered & _).
  - repeat constructor.
  - reflexivity.
  - exists st. split; [exact Hrun|]. rewrite Hdelivered. reflexivity.
Defined.

(** X12: How the pump ends. When the source is done, a last frame that
    lacks its delimiter is still processed; when reading the source fails,
    the frames completed before the failure have been delivered, what is
    left in the buffer is discarded, and the stream ends with an error. *)
Theorem pump_endings
    (JSON_parse : string -> option Json.t) (JSON_stringify : Json.t -> string)
    (frames chunks : list string) (tail : string) :
  Forall (fun frame => lineFeedFree frame = true) frames ->
  lineFeedFree tail = true ->
  received chunks = (received (wire frames) ++ tail)%string ->
  Transport.pump JSON_parse JSON_stringify chunks Transport.done
    = Some (Transport.mkPumpState tail
              (flat_map (deliveredOf JSON_parse JSON_stringify) frames
                 ++ deliveredOf JSON_parse JSON_stringify tail)
              (flat_map (warningsOf JSON_parse JSON_stringify) frames
                 ++ warningsOf JSON_parse JSON_stringify tail),
            Transport.completed) /\
  Transport.pump JSON_parse JSON_stringify chunks Transport.failure
    = Some (Transport.mkPumpState tail
              (flat_map (deliveredOf JSON_parse JSON_stringify) frames)
              (flat_map (warningsOf JSON_parse JSON_stringify) frames),
            Transport.errored).
Proof.
  intros Hfree Htail Htext. unfold Transport.pump. split.
  - rewrite (pumpLoop_chunked JSON_parse JSON_stringify tail chunks Htail frames
               (Transport.mkPumpState "" [] []) Hfree Htext eq_refl).
    cbn [Transport.delivered Transport.console app].
    rewrite !flat_map_app. cbn [flat_map]. now rewrite !app_nil_r.
  - now rewrite (pumpLoop_chunked_failure JSON_parse JSON_stringify tail chunks Htail
                   frames (Transport.mkPumpState "" [] []) Hfree Htext eq_refl).
Qed.

Lemma pump_endings_witness :
  Transport.pump Codec.parse Codec.stringify
    [(Samples.frame Samples.textDelta ++ Transport.delimiter ++ "data: ")%string;
     Samples.finishNested]
    Transport.done
    = Some (Transport.mkPumpState (Samples.frame Samples.finishNested)
              [Samples.textDelta; Samples.finishScalar] [],
            Transport.completed) /\
  Transport.pump Codec.parse Codec.stringify
    [(Samples.frame Samples.textDelta ++ Transport.delimiter ++ "data: ")%string;
     Samples.finishNested]
    Transport.failure
    = Some (Transport.mkPumpState (Samples.frame Samples.finishNested)
              [Samples.textDelta] [],
            Transport.errored).
Proof.
  apply (pump_endings Codec.parse Codec.stringify [Samples.frame Samples.textDelta]
           [(Samples.frame Samples.textDelta ++ Transport.delimiter ++ "data: ")%string;
            Samples.finishNested]
           (Samples.frame Samples.finishNested)).
  - repeat constructor.
  - reflexivity.
  - reflexivity.
Defined.

(** ** What the normalisation leaves alone *)

Lemma lookup_update_other (key other : string) (x : Json.t)
    (fields : list (string * Json.t)) :
  other <> key ->
  Json.lookup other (Json.update key x fields) = Json.lookup other fields.
Proof.
  intros Hother. induction fields as [|[k v] fields IH]; cbn.
  - apply String.eqb_neq in Hother. rewrite String.eqb_sym. now rewrite Hother.
  - destruct (String.eqb_spec k key) as [->|Hk]; cbn.
    + apply String.eqb_neq in Hother. rewrite String.eqb_sym. now rewrite Hother.
    + destruct (String.eqb k other); [reflexivity | exact IH].
Qed.

Lemma keys_update (key : string) (x : Json.t) (fields : list (string * Json.t)) :
  Json.lookup key fields <> None ->
  map fst (Json.update key x fields) = map fst fields.
Proof.
  induction fields as [|[k v] fields IH]; cbn; [congruence|].
  destruct (String.eqb_spec k key) as [->|Hk]; cbn; [reflexivity|].
  intros Hsome. now rewrite IH.
Qed.

(** The normalisation returns its argument, or its argument with a new
    value for the finishReason it has. *)
Lemma transformFinishReason_result (parsed parsed' : Json.t) :
  Transport.transformFinishReason parsed = Some parsed' ->
  parsed' = parsed \/
  exists fields x,
    parsed = Json.object fields /\
    Json.lookup "finishReason" fields <> None /\
    Json.lookup "type" fields = Some (Json.str "finish") /\
    parsed' = Json.object (Json.update "finishReason" x fields).
Proof.
  unfold Transport.transformFinishReason.
  destruct parsed as [| b | n | s | elements | fields];
    try (cbn; intros H; inversion H; now left).
  cbn [Json.get].
  destruct (Json.lookup "type" fields) as [ty|] eqn:Hty;
    [|intros H; inversion H; now left].
  destruct ty as [| b | n | t | elements | fs];
    try (intros H; inversion H; now left).
  destruct (String.eqb_spec t "finish") as [->|Hne].
  - destruct (Json.lookup "finishReason" fields) as [fr|] eqn:Hfr;
      [|intros H; inversion H; now left].
    destruct (Json.truthy fr); [|intros H; inversion H; now left].
    destruct (Json.isObject fr); [|intros H; inversion H; now left].
    destruct (Json.truthy_opt (Json.get fr "unified")).
    + destruct (Json.get fr "unified") as [u|]; intros H; inversion H; [|now left].
      right. exists fields, u. cbn [Json.set]. repeat split; congruence.
    + destruct (Json.values fr) as [|first rest]; [intros H; inversion H; now left|].
      destruct (Json.isString first); intros H; inversion H; [|now left].
      right. exists fields, first. cbn [Json.set]. repeat split; congruence.
  - destruct t as [|c0 t]; [intros H; inversion H; now left|].
    repeat (match goal with
            | |- context [match ?x with String _ _ => _ | EmptyString => _ end] =>
                destruct x; try (intros H; inversion H; now left)
            | |- context [match ?a with Ascii _ _ _ _ _ _ _ _ => _ end] =>
                destruct a
            | |- context [if ?b then _ else _] =>
                destruct b; try (intros H; inversion H; now left)
            end).
Qed.

(** A value other than null is never refused. *)
Lemma transformFinishReason_total (parsed : Json.t) :
  parsed <> Json.null ->
  exists parsed', Transport.transformFinishReason parsed = Some parsed'.
Proof.
  intros Hnull. unfold Transport.transformFinishReason.
  destruct parsed as [| b | n | s | elements | fields];
    try (cbn; eexists; reflexivity); [now contradiction Hnull|].
  cbn [Json.get].
  destruct (Json.lookup "type" fields) as [ty|]; [|eexists; reflexivity].
  destruct ty as [| b | n | t | elements | fs]; try (eexists; reflexivity).
  destruct (String.eqb_spec t "finish") as [->|Hne].
  - destruct (Json.lookup "finishReason" fields) as [fr|]; [|eexists; reflexivity].
    destruct (Json.truthy fr); [|eexists; reflexivity].
    destruct (Json.isObject fr); [|eexists; reflexivity].
    destruct (Json.truthy_opt (Json.get fr "unified")).
    + destruct (Json.get fr "unified"); eexists; reflexivity.
    + destruct (Json.values fr) as [|first rest]; [eexists; reflexivity|].
      destruct (Json.isString first); eexists; reflexivity.
  - destruct t as [|c0 t]; [eexists; reflexivity|].
    repeat (match goal with
            | |- context [match ?x with String _ _ => _ | EmptyString => _ end] =>
                destruct x; try (eexists; reflexivity)
            | |- context [match ?a with Ascii _ _ _ _ _ _ _ _ => _ end] =>
                destruct a
            | |- context [if ?b then _ else _] =>
                destruct b; try (eexists; reflexivity)
            end);
      try (exfalso; apply Hne; reflexivity).
Qed.

(** X13: The normalisation touches nothing but the finishReason: a value
    other than null is never refused, every other property reads as before,
    the properties of the frame keep their names and their order, and a
    frame that is no object or is not of type finish is returned as it
    is. *)
Theorem normalisation_touches_only_finishReason (parsed : Json.t) :
  (parsed <> Json.null -> Transport.transformFinishReason parsed <> None) /\
  (forall parsed',
     Transport.transformFinishReason parsed = Some parsed' ->
     (forall key, key <> "finishReason" -> Json.get parsed' key = Json.get parsed key) /\
     map fst (fieldsOf parsed') = map fst (fieldsOf parsed) /\
     (Json.get parsed "type" <> Some (Json.str "finish") -> parsed' = parsed)).
Proof.
  split.
  - intros Hnull. destruct (transformFinishReason_total parsed Hnull) as [r ->].
    discriminate.
  - intros parsed' Hrun.
    destruct (transformFinishReason_result parsed parsed' Hrun)
      as [-> | (fields & x & -> & Hhas & Htype & ->)].
    + repeat split.
    + split; [|split].
      * intros key Hkey. cbn [Json.get]. now apply lookup_update_other.
      * cbn [fieldsOf]. now apply keys_update.
      * cbn [Json.get]. intros Hne. now contradiction Hne.
Qed.

Lemma normalisation_touches_only_finishReason_witness :
  Transport.transformFinishReason Samples.finishNestedValue <> None /\
  Json.get Samples.finishScalarValue "type" = Some (Json.str "finish") /\
  map fst (fieldsOf Samples.finishScalarValue) = ["type"; "finishReason"] /\
  Transport.transformFinishReason Samples.otherNestedValue = Some Samples.otherNestedValue.
Proof.
  destruct (normalisation_touches_only_finishReason Samples.finishNestedValue)
    as [Htotal Hkeep].
  destruct (Hkeep Samples.finishScalarValue eq_refl) as (Hother & Hkeys & _).
  split; [apply Htotal; discriminate|].
  split; [rewrite (Hother "type"); [reflexivity | discriminate]|].
  split; [rewrite Hkeys; reflexivity|].
  destruct (normalisation_touches_only_finishReason Samples.otherNestedValue)
    as [_ Hkeep'].
  destruct (Hkeep' Samples.otherNestedValue eq_refl) as (_ & _ & Hsame).
  reflexivity.
Defined.

(** X14: Two more ways for a frame to be dropped. A frame that is blank
    (empty or white space only) is skipped without a warning; a frame whose
    payload is the JSON value null, although valid JSON, is dropped with a
    warning like a frame that is no JSON. *)
Theorem blank_and_null_frames_are_dropped
    (JSON_parse : string -> option Json.t) (JSON_stringify : Json.t -> string)
    (frame : string) :
  (Js.trim frame = "" ->
     deliveredOf JSON_parse JSON_stringify frame = [] /\
     warningsOf JSON_parse JSON_stringify frame = []) /\
  (Js.trim frame <> "" ->
   JSON_parse (Transport.payloadOf frame) = Some Json.null ->
     deliveredOf JSON_parse JSON_stringify frame = [] /\
     warningsOf JSON_parse JSON_stringify frame
     = [Js.substringTo 100 (Transport.payloadOf frame)]).
Proof.
  unfold deliveredOf, warningsOf, Transport.emitMessage, Transport.extractAndTransformJson.
  split.
  - intros ->. split; reflexivity.
  - intros Hfull Hnull. rewrite payloadOf_trim, Hnull.
    destruct (Js.trim frame); [contradiction|]. split; reflexivity.
Qed.

Lemma blank_and_null_frames_are_dropped_witness :
  (deliveredOf Codec.parse Codec.stringify "   " = [] /\
   warningsOf Codec.parse Codec.stringify "   " = []) /\
  (deliveredOf Codec.parse Codec.stringify "data: null" = [] /\
   warningsOf Codec.parse Codec.stringify "data: null" = ["null"]).
Proof.
  split.
  - apply (proj1 (blank_and_null_frames_are_dropped Codec.parse Codec.stringify "   ")).
    reflexivity.
  - apply (proj2 (blank_and_null_frames_are_dropped Codec.parse Codec.stringify
                    "data: null")).
    + discriminate.
    + reflexivity.
Defined.

(** * Further properties of the tools *)

(** X15: The weather tool. A city name, when given, decides: if geocoding
    fails in any way (request failed, status not ok, no results) the tool
    returns an error payload naming the city and never asks for a forecast,
    even when coordinates were supplied too; if geocoding succeeds the
    forecast is asked for the first result, the supplied coordinates are
    ignored and the answer carries the city name. Without a city name and
    without both coordinates the tool returns an error payload and makes no
    request at all. The tool throws only when the forecast request
    fails. *)
Theorem getWeather_requests
    (number forecast : Type)
    (searchCity : string -> Weather.GeoReply number)
    (fetchForecast : number -> number -> Weather.ForecastReply forecast)
    (input : Weather.Input number) :
  let run := Weather.getWeather number forecast searchCity fetchForecast input in
  (forall city,
     Weather.in_city number input = Some city -> city <> "" ->
     (Weather.geocodeCity number searchCity city = None <->
      (searchCity city = Weather.geo_failed number \/
       searchCity city = Weather.geo_not_ok number \/
       searchCity city = Weather.geo_data number None \/
       searchCity city = Weather.geo_data number (Some []))) /\
     (Weather.geocodeCity number searchCity city = None ->
      run = ([Weather.Geocode number city],
             Weather.returned forecast
               (Weather.error_payload forecast
                  ("Could not find coordinates for " ++ Weather.quote ++ city
                   ++ Weather.quote ++ ". Please check the city name.")))) /\
     (forall result rest,
        searchCity city = Weather.geo_data number (Some (result :: rest)) ->
        fst run = [Weather.Geocode number city;
                   Weather.Forecast number (Weather.latitude number result)
                     (Weather.longitude number result)] /\
        (forall weatherData,
           fetchForecast (Weather.latitude number result) (Weather.longitude number result)
             = Weather.forecast_data forecast weatherData ->
           snd run = Weather.returned forecast
                       (Weather.weather_payload forecast weatherData (Some city))))) /\
  (Weather.cityGiven number input = None ->
     (Weather.in_latitude number input = None \/ Weather.in_longitude number input = None) ->
     run = ([], Weather.returned forecast
                  (Weather.error_payload forecast
                     "Please provide either a city name or both latitude and longitude coordinates."))) /\
  (snd run = Weather.thrown forecast ->
     exists lat lon previous,
       fst run = previous ++ [Weather.Forecast number lat lon] /\
       fetchForecast lat lon = Weather.forecast_failed forecast).
Proof.
  cbn zeta. split; [|split].
  - intros city Hcity Hnamed.
    assert (Hgiven : Weather.cityGiven number input = Some city).
    { unfold Weather.cityGiven. rewrite Hcity. destruct city; [contradiction | reflexivity]. }
    split; [|split].
    + unfold Weather.geocodeCity.
      destruct (searchCity city) as [| |[[|r rs]|]]; split; intros H;
        try reflexivity; try discriminate; try tauto;
        destruct H as [H|[H|[H|H]]]; discriminate.
    + intros Hnone. unfold Weather.getWeather. now rewrite Hgiven, Hnone.
    + intros result rest Hsearch. unfold Weather.getWeather, Weather.geocodeCity,
        Weather.forecastAt.
      rewrite Hgiven, Hsearch. cbn.
      destruct (fetchForecast (Weather.latitude number result)
                              (Weather.longitude number result)) eqn:Hf;
        cbn; split; try reflexivity; intros weatherData' H; inversion H.
      subst. now rewrite Hcity.
  - intros Hnone Hmissing. unfold Weather.getWeather. rewrite Hnone.
    destruct Hmissing as [-> | ->]; [reflexivity|].
    now destruct (Weather.in_latitude number input).
  - unfold Weather.getWeather, Weather.forecastAt.
    destruct (Weather.cityGiven number input) as [city|].
    + destruct (Weather.geocodeCity number searchCity city) as [coords|]; [|discriminate].
      destruct (fetchForecast (Weather.latitude number coords)
                              (Weather.longitude number coords)) eqn:Hf; [|discriminate].
      intros _. eexists. eexists. eexists. split; [reflexivity | exact Hf].
    + destruct (Weather.in_latitude number input) as [lat|]; [|discriminate].
      destruct (Weather.in_longitude number input) as [lon|]; [|discriminate].
      destruct (fetchForecast lat lon) eqn:Hf; [|discriminate].
      intros _. eexists. eexists. exists []. split; [reflexivity | exact Hf].
Qed.

Lemma getWeather_requests_witness :
  Weather.getWeather Z string Samples2.searchCity Samples2.fetchForecast
    (Weather.mkInput Z (Some 10) (Some 20) (Some "Atlantis"))
  = ([Weather.Geocode Z "Atlantis"],
     Weather.returned string
       (Weather.error_payload string
          ("Could not find coordinates for " ++ Weather.quote ++ "Atlantis"
           ++ Weather.quote ++ ". Please check the city name."))) /\
  Weather.getWeather Z string Samples2.searchCity Samples2.fetchForecast
    (Weather.mkInput Z (Some 10) (Some 20) (Some "Paris"))
  = ([Weather.Geocode Z "Paris"; Weather.Forecast Z 48 2],
     Weather.returned string (Weather.weather_payload string "sunny" (Some "Paris"))) /\
  Weather.getWeather Z string Samples2.searchCity Samples2.fetchForecast
    (Weather.mkInput Z (Some 10) None (Some ""))
  = ([], Weather.returned string
           (Weather.error_payload string
              "Please provide either a city name or both latitude and longitude coordinates.")).
Proof.
  split; [|split].
  - destruct (getWeather_requests Z string Samples2.searchCity Samples2.fetchForecast
                (Weather.mkInput Z (Some 10) (Some 20) (Some "Atlantis")))
      as (Hcity & _ & _).
    destruct (Hcity "Atlantis" eq_refl ltac:(discriminate)) as (_ & Herror & _).
    apply Herror. reflexivity.
  - destruct (getWeather_requests Z string Samples2.searchCity Samples2.fetchForecast
                (Weather.mkInput Z (Some 10) (Some 20) (Some "Paris")))
      as (Hcity & _ & _).
    destruct (Hcity "Paris" eq_refl ltac:(discriminate)) as (_ & _ & Hfound).
    destruct (Hfound (Weather.mkCoordinates Z 48 2) [Weather.mkCoordinates Z 33 (-95)]
                eq_refl) as [Hreq Hout].
    rewrite (surjective_pairing (Weather.getWeather Z string Samples2.searchCity
                                   Samples2.fetchForecast _)).
    now rewrite Hreq, (Hout "sunny" eq_refl).
  - destruct (getWeather_requests Z string Samples2.searchCity Samples2.fetchForecast
                (Weather.mkInput Z (Some 10) None (Some "")))
      as (_ & Hnone & _).
    apply Hnone; [reflexivity | now right].
Defined.

(** ** Documents *)

Lemma collectCode_from (fullStream : list Artifacts.Delta)
    (written : list UIMessageChunk) (draft : string) :
  fold_left
    (fun acc delta =>
       match delta with
       | Artifacts.object_delta (Some code) =>
           if Js.truthy code then (fst acc ++ [data_codeDelta code], code) else acc
       | _ => acc
       end)
    fullStream (written, draft)
  = (written ++ map data_codeDelta (snapshots fullStream),
     last (snapshots fullStream) draft).
Proof.
  revert written draft. induction fullStream as [|delta rest IH]; intros written draft.
  - cbn. now rewrite app_nil_r.
  - cbn [fold_left snapshots flat_map]. fold (snapshots rest).
    destruct delta as [[code|]|]; try (rewrite IH; reflexivity).
    destruct (Js.truthy code) eqn:E.
    + rewrite IH. cbn [fst app map]. rewrite <- app_assoc. cbn [app].
      f_equal. destruct (snapshots rest) as [|s ss] eqn:Hs; [reflexivity|].
      cbn [app]. change (last (code :: s :: ss) draft) with (last (s :: ss) draft).
      clear. revert s. induction ss as [|x ss IH]; intros s; [reflexivity|].
      cbn [last] in *. apply IH.
    + rewrite IH. reflexivity.
Qed.

(** X16: The code handler streams every non-empty code snapshot of the model
    once, in order, and saves as the document what it streamed last (the
    empty content when the model produced no code); it saves under the id
    and title it was given, and only for a session with a user id. *)
Theorem code_handler_saves_last_snapshot
    (streamObject : Artifacts.CodeRequest -> list Artifacts.Delta)
    (args : Artifacts.CreateDocumentCallbackProps) :
  let codes := snapshots (streamObject (Artifacts.create_code (Artifacts.cp_title args))) in
  Artifacts.onCreateDocument (Artifacts.createCodeDocumentHandler streamObject) args
  = map (fun code => Artifacts.Emit (data_codeDelta code)) codes
    ++ (if Js.truthy (jwt_id (Artifacts.cp_session args))
        then [Artifacts.SaveDocument (Artifacts.cp_id args) (Artifacts.cp_title args)
                (last codes "") Artifacts.kind_code (jwt_id (Artifacts.cp_session args))]
        else []).
Proof.
  cbn zeta. unfold Artifacts.createCodeDocumentHandler, Artifacts.createDocumentHandler.
  cbn [Artifacts.onCreateDocument Artifacts.cfg_onCreateDocument Artifacts.cfg_kind].
  unfold Artifacts.collectCode. rewrite collectCode_from. cbn [app].
  now rewrite map_map.
Qed.

Lemma find_handler (streamObject : Artifacts.CodeRequest -> list Artifacts.Delta)
    (textGenerators sheetGenerators :
       (Artifacts.CreateDocumentCallbackProps -> list UIMessageChunk * string) *
       (Artifacts.UpdateDocumentCallbackProps -> list UIMessageChunk * string))
    (k : Artifacts.ArtifactKind) :
  exists handler,
    find (fun handler => String.eqb (Artifacts.kindName (Artifacts.kind handler))
                                    (Artifacts.kindName k))
         (Artifacts.createDocumentHandlers streamObject textGenerators sheetGenerators)
    = Some handler /\
    Artifacts.kind handler = k /\
    handler
    = match k with
      | Artifacts.kind_text => Artifacts.createTextDocumentHandler textGenerators
      | Artifacts.kind_code => Artifacts.createCodeDocumentHandler streamObject
      | Artifacts.kind_sheet => Artifacts.createSheetDocumentHandler sheetGenerators
      end.
Proof.
  destruct k; eexists; (split; [reflexivity | split; reflexivity]).
Qed.

(** Every handler of the registry announces its work and saves once:
    what it hands to the Store is one document, of the kind of the handler,
    under the id and title it was given, and only for a session with a user
    id. *)
Lemma handler_saves_once (config : Artifacts.HandlerConfig)
    (args : Artifacts.CreateDocumentCallbackProps) :
  filter isStoreWrite
    (Artifacts.onCreateDocument (Artifacts.createDocumentHandler config) args)
  = if Js.truthy (jwt_id (Artifacts.cp_session args))
    then [Artifacts.SaveDocument (Artifacts.cp_id args) (Artifacts.cp_title args)
            (snd (Artifacts.cfg_onCreateDocument config args)) (Artifacts.cfg_kind config)
            (jwt_id (Artifacts.cp_session args))]
    else [].
Proof.
  unfold Artifacts.createDocumentHandler. cbn [Artifacts.onCreateDocument].
  destruct (Artifacts.cfg_onCreateDocument config args) as [written draft].
  rewrite filter_app. cbn [snd].
  assert (Hnone : filter isStoreWrite (map Artifacts.Emit written) = []).
  { induction written as [|x xs IH]; [reflexivity | exact IH]. }
  rewrite Hnone. now destruct (Js.truthy (jwt_id (Artifacts.cp_session args))).
Qed.

(** X17: [createDocument] for a kind that has a handler (text, code, sheet)
    never throws. Its events start with the four preliminary ones (kind, id,
    title, clear) and end with the finish event; the document is saved
    exactly once, under the id announced in the id event and with the kind
    asked for, when the session carries a user id, and not at all
    otherwise; the tool returns the same id, title and kind. *)
Theorem createDocument_for_handled_kind
    (streamObject : Artifacts.CodeRequest -> list Artifacts.Delta)
    (textGenerators sheetGenerators :
       (Artifacts.CreateDocumentCallbackProps -> list UIMessageChunk * string) *
       (Artifacts.UpdateDocumentCallbackProps -> list UIMessageChunk * string))
    (generateUUID : nat -> string) (session : JwtPayload) (title : string)
    (kind : ToolsService.KindInput) (k : Artifacts.ArtifactKind) :
  handledKind kind = Some k ->
  let documentHandlers :=
    Artifacts.createDocumentHandlers streamObject textGenerators sheetGenerators in
  let run := ToolsService.createDocument documentHandlers generateUUID session title kind in
  let id := generateUUID 0%nat in
  exists generated,
    fst run
    = [Artifacts.Emit (data_kind (ToolsService.inputName kind)); Artifacts.Emit (data_id id);
       Artifacts.Emit (data_title title); Artifacts.Emit data_clear]
      ++ generated ++ [Artifacts.Emit data_finish] /\
    snd run
    = ToolsService.returned
        (ToolsService.document_payload id title (ToolsService.inputName kind)
           "A document was created and is now visible to the user.") /\
    (exists content,
       filter isStoreWrite (fst run)
       = if Js.truthy (jwt_id session)
         then [Artifacts.SaveDocument id title content k (jwt_id session)]
         else []).
Proof.
  intros Hkind. cbn zeta.
  assert (Hname : ToolsService.inputName kind = Artifacts.kindName k).
  { destruct kind; inversion Hkind; reflexivity. }
  destruct (find_handler streamObject textGenerators sheetGenerators k)
    as (handler & Hfind & Hk & Hhandler).
  unfold ToolsService.createDocument. rewrite Hname, Hfind. cbn [fst snd].
  exists (Artifacts.onCreateDocument handler
            (Artifacts.mkCreateProps (generateUUID 0%nat) title session)).
  split; [reflexivity|]. split; [reflexivity|].
  cbn [app filter isStoreWrite]. rewrite filter_app. cbn [filter isStoreWrite].
  rewrite app_nil_r.
  rewrite Hhandler. destruct k;
    unfold Artifacts.createTextDocumentHandler, Artifacts.createCodeDocumentHandler,
      Artifacts.createSheetDocumentHandler;
    rewrite handler_saves_once; cbn [Artifacts.cp_session Artifacts.cp_id
                                     Artifacts.cp_title Artifacts.cfg_kind];
    eexists; reflexivity.
Qed.

Lemma createDocument_for_handled_kind_witness :
  ToolsService.createDocument Samples2.codeRegistry Samples.uuids Samples.alice "Counter"
    ToolsService.in_code
  = ([Artifacts.Emit (data_kind "code"); Artifacts.Emit (data_id "a");
      Artifacts.Emit (data_title "Counter"); Artifacts.Emit data_clear;
      Artifacts.Emit (data_codeDelta "pri"); Artifacts.Emit (data_codeDelta "print(1)");
      Artifacts.SaveDocument "a" "Counter" "print(1)" Artifacts.kind_code "alice";
      Artifacts.Emit data_finish],
     ToolsService.returned
       (ToolsService.document_payload "a" "Counter" "code"
          "A document was created and is now visible to the user.")) /\
  filter isStoreWrite
    (fst (ToolsService.createDocument Samples2.codeRegistry Samples.uuids Samples2.anonymous
            "Counter" ToolsService.in_code)) = [].
Proof.
  destruct (createDocument_for_handled_kind Samples2.codeDeltas Samples.plainGenerators
              Samples.plainGenerators Samples.uuids Samples2.anonymous "Counter"
              ToolsService.in_code Artifacts.kind_code eq_refl)
    as (generated & _ & _ & content & Hsaved).
  split; [reflexivity | exact Hsaved].
Defined.

Lemma code_handler_saves_last_snapshot_witness :
  Artifacts.onCreateDocument (Artifacts.createCodeDocumentHandler Samples2.codeDeltas)
    (Artifacts.mkCreateProps "a" "Counter" Samples.alice)
  = [Artifacts.Emit (data_codeDelta "pri"); Artifacts.Emit (data_codeDelta "print(1)");
     Artifacts.SaveDocument "a" "Counter" "print(1)" Artifacts.kind_code "alice"].
Proof.
  rewrite (code_handler_saves_last_snapshot Samples2.codeDeltas
             (Artifacts.mkCreateProps "a" "Counter" Samples.alice)).
  reflexivity.
Defined.

Lemma handler_update_saves_once (config : Artifacts.HandlerConfig)
    (args : Artifacts.UpdateDocumentCallbackProps) :
  filter isStoreWrite
    (Artifacts.onUpdateDocument (Artifacts.createDocumentHandler config) args)
  = if Js.truthy (jwt_id (Artifacts.up_session args))
    then [Artifacts.SaveDocument (Artifacts.doc_id (Artifacts.up_document args))
            (Artifacts.doc_title (Artifacts.up_document args))
            (snd (Artifacts.cfg_onUpdateDocument config args)) (Artifacts.cfg_kind config)
            (jwt_id (Artifacts.up_session args))]
    else [].
Proof.
  unfold Artifacts.createDocumentHandler. cbn [Artifacts.onUpdateDocument].
  destruct (Artifacts.cfg_onUpdateDocument config args) as [written draft].
  rewrite filter_app. cbn [snd].
  assert (Hnone : filter isStoreWrite (map Artifacts.Emit written) = []).
  { induction written as [|x xs IH]; [reflexivity | exact IH]. }
  rewrite Hnone. now destruct (Js.truthy (jwt_id (Artifacts.up_session args))).
Qed.

(** X18: [updateDocument] never throws. For an id the Store does not hold it
    returns an error payload and writes no event at all. For a document of
    a kind that has a handler its events start with the clear event and end
    with the finish event, and the revised content is saved exactly once,
    under the id and the title of the stored document, when the session
    carries a user id. *)
Theorem updateDocument_outcomes
    (streamObject : Artifacts.CodeRequest -> list Artifacts.Delta)
    (textGenerators sheetGenerators :
       (Artifacts.CreateDocumentCallbackProps -> list UIMessageChunk * string) *
       (Artifacts.UpdateDocumentCallbackProps -> list UIMessageChunk * string))
    (getDocumentById : string -> option Artifacts.Document)
    (session : JwtPayload) (id description : string) :
  let documentHandlers :=
    Artifacts.createDocumentHandlers streamObject textGenerators sheetGenerators in
  let run :=
    ToolsService.updateDocument documentHandlers getDocumentById session id description in
  (exists output, snd run = ToolsService.returned output) /\
  (getDocumentById id = None ->
     run = ([], ToolsService.returned (ToolsService.error_payload "Document not found"))) /\
  (forall document k,
     getDocumentById id = Some document ->
     Artifacts.doc_kind document = Artifacts.kindName k ->
     exists generated content,
       fst run = [Artifacts.Emit data_clear] ++ generated ++ [Artifacts.Emit data_finish] /\
       snd run
       = ToolsService.returned
           (ToolsService.document_payload id (Artifacts.doc_title document)
              (Artifacts.doc_kind document) "The document has been updated successfully.") /\
       filter isStoreWrite (fst run)
       = if Js.truthy (jwt_id session)
         then [Artifacts.SaveDocument (Artifacts.doc_id document)
                 (Artifacts.doc_title document) content k (jwt_id session)]
         else []).
Proof.
  cbn zeta. split; [|split].
  - unfold ToolsService.updateDocument.
    destruct (getDocumentById id) as [document|]; [|eexists; reflexivity].
    destruct (find _ _); eexists; reflexivity.
  - intros Hnone. unfold ToolsService.updateDocument. now rewrite Hnone.
  - intros document k Hdoc Hkind.
    destruct (find_handler streamObject textGenerators sheetGenerators k)
      as (handler & Hfind & Hk & Hhandler).
    unfold ToolsService.updateDocument. rewrite Hdoc, Hkind, Hfind. cbn [fst snd].
    exists (Artifacts.onUpdateDocument handler
              (Artifacts.mkUpdateProps document description session)).
    rewrite Hhandler. destruct k;
      unfold Artifacts.createTextDocumentHandler, Artifacts.createCodeDocumentHandler,
        Artifacts.createSheetDocumentHandler;
      eexists; (split; [reflexivity|]); (split; [reflexivity|]);
      cbn [app filter isStoreWrite]; rewrite filter_app; cbn [filter isStoreWrite];
      rewrite app_nil_r, handler_update_saves_once;
      cbn [Artifacts.up_session Artifacts.up_document Artifacts.cfg_kind];
      reflexivity.
Qed.

Lemma updateDocument_outcomes_witness :
  ToolsService.updateDocument Samples.registry Samples.documents Samples.alice "d9" "Shorter"
    = ([], ToolsService.returned (ToolsService.error_payload "Document not found")) /\
  ToolsService.updateDocument Samples.registry Samples.documents Samples.alice "d1" "Shorter"
    = ([Artifacts.Emit data_clear; Artifacts.Emit (data_delta "data-textDelta" "revised");
        Artifacts.SaveDocument "d1" "Essay" "revised" Artifacts.kind_text "alice";
        Artifacts.Emit data_finish],
       ToolsService.returned
         (ToolsService.document_payload "d1" "Essay" "text"
            "The document has been updated successfully.")).
Proof.
  destruct (updateDocument_outcomes Samples.noCode Samples.plainGenerators
              Samples.plainGenerators Samples.documents Samples.alice "d9" "Shorter")
    as (_ & Hmissing & _).
  split; [apply Hmissing; reflexivity|].
  destruct (updateDocument_outcomes Samples.noCode Samples.plainGenerators
              Samples.plainGenerators Samples.documents Samples.alice "d1" "Shorter")
    as (_ & _ & Hfound).
  destruct (Hfound Samples.essay Artifacts.kind_text eq_refl eq_refl)
    as (generated & content & _ & _ & _).
  reflexivity.
Defined.

(** ** Suggestions, further *)

Section MoreSuggestions.

Variable generateUUID : nat -> string.
Variable documentId : string.

Lemma processElements_labelled (elements : list (option ToolsService.PartialElement))
    (st : ToolsService.SuggestState) :
  labelled generateUUID documentId st ->
  labelled generateUUID documentId
    (ToolsService.processElements generateUUID documentId elements st).
Proof.
  revert st. induction elements as [|e elements IH]; intros st Hst; [exact Hst|].
  cbn [ToolsService.processElements].
  destruct (ToolsService.completeElement e) as [[[o s] d]|]; [|now apply IH].
  apply IH. destruct Hst as [Hids Hall].
  split; cbn [ToolsService.suggestions ToolsService.processedCount].
  - rewrite map_app, Hids, seq_S, map_app. reflexivity.
  - apply Forall_app. split; [exact Hall|]. constructor; [now split | constructor].
Qed.

Lemma processStream_labelled
    (stream : list (option (list (option ToolsService.PartialElement)))) :
  labelled generateUUID documentId
    (ToolsService.processStream generateUUID documentId stream).
Proof.
  unfold ToolsService.processStream.
  assert (Hinit : labelled generateUUID documentId (ToolsService.mkSuggestState 0 [] []))
    by (split; [reflexivity | constructor]).
  revert Hinit. generalize (ToolsService.mkSuggestState 0 [] []).
  induction stream as [|partial stream IH]; intros st Hst; [exact Hst|].
  cbn [fold_left]. apply IH.
  destruct partial as [elements|]; [|exact Hst].
  now apply processElements_labelled.
Qed.

(** Complete elements in front of incomplete ones: the complete ones
    become suggestions, numbered from [processedCount] on, the incomplete
    ones are passed over. *)
Lemma processElements_complete_then_junk (cs : list (string * string * string))
    (junk : list (option ToolsService.PartialElement)) (st : ToolsService.SuggestState) :
  Forall (fun c => allTruthy c = true) cs ->
  Forall (fun e => ToolsService.completeElement e = None) junk ->
  ToolsService.processElements generateUUID documentId (map element cs ++ junk) st
  = ToolsService.mkSuggestState
      (ToolsService.processedCount st + List.length cs)
      (ToolsService.suggestions st
         ++ suggest generateUUID documentId (ToolsService.processedCount st) cs)
      (ToolsService.effects st
         ++ map emitSuggestion
              (suggest generateUUID documentId (ToolsService.processedCount st) cs)).
Proof.
  intros Hcs Hjunk. revert st. induction Hcs as [|[[o s] d] cs Hc _ IH]; intros st.
  - cbn [map app suggest List.length]. rewrite Nat.add_0_r, !app_nil_r.
    induction Hjunk as [|e junk He _ IHj]; [now destruct st|].
    cbn [ToolsService.processElements]. now rewrite He.
  - cbn [map app element ToolsService.processElements].
    assert (Hcomplete : ToolsService.completeElement
                          (Some (ToolsService.mkPartialElement (Some o) (Some s) (Some d)))
                        = Some (o, s, d)).
    { cbn in Hc. cbn. now rewrite Hc. }
    rewrite Hcomplete, IH.
    cbn [ToolsService.processedCount ToolsService.suggestions ToolsService.effects
         suggest List.length map].
    rewrite <- !app_assoc. cbn [app]. f_equal. lia.
Qed.

End MoreSuggestions.

Section Cumulative.

Variable generateUUID : nat -> string.
Variable documentId : string.
Variable cs : list (string * string * string).
Hypothesis complete : Forall (fun c => allTruthy c = true) cs.

Lemma suggest_app (n : nat) (xs ys : list (string * string * string)) :
  suggest generateUUID documentId n (xs ++ ys)
  = suggest generateUUID documentId n xs
    ++ suggest generateUUID documentId (n + List.length xs) ys.
Proof.
  revert n. induction xs as [|[[o s] d] xs IH]; intros n.
  - cbn. now rewrite Nat.add_0_r.
  - cbn [app suggest List.length]. rewrite IH.
    now replace (S n + List.length xs)%nat with (n + S (List.length xs))%nat by lia.
Qed.

Lemma Forall_skipn_local {A} (P : A -> Prop) (n : nat) (l : list A) :
  Forall P l -> Forall P (skipn n l).
Proof.
  revert l. induction n as [|n IH]; intros l Hl; [exact Hl|].
  destruct l as [|x l]; [constructor|]. cbn. apply IH. now inversion Hl.
Qed.

Lemma Forall_firstn_local {A} (P : A -> Prop) (n : nat) (l : list A) :
  Forall P l -> Forall P (firstn n l).
Proof.
  revert l. induction n as [|n IH]; intros l Hl; [constructor|].
  destruct l as [|x l]; [constructor|]. cbn. inversion Hl. constructor; auto.
Qed.

Lemma caughtUp_step (K k : nat)
    (junk : list (option ToolsService.PartialElement)) :
  (K <= List.length cs)%nat ->
  (k <= List.length cs)%nat ->
  Forall (fun e => ToolsService.completeElement e = None) junk ->
  ToolsService.processElements generateUUID documentId
    (skipn K (partialOutput cs (k, junk))) (caughtUpAt generateUUID documentId cs K)
  = caughtUpAt generateUUID documentId cs (Nat.max K k).
Proof.
  intros HK Hk Hjunk. unfold partialOutput. cbn [fst snd].
  rewrite skipn_app, length_map, length_firstn, (Nat.min_l _ _ Hk).
  destruct (Nat.le_gt_cases K k) as [Hle|Hgt].
  - replace (K - k)%nat with 0%nat by lia. cbn [skipn].
    rewrite skipn_map.
    rewrite (processElements_complete_then_junk generateUUID documentId
               (skipn K (firstn k cs)) junk (caughtUpAt generateUUID documentId cs K)
               (Forall_skipn_local _ _ _ (Forall_firstn_local _ _ _ complete)) Hjunk).
    unfold caughtUpAt. cbn [ToolsService.processedCount ToolsService.suggestions
                            ToolsService.effects].
    rewrite (Nat.max_r _ _ Hle).
    assert (Hlen : List.length (firstn K cs) = K)
      by (rewrite length_firstn; lia).
    assert (Hrest : List.length (skipn K (firstn k cs)) = (k - K)%nat)
      by (rewrite length_skipn, length_firstn; lia).
    assert (Hsplit : firstn k cs = firstn K cs ++ skipn K (firstn k cs)).
    { rewrite <- (firstn_skipn K (firstn k cs)) at 1.
      now rewrite firstn_firstn, (Nat.min_l _ _ Hle). }
    revert Hrest Hsplit. generalize (skipn K (firstn k cs)). intros rest Hrest Hsplit.
    rewrite Hsplit, suggest_app, Hlen, map_app, Hrest. cbn [Nat.add].
    f_equal. lia.
  - rewrite (Nat.max_l K k) by lia.
    assert (Hnone : skipn K (map element (firstn k cs)) = []).
    { apply skipn_all2. rewrite length_map, length_firstn. lia. }
    rewrite Hnone. cbn [app].
    pose proof (processElements_complete_then_junk generateUUID documentId []
                  (skipn (K - k) junk) (caughtUpAt generateUUID documentId cs K) (Forall_nil _)
                  (Forall_skipn_local _ _ _ Hjunk)) as Hrun.
    cbn [map app suggest List.length] in Hrun. rewrite Hrun.
    unfold caughtUpAt. cbn [ToolsService.processedCount ToolsService.suggestions
                          ToolsService.effects].
    now rewrite Nat.add_0_r, !app_nil_r.
Qed.

Lemma processStream_cumulative
    (shapes : list (option (nat * list (option ToolsService.PartialElement)))) :
  Forall (inShape cs) shapes ->
  ToolsService.processStream generateUUID documentId
    (map (option_map (partialOutput cs)) shapes)
  = caughtUpAt generateUUID documentId cs (reached shapes) /\
  (reached shapes <= List.length cs)%nat.
Proof.
  unfold ToolsService.processStream, reached.
  change (ToolsService.mkSuggestState 0 [] []) with (caughtUpAt generateUUID documentId cs 0).
  assert (H0 : (0 <= List.length cs)%nat) by lia.
  revert H0. generalize 0%nat.
  induction shapes as [|shape shapes IH]; intros K HK Hall; [now split|].
  inversion Hall as [|? ? Hshape Hrest]. subst.
  cbn [map fold_left]. destruct shape as [[k junk]|].
  - destruct Hshape as [Hk Hjunk]. cbn [option_map].
    change (ToolsService.processedCount (caughtUpAt generateUUID documentId cs K)) with K.
    rewrite (caughtUp_step K k junk HK Hk Hjunk).
    apply IH; [lia | exact Hrest].
  - cbn [option_map]. now apply IH.
Qed.

End Cumulative.

(** X19: On a model that streams its array cumulatively (each partial output
    shows the first elements complete and, after them, only elements still
    incomplete), every element yields exactly one suggestion, in the order
    of the array, however often it is shown: the batch is the suggestions
    for the elements shown complete so far, the [n]-th one under the
    [n]-th identifier generated, and each is emitted once. *)
Theorem suggestions_once_per_element
    (getDocumentById : string -> option Artifacts.Document)
    (generateUUID : nat -> string) (now : Z)
    (partialOutputStream : string -> list (option (list (option ToolsService.PartialElement))))
    (session : JwtPayload) (documentId : string)
    (document : Artifacts.Document) (content : string)
    (cs : list (string * string * string))
    (shapes : list (option (nat * list (option ToolsService.PartialElement)))) :
  getDocumentById documentId = Some document ->
  ToolsService.hasContent document = Some content ->
  Forall (fun c => allTruthy c = true) cs ->
  Forall (inShape cs) shapes ->
  partialOutputStream content = map (option_map (partialOutput cs)) shapes ->
  let batch := suggest generateUUID documentId 0 (firstn (reached shapes) cs) in
  fst (ToolsService.requestSuggestions getDocumentById generateUUID now partialOutputStream
         session documentId)
    = map emitSuggestion batch ++
      (if Js.truthy (jwt_id session)
       then [Artifacts.SaveSuggestions
               (map (fun suggestion =>
                       Artifacts.mkSuggestionRow suggestion (jwt_id session) now
                         (Artifacts.doc_createdAt document))
                    batch)]
       else []) /\
  (reached shapes = List.length cs ->
   batch = suggest generateUUID documentId 0 cs).
Proof.
  intros Hdoc Hcontent Hcs Hshapes Hstream. cbn zeta. split.
  - unfold ToolsService.requestSuggestions. rewrite Hdoc, Hcontent, Hstream.
    destruct (processStream_cumulative generateUUID documentId cs Hcs shapes Hshapes)
      as [-> _].
    reflexivity.
  - intros ->. now rewrite firstn_all.
Qed.

Lemma suggestions_once_per_element_witness :
  fst (ToolsService.requestSuggestions Samples.documents Samples.uuids 5000
         Samples2.streamed Samples.alice "d1")
  = map emitSuggestion (suggest Samples.uuids "d1" 0 Samples2.threeSentences)
    ++ [Artifacts.SaveSuggestions
          (map (fun suggestion => Artifacts.mkSuggestionRow suggestion "alice" 5000 1000)
               (suggest Samples.uuids "d1" 0 Samples2.threeSentences))].
Proof.
  destruct (suggestions_once_per_element Samples.documents Samples.uuids 5000
              Samples2.streamed Samples.alice "d1" Samples.essay
              "One. Two. Three. Four. Five. Six." Samples2.threeSentences
              [None; Some (1%nat, [Samples2.halfDone]); Some (1%nat, []); Some (3%nat, [])]
              eq_refl eq_refl)
    as [Hrun _].
  - repeat constructor.
  - repeat constructor.
  - reflexivity.
  - exact Hrun.
Defined.

(** X20: [requestSuggestions] without a usable document or without a user.
    For an id the Store does not hold, and for a document without content
    or with empty content, the tool returns the error payload and neither
    emits nor persists anything. For a session without a user id nothing is
    handed to the Store, whatever the model suggests. *)
Theorem requestSuggestions_nothing_persisted
    (getDocumentById : string -> option Artifacts.Document)
    (generateUUID : nat -> string) (now : Z)
    (partialOutputStream : string -> list (option (list (option ToolsService.PartialElement))))
    (session : JwtPayload) (documentId : string) :
  let run :=
    ToolsService.requestSuggestions getDocumentById generateUUID now partialOutputStream
      session documentId in
  (getDocumentById documentId = None \/
   (exists document,
      getDocumentById documentId = Some document /\
      (Artifacts.doc_content document = None \/
       Artifacts.doc_content document = Some "")) ->
   run = ([], ToolsService.returned (ToolsService.error_payload "Document not found"))) /\
  (jwt_id session = "" -> filter isStoreWrite (fst run) = []).
Proof.
  cbn zeta. unfold ToolsService.requestSuggestions, ToolsService.hasContent. split.
  - intros [-> | (document & -> & [-> | ->])]; reflexivity.
  - intros ->.
    destruct (getDocumentById documentId) as [document|]; [|reflexivity].
    destruct (Artifacts.doc_content document) as [content|]; [|reflexivity].
    destruct (Js.truthy content); [|reflexivity].
    cbn [fst Js.truthy]. rewrite app_nil_r.
    destruct (processStream_inStep generateUUID documentId (partialOutputStream content))
      as [-> _].
    induction (ToolsService.suggestions _) as [|s ss IH]; [reflexivity | exact IH].
Qed.

Lemma requestSuggestions_nothing_persisted_witness :
  ToolsService.requestSuggestions Samples.documents Samples.uuids 5000
    Samples.sixSuggestions Samples.alice "d9"
  = ([], ToolsService.returned (ToolsService.error_payload "Document not found")) /\
  filter isStoreWrite
    (fst (ToolsService.requestSuggestions Samples.documents Samples.uuids 5000
            Samples.sixSuggestions Samples2.anonymous "d1")) = [].
Proof.
  split.
  - apply (proj1 (requestSuggestions_nothing_persisted Samples.documents Samples.uuids 5000
                    Samples.sixSuggestions Samples.alice "d9")).
    left. reflexivity.
  - apply (proj2 (requestSuggestions_nothing_persisted Samples.documents Samples.uuids 5000
                    Samples.sixSuggestions Samples2.anonymous "d1")).
    reflexivity.
Defined.

(** X21: Whatever the model streams, the suggestions of a batch carry the
    identifiers generated during the call in the order of generation (the
    first suggestion the first identifier, and so on, none skipped), they
    all belong to the document asked for, and none is resolved. *)
Theorem suggestions_are_labelled
    (generateUUID : nat -> string) (documentId : string)
    (stream : list (option (list (option ToolsService.PartialElement)))) :
  let batch :=
    ToolsService.suggestions (ToolsService.processStream generateUUID documentId stream) in
  map sg_id batch = map generateUUID (seq 0 (List.length batch)) /\
  Forall (fun s => sg_documentId s = documentId /\ sg_isResolved s = false) batch.
Proof.
  cbn zeta.
  destruct (processStream_labelled generateUUID documentId stream) as [Hids Hall].
  destruct (processStream_inStep generateUUID documentId stream) as [_ Hcount].
  rewrite <- Hcount. split; assumption.
Qed.

(** * Properties of the frontend utilities *)

Lemma replaceChar_app (c : ascii) (replacement a b : string) :
  Utils.replaceChar c replacement (a ++ b)
  = (Utils.replaceChar c replacement a ++ Utils.replaceChar c replacement b)%string.
Proof.
  induction a as [|x a IH]; [reflexivity|]. cbn.
  destruct (Ascii.eqb x c); rewrite IH; [now rewrite append_assoc | reflexivity].
Qed.








Lemma toString16_digit (v : Z) :
  0 <= v < 16 -> Utils.toString16 v = String (Utils.hexChar v) EmptyString.
Proof.
  intros Hv. unfold Utils.toString16.
  destruct (Z.ltb_spec v 0) as [Hneg|_]; [lia|].
  replace (Z.to_nat v + 1)%nat with (S (Z.to_nat v)) by lia.
  cbn [Utils.toHex].
  destruct (Z.ltb_spec v 16) as [_|Hge]; [|lia].
  now rewrite Z.mod_small.
Qed.

Lemma small_cases (P : Z -> Prop) (v : Z) :
  0 <= v < 16 ->
  P 0 -> P 1 -> P 2 -> P 3 -> P 4 -> P 5 -> P 6 -> P 7 ->
  P 8 -> P 9 -> P 10 -> P 11 -> P 12 -> P 13 -> P 14 -> P 15 ->
  P v.
Proof.
  intros Hv. intros.
  assert (Hcase : v = 0 \/ v = 1 \/ v = 2 \/ v = 3 \/ v = 4 \/ v = 5 \/ v = 6 \/ v = 7 \/
                  v = 8 \/ v = 9 \/ v = 10 \/ v = 11 \/ v = 12 \/ v = 13 \/ v = 14 \/
                  v = 15) by lia.
  repeat (destruct Hcase as [-> | Hcase]; [assumption|]). now subst.
Qed.

Lemma replacement_x (r : Z) :
  0 <= r < 16 ->
  exists c, Utils.replacement "x" r = String c EmptyString /\ Utils.isHex c = true.
Proof.
  intros Hr. unfold Utils.replacement. cbn [Ascii.eqb Bool.eqb].
  rewrite (toString16_digit r Hr). eexists. split; [reflexivity|].
  apply (small_cases (fun v => Utils.isHex (Utils.hexChar v) = true) r Hr); reflexivity.
Qed.

Lemma replacement_y (r : Z) :
  0 <= r < 16 ->
  exists c, Utils.replacement "y" r = String c EmptyString /\
            existsb (Ascii.eqb c) ["8"; "9"; "a"; "b"]%char = true.
Proof.
  intros Hr. unfold Utils.replacement. cbn [Ascii.eqb Bool.eqb].
  apply (small_cases
           (fun v => exists c,
              Utils.toString16 (Z.lor (Z.land v 3) 8) = String c EmptyString /\
              existsb (Ascii.eqb c) ["8"; "9"; "a"; "b"]%char = true) r Hr);
    eexists; split; reflexivity.
Qed.

(** X23: generateUUID (frontend utils).  Whatever the random draws, as
    long as each is one of 0..15 as [(Math.random() * 16) | 0] is, the
    result has 36 characters: hyphens at positions 8, 13, 18 and 23, the
    digit 4 at position 14, one of 8, 9, a, b at position 19 and a lower
    case hexadecimal digit everywhere else. *)
Theorem generateUUID_is_version4 (draw : nat -> Z) :
  (forall n, 0 <= draw n < 16) ->
  String.length (Utils.generateUUID draw) = 36%nat /\
  forall i c,
    String.get i (Utils.generateUUID draw) = Some c -> Utils.uuidChar i c = true.
Proof.
  intros Hdraw. unfold Utils.generateUUID.
  cbn [Utils.fill Ascii.eqb Bool.eqb orb].
  repeat match goal with
  | |- context [Utils.replacement "x" (draw ?n)] =>
      let c := fresh "c" in
      let E := fresh "E" in
      let Hc := fresh "Hc" in
      destruct (replacement_x (draw n) (Hdraw n)) as (c & E & Hc);
      rewrite E; clear E
  | |- context [Utils.replacement "y" (draw ?n)] =>
      let c := fresh "c" in
      let E := fresh "E" in
      let Hc := fresh "Hc" in
      destruct (replacement_y (draw n) (Hdraw n)) as (c & E & Hc);
      rewrite E; clear E
  end.
  cbn [String.append]. split; [reflexivity|].
  intros i ch Hget.
  do 36 (destruct i as [|i];
         [cbn [String.get] in Hget; injection Hget as <-;
          first [assumption | reflexivity]|]).
  cbn [String.get] in Hget. destruct i; discriminate Hget.
Qed.

Lemma generateUUID_is_version4_witness :
  String.length (Utils.generateUUID Samples2.draws) = 36%nat /\
  Utils.generateUUID Samples2.draws = "07e5c3a1-8f6d-44b2-907e-5c3a18f6d4b2"%string.
Proof.
  split.
  - apply (proj1 (generateUUID_is_version4 Samples2.draws
                    ltac:(intros n; unfold Samples2.draws;
                          apply Z.mod_pos_bound; lia))).
  - vm_compute. reflexivity.
Defined.

(** X24: ChatController.deleteChat, deleteTrailingMessages and
    updateChatVisibility, composed with the service methods they call.
    A request is answered successfully only when it carries an identity
    and that user owns the chat concerned (for deleteChat, the id is not
    empty either), and has then issued exactly one Store write; every
    other request is answered with status 400, 401, 403 or 404 and has
    written nothing. *)
Theorem management_endpoints_write_only_for_owner
    (id messageId : string) (visibility : Visibility)
    (usr : option JwtPayload) (db : Db.t) :
  let settled (r : Controller.Response unit * list Management.write)
              (target : option string) :=
    match fst r with
    | Controller.ok _ =>
        (exists wr, snd r = [wr]) /\
        exists u chatId c,
          usr = Some u /\ target = Some chatId /\
          Db.getChatById chatId db = Some c /\ chat_userId c = jwt_id u
    | Controller.failed e =>
        snd r = [] /\ In (Controller.status e) [400; 401; 403; 404]
    end in
  settled (Controller.deleteChat id usr db) (Some id) /\
  (forall a, fst (Controller.deleteChat id usr db) = Controller.ok a -> id <> ""%string) /\
  settled (Controller.updateChatVisibility id visibility usr db) (Some id) /\
  settled (Controller.deleteTrailingMessages messageId usr db)
          (option_map m_chatId (Management.getMessageById messageId db)).
Proof.
  cbn zeta.
  destruct usr as [u|]; cbn;
    [|repeat split; try discriminate; cbn; tauto].
  split; [|split; [|split]].
  - destruct (Js.truthy id) eqn:Hid; cbn; [|split; [reflexivity | cbn; tauto]].
    unfold Management.deleteChat.
    destruct (Db.getChatById id db) as [c|] eqn:Hc; cbn;
      [|split; [reflexivity | cbn; tauto]].
    destruct (String.eqb_spec (chat_userId c) (jwt_id u)) as [E|_]; cbn.
    + split; [eexists; reflexivity|]. exists u, id, c. now repeat split.
    + split; [reflexivity | cbn; tauto].
  - intros a. destruct id; cbn; [discriminate|]. intros _. discriminate.
  - unfold Management.updateChatVisibility.
    destruct (Db.getChatById id db) as [c|] eqn:Hc; cbn;
      [|split; [reflexivity | cbn; tauto]].
    destruct (String.eqb_spec (chat_userId c) (jwt_id u)) as [E|_]; cbn.
    + split; [eexists; reflexivity|]. exists u, id, c. now repeat split.
    + split; [reflexivity | cbn; tauto].
  - unfold Management.deleteTrailingMessages.
    destruct (Management.getMessageById messageId db) as [m|]; cbn;
      [|split; [reflexivity | cbn; tauto]].
    destruct (Db.getChatById (m_chatId m) db) as [c|] eqn:Hc; cbn;
      [|split; [reflexivity | cbn; tauto]].
    destruct (String.eqb_spec (chat_userId c) (jwt_id u)) as [E|_]; cbn.
    + split; [eexists; reflexivity|]. exists u, (m_chatId m), c. now repeat split.
    + split; [reflexivity | cbn; tauto].
Qed.

(** X25: ChatController.createChat, getChat and getStream, composed
    with the service they call. A request without an identity is answered
    with [unauthorized:chat] (401) and the service is not called, whatever
    service the controller was given. In createChat an [HttpException] of
    the service reaches the client as it is, and everything else the call
    may throw is answered with [bad_request:activate_gateway] (400) when it
    is an Error whose message contains the gateway phrase, and with
    [offline:chat] (503) otherwise; the catch leaves whatever the service
    had written by then as it is. The rejections of createChatStream
    itself (quota, ownership) therefore arrive with status 429 or 403 and
    with nothing written. getChat and getStream have no catch: a failure
    of the service of the model is a 403 or a 404, and the Store is as it
    was. *)
Theorem chat_endpoints_failures
    (entitlementsByUserType : string -> Entitlements) (now : Z) (generateUUID : string)
    (streamContext : option ResumableStreamContext)
    (service : Controller.Service) (dto : Dto) (id : string) (u : JwtPayload) (w : World) :
  (Controller.createChat service dto None w
   = (Controller.failed Controller.unauthorized_chat, w) /\
   Controller.getChat id None w = (Controller.failed Controller.unauthorized_chat, w) /\
   Controller.getStream now streamContext id None w
   = (Controller.failed Controller.unauthorized_chat, w) /\
   Controller.status Controller.unauthorized_chat = 401) /\
  (forall error w', service dto u w = (Controller.raised error, w') ->
   exists e,
     Controller.createChat service dto (Some u) w = (Controller.failed e, w') /\
     (forall h, error = Controller.thrown_http h -> e = Controller.service_error h) /\
     ((forall h, error <> Controller.thrown_http h) ->
      (e = Controller.bad_request_activate_gateway /\ Controller.status e = 400 \/
       e = Controller.offline_chat /\ Controller.status e = 503) /\
      (e = Controller.bad_request_activate_gateway <->
       exists pre post,
         error = Controller.thrown_error
                   (Some (pre ++ Controller.gatewayPhrase ++ post)%string)))) /\
  (forall h w',
     ChatService.createChatStream entitlementsByUserType now generateUUID dto u w
     = (Throw h, w') ->
     Controller.createChat
       (Controller.modelled entitlementsByUserType now generateUUID) dto (Some u) w
     = (Controller.failed (Controller.service_error h), w) /\
     In (Controller.status (Controller.service_error h)) [403; 429]) /\
  (forall e w',
     Controller.getChat id (Some u) w = (Controller.failed e, w') \/
     Controller.getStream now streamContext id (Some u) w = (Controller.failed e, w') ->
     w' = w /\ In (Controller.status e) [403; 404]).
Proof.
  split; [repeat split|]. split; [|split].
  - intros error w' Hcall. unfold Controller.createChat. rewrite Hcall.
    eexists. split; [reflexivity|]. split.
    + intros h ->. reflexivity.
    + intros Hother. destruct error as [h|[message|]|]; cbn.
      * exfalso. now apply (Hother h).
      * destruct (Js.includes Controller.gatewayPhrase message) eqn:Hinc.
        -- split; [left; now split|]. split; [|reflexivity].
           intros _. apply includes_spec in Hinc. destruct Hinc as (pre & post & ->).
           now exists pre, post.
        -- split; [right; now split|]. split; [discriminate|].
           intros (pre & post & Heq). injection Heq as Heq.
           assert (Hin : Js.includes Controller.gatewayPhrase message = true)
             by (apply includes_spec; now exists pre, post).
           rewrite Hin in Hinc. discriminate Hinc.
      * split; [right; now split|]. split; [discriminate|].
        intros (pre & post & Heq). discriminate.
      * split; [right; now split|]. split; [discriminate|].
        intros (pre & post & Heq). discriminate.
  - intros h w' Hrun. unfold Controller.createChat, Controller.modelled.
    rewrite Hrun. cbn [Controller.ofService Controller.onError].
    revert Hrun. unfold ChatService.createChatStream. svc_unfold.
    destruct (_ >? _).
    + intros H. inversion H. cbn. split; [reflexivity | tauto].
    + destruct (Db.getChatById (dto_id dto) (w_db w)) as [c|].
      * destruct (negb (chat_userId c =? jwt_id u)%string).
        -- intros H. inversion H. cbn. split; [reflexivity | tauto].
        -- destruct (negb (ChatService.Boolean (dto_messages dto)));
             destruct (ChatService.roleIsUser (dto_message dto));
             destruct (dto_message dto); cbn; discriminate.
      * destruct (ChatService.roleIsUser (dto_message dto));
          destruct (dto_message dto); cbn; discriminate.
  - intros e w' [Hread|Hresume].
    + revert Hread. unfold Controller.getChat, ChatService.getChatWithMessages.
      svc_unfold. intros H.
      repeat match type of H with
      | context [match ?x with _ => _ end] => destruct x eqn:?; cbn in H
      end;
        inversion H; cbn; split; try reflexivity; tauto.
    + revert Hresume.
      unfold Controller.getStream, ChatService.getResumableStream,
        ChatService.restoreFromDatabase.
      svc_unfold. intros H.
      repeat match type of H with
      | context [match ?x with _ => _ end] => destruct x eqn:?; cbn in H
      end;
        inversion H; cbn; split; try reflexivity; tauto.
Qed.

Lemma chat_endpoints_failures_witness :
  Controller.createChat Samples2.refused Samples.freshDto (Some Samples.alice)
    (initial Samples.store2)
  = (Controller.failed Controller.bad_request_activate_gateway, initial Samples.store2) /\
  (exists w',
     Controller.createChat Samples2.interrupted Samples.freshDto (Some Samples.alice)
       (initial Samples.store2)
     = (Controller.failed Controller.offline_chat, w') /\
     w_journal w' = [Db.SaveMessages [Samples.row "m3" "c1" user 5000]]) /\
  Controller.createChat (Controller.modelled Samples.entitlements 5000 "s2")
    Samples.freshDto (Some Samples.bob) (initial Samples2.storePublic)
  = (Controller.failed
       (Controller.service_error (mkHttpException forbidden_chat FORBIDDEN)),
     initial Samples2.storePublic).
Proof.
  destruct (chat_endpoints_failures Samples.entitlements 5000 "s2" None
              Samples2.refused Samples.freshDto "c1" Samples.alice
              (initial Samples.store2)) as (_ & Hcatch & _ & _).
  destruct (Hcatch _ _ eq_refl) as (e & Hrun & _ & Hother).
  destruct (Hother ltac:(discriminate)) as [_ Hgateway].
  assert (He : e = Controller.bad_request_activate_gateway).
  { apply Hgateway. exists "Error: "%string, "."%string. reflexivity. }
  subst e.
  split; [exact Hrun|]. split.
  - eexists. split; [vm_compute; reflexivity | reflexivity].
  - destruct (chat_endpoints_failures Samples.entitlements 5000 "s2" None
                (Controller.modelled Samples.entitlements 5000 "s2") Samples.freshDto
                "c1" Samples.bob (initial Samples2.storePublic)) as (_ & _ & Hown & _).
    exact (proj1 (Hown _ _ eq_refl)).
Defined.
